(** * Stock-summary synchronisation and query engine

    A shallow embedding of [controllers/stockSummaryController.js] (the
    second document of [src/controllers/dateTimeController.js]) and of its
    routes (the second document of [src/routes/backupRoutes.js]): the two
    loan readers, the synchroniser, the query and filter engine, the status
    update, the overdue sweep and the dashboard, followed by the properties
    the specification states about them.

    Conventions of the embedding.
    - A JavaScript property that may be missing is an [option]; [None] is
      [undefined].
    - Numbers are integers ([Z]): amounts, weights and rates are only
      tested against zero, copied and summed by this code.
    - A [Date] is its time value in milliseconds since the epoch;
      [None] is a missing or invalid date (time value NaN), for which every
      comparison is false.  Calendar arithmetic is done in UTC.
    - Strings are byte strings; [toLowerCase] lowers the ASCII letters.
    - One request sees one clock value [now].
    - The Mongoose models are not among the sources.  The collections are
      described by what their queries return, and each access either
      succeeds or throws. *)

From Stdlib Require Import ZArith Lia Bool Ascii String.
From stdpp Require Import base option list strings gmap.

Local Open Scope Z_scope.

(** ** JavaScript primitives used by the controller *)

Module JS.

(** [x || d] on a number that may be missing: [undefined] and [0] are
    falsy. *)
Definition or_num (x : option Z) (d : Z) : Z :=
  match x with
  | Some v => if v =? 0 then d else v
  | None => d
  end.

(** [x || y] where the right operand may itself be missing. *)
Definition or_else (x y : option Z) : option Z :=
  match x with
  | Some v => if v =? 0 then y else Some v
  | None => y
  end.

(** Truthiness of a string property: [undefined] and [''] are falsy. *)
Definition truthy_str (x : option string) : bool :=
  match x with
  | Some s => negb (String.eqb s "")
  | None => false
  end.

(** [x || d] on a string property. *)
Definition or_str (x : option string) (d : string) : string :=
  match x with
  | Some s => if String.eqb s "" then d else s
  | None => d
  end.

(** [xs || []]. *)
Definition or_nil {A} (x : option (list A)) : list A :=
  match x with
  | Some l => l
  | None => []
  end.

(** [a === b] on string properties ([b] a string value). *)
Definition str_eq (x : option string) (s : string) : bool :=
  match x with
  | Some t => String.eqb t s
  | None => false
  end.

(** [String.prototype.toLowerCase], ASCII letters. *)
Definition lower_ascii (c : ascii) : ascii :=
  let n := nat_of_ascii c in
  if (65 <=? n)%nat && (n <=? 90)%nat then ascii_of_nat (n + 32) else c.

Fixpoint toLowerCase (s : string) : string :=
  match s with
  | EmptyString => EmptyString
  | String c r => String (lower_ascii c) (toLowerCase r)
  end.

(** [String.prototype.includes]: [sub] occurs in [s] at some position. *)
Fixpoint includes (s sub : string) : bool :=
  String.prefix sub s ||
  match s with
  | EmptyString => false
  | String _ r => includes r sub
  end.

(** [Math.ceil(a / b)] on integers ([Z.div] rounds down). *)
Definition ceil_div (a b : Z) : Z := - ((- a) / b).

(** [Math.round(100 * a / b)]: halves round up. *)
Definition round_percent (a b : Z) : Z := (200 * a + b) / (2 * b).

(** [Array.prototype.slice(start, end)], negative indices counting from
    the end of the array. *)
Definition rel_index (len i : Z) : Z :=
  if i <? 0 then Z.max (len + i) 0 else Z.min i len.

Definition slice {A} (l : list A) (s e : Z) : list A :=
  let len := Z.of_nat (length l) in
  let k := rel_index len s in
  let final := rel_index len e in
  take (Z.to_nat (final - k)) (drop (Z.to_nat k) l).

(** [Array.prototype.findIndex]. *)
Fixpoint findIndex {A} (p : A -> bool) (l : list A) : option nat :=
  match l with
  | [] => None
  | x :: r => if p x then Some 0%nat else S <$> findIndex p r
  end.

End JS.

(** ** Dates *)

Module JSDate.

Definition Date := option Z.

Definition msPerDay : Z := 1000 * 60 * 60 * 24.

(** [a < b] and [a >= b] on dates; false as soon as one side is invalid. *)
Definition lt (a b : Date) : bool :=
  match a, b with
  | Some x, Some y => x <? y
  | _, _ => false
  end.

Definition ge (a b : Date) : bool :=
  match a, b with
  | Some x, Some y => y <=? x
  | _, _ => false
  end.

(** [Math.ceil((now - due) / msPerDay)]. *)
Definition daysBetween (now due : Z) : Z := JS.ceil_div (now - due) msPerDay.

Definition Day (t : Z) : Z := t / msPerDay.
Definition TimeWithinDay (t : Z) : Z := t mod msPerDay.

(** Day number of a civil date (proleptic Gregorian calendar, month in
    1..12), and back. *)
Definition days_from_civil (y m d : Z) : Z :=
  let y' := if m <=? 2 then y - 1 else y in
  let era := y' / 400 in
  let yoe := y' - era * 400 in
  let mp := if 2 <? m then m - 3 else m + 9 in
  let doy := (153 * mp + 2) / 5 + d - 1 in
  let doe := yoe * 365 + yoe / 4 - yoe / 100 + doy in
  era * 146097 + doe - 719468.

Definition civil_from_days (z : Z) : Z * Z * Z :=
  let z' := z + 719468 in
  let era := z' / 146097 in
  let doe := z' - era * 146097 in
  let yoe := (doe - doe / 1460 + doe / 36524 - doe / 146096) / 365 in
  let doy := doe - (365 * yoe + yoe / 4 - yoe / 100) in
  let mp := (5 * doy + 2) / 153 in
  let d := doy - (153 * mp + 2) / 5 + 1 in
  let m := if mp <? 10 then mp + 3 else mp - 9 in
  (yoe + era * 400 + (if m <=? 2 then 1 else 0), m, d).

(** [MakeDay(year, month, date)] with a zero-based month that may lie
    outside 0..11. *)
Definition MakeDay (year month date : Z) : Z :=
  days_from_civil (year + month / 12) (month mod 12 + 1) 1 + date - 1.

Definition MakeDate (day time : Z) : Z := day * msPerDay + time.

(** [d.setMonth(d.getMonth() + k)]. *)
Definition addMonths (k : Z) (t : Z) : Z :=
  let '(y, m, d) := civil_from_days (Day t) in
  MakeDate (MakeDay y (m - 1 + k) d) (TimeWithinDay t).

(** [d.setDate(d.getDate() + k)]. *)
Definition addDays (k : Z) (t : Z) : Z :=
  let '(y, m, d) := civil_from_days (Day t) in
  MakeDate (MakeDay y (m - 1) (d + k)) (TimeWithinDay t).

End JSDate.

Export JSDate(Date).

Local Open Scope string_scope.
Local Open Scope Z_scope.

(** ** Data model *)

Definition Id := string.

(** Jewellery item records are opaque to the controller. *)
Definition JewelryItem := string.

(** The customer document a voucher refers to, as populated by the
    voucher query. *)
Record Customer := {
  c_id : option Id;
  c_fullName : option string;
  c_phoneNumber : option string;
  c_address : option string
}.

Record Voucher := {
  v_id : option Id;
  v_billNo : option string;
  v_customer : option Customer;
  v_customerId : option string;
  v_customerName : option string;
  v_customerPhone : option string;
  v_jewelType : option string;
  v_grossWeight : option Z;
  v_netWeight : option Z;
  v_loanAmount : option Z;
  v_finalLoanAmount : option Z;
  v_interestRate : option Z;
  v_interestAmount : option Z;
  v_overallLoanAmount : option Z;
  v_disbursementDate : Date;
  v_dueDate : Date;
  v_status : option string;
  v_repaidAmount : option Z;
  v_balanceAmount : option Z;
  v_paymentProgress : option Z;
  v_lastPaymentDate : Date;
  v_monthsPaid : option Z;
  v_totalInterestPaid : option Z;
  v_closedDate : Date;
  v_jewelryItems : option (list JewelryItem)
}.

(** A transaction embedded in a day-book document. *)
Record Transaction := {
  t_voucherId : option Id;
  t_billNo : option string;
  t_customerId : option string;
  t_customerName : option string;
  t_jewelType : option string;
  t_netWeight : option Z;
  t_grossWeight : option Z;
  t_amount : option Z;
  t_interestRate : option Z;
  t_createdAt : Date
}.

(** A day-book document.  A transaction list is [None] when the section
    ([loansDisbursed], [closedLoans]) or its [transactions] array is
    missing. *)
Record DayBook := {
  db_id : option Id;
  db_date : Date;
  db_loansDisbursed : option (list Transaction);
  db_closedLoans : option (list Transaction)
}.

(** The denormalised loan.  The readers below leave [_id] unset; stored
    loans may carry one. *)
Record DerivedLoan := {
  dl_id : option Id;
  billNo : option string;
  customerId : option string;
  customerName : option string;
  customerPhone : option string;
  customerAddress : option string;
  jewelType : option string;
  grossWeight : option Z;
  netWeight : option Z;
  loanAmount : option Z;
  finalLoanAmount : option Z;
  interestRate : option Z;
  interestAmount : option Z;
  overallLoanAmount : option Z;
  disbursementDate : Date;
  dueDate : Date;
  status : option string;
  loanStatus : option string;
  repaidAmount : option Z;
  balanceAmount : option Z;
  paymentProgress : option Z;
  daysOverdue : option Z;
  lastPaymentDate : Date;
  monthsPaid : option Z;
  totalInterestPaid : option Z;
  closedDate : Date;
  voucherId : option Id;
  sourceType : option string;
  sourceId : option Id;
  jewelryItems : list JewelryItem
}.

Record StockSummary := {
  ss_loans : list DerivedLoan;
  ss_lastSyncedAt : Date;
  ss_lastUpdated : Z;
  ss_syncStatus : string;
  ss_dataVersion : string
}.

(** Modelled from the spec: the StockSummary schema
    (models/StockSummary.js) is not among the sources.  A snapshot built by
    [new StockSummary({loans, lastSyncedAt, syncStatus, dataVersion})]
    carries the four given fields, and its [lastUpdated], by which the
    current snapshot is selected, is the time of creation. *)
Definition newStockSummary (now : Z) (loans : list DerivedLoan) : StockSummary :=
  {| ss_loans := loans;
     ss_lastSyncedAt := Some now;
     ss_lastUpdated := now;
     ss_syncStatus := "synced";
     ss_dataVersion := "1.0" |}.

(** [stockSummary.lastUpdated = new Date()]. *)
Definition touch (now : Z) (s : StockSummary) (loans : list DerivedLoan) : StockSummary :=
  {| ss_loans := loans;
     ss_lastSyncedAt := ss_lastSyncedAt s;
     ss_lastUpdated := now;
     ss_syncStatus := ss_syncStatus s;
     ss_dataVersion := ss_dataVersion s |}.

(** ** The document store and the request monad *)

(** [st_vouchers] holds the vouchers in the order of
    [Voucher.find({}).populate(..).sort(..)]; [st_countOk] and
    [st_vouchersOk] tell whether [Voucher.countDocuments()] and that query
    succeed.  [st_dayBooks] is what [DayBook.find({}).sort(..)] returns,
    [None] when it throws.  The last three flags tell whether reads,
    deletions and writes of the snapshot collection succeed. *)
Record Store := {
  st_vouchers : list Voucher;
  st_countOk : bool;
  st_vouchersOk : bool;
  st_dayBooks : option (list DayBook);
  st_summaries : list StockSummary;
  st_findOk : bool;
  st_deleteOk : bool;
  st_saveOk : bool
}.

Definition with_summaries (st : Store) (l : list StockSummary) : Store :=
  {| st_vouchers := st_vouchers st;
     st_countOk := st_countOk st;
     st_vouchersOk := st_vouchersOk st;
     st_dayBooks := st_dayBooks st;
     st_summaries := l;
     st_findOk := st_findOk st;
     st_deleteOk := st_deleteOk st;
     st_saveOk := st_saveOk st |}.

Inductive Outcome (A : Type) :=
| Return (a : A)
| Throw (message : string).
Arguments Return {A} a.
Arguments Throw {A} message.

(** An asynchronous computation: it reads and updates the store and either
    returns or throws; updates made before a throw stay. *)
Definition M (A : Type) := Store -> Store * Outcome A.

Definition ret {A} (a : A) : M A := fun st => (st, Return a).

Definition throw {A} (msg : string) : M A := fun st => (st, Throw msg).

Definition bind {A B} (m : M A) (k : A -> M B) : M B :=
  fun st =>
    match m st with
    | (st', Return a) => k a st'
    | (st', Throw e) => (st', Throw e)
    end.

Definition try_catch {A} (m : M A) (h : string -> M A) : M A :=
  fun st =>
    match m st with
    | (st', Return a) => (st', Return a)
    | (st', Throw e) => h e st'
    end.

Notation "'await' x <- m 'in' k" := (bind m (fun x => k))
  (at level 10, x name, m at level 100, k at level 200, only parsing).
Notation "'await_' m 'in' k" := (bind m (fun _ => k))
  (at level 10, m at level 100, k at level 200, only parsing).

Module Voucher.
Definition countDocuments : M nat :=
  fun st =>
    if st_countOk st then (st, Return (length (st_vouchers st)))
    else (st, Throw "voucher collection unavailable").

Definition find : M (list Voucher) :=
  fun st =>
    if st_vouchersOk st then (st, Return (st_vouchers st))
    else (st, Throw "voucher collection unavailable").
End Voucher.

Module DayBookModel.
Definition find : M (list DayBook) :=
  fun st =>
    match st_dayBooks st with
    | Some l => (st, Return l)
    | None => (st, Throw "daybook collection unavailable")
    end.
End DayBookModel.

Module StockSummaryModel.

(** The first snapshot with the greatest [lastUpdated], with its
    position in the collection. *)
Fixpoint latestFrom (best : nat * StockSummary) (i : nat)
    (l : list StockSummary) : nat * StockSummary :=
  match l with
  | [] => best
  | s :: r =>
      latestFrom
        (if ss_lastUpdated (snd best) <? ss_lastUpdated s then (i, s) else best)
        (S i) r
  end.

Definition latest (l : list StockSummary) : option (nat * StockSummary) :=
  match l with
  | [] => None
  | s :: r => Some (latestFrom (0%nat, s) 1%nat r)
  end.

(** [StockSummary.findOne().sort({ lastUpdated: -1 })]; the document
    comes with the position [save] writes it back to. *)
Definition findOne : M (option (nat * StockSummary)) :=
  fun st =>
    if st_findOk st then (st, Return (latest (st_summaries st)))
    else (st, Throw "snapshot collection unavailable").

(** [StockSummary.deleteMany({})]. *)
Definition deleteMany : M nat :=
  fun st =>
    if st_deleteOk st
    then (with_summaries st [], Return (length (st_summaries st)))
    else (st, Throw "snapshot collection unavailable").

(** [save()] of a new document. *)
Definition create (s : StockSummary) : M unit :=
  fun st =>
    if st_saveOk st
    then (with_summaries st (st_summaries st ++ [s])%list, Return tt)
    else (st, Throw "snapshot collection unavailable").

(** [save()] of a document obtained from [findOne]. *)
Definition save (i : nat) (s : StockSummary) : M unit :=
  fun st =>
    if st_saveOk st
    then (with_summaries st (<[i := s]> (st_summaries st)), Return tt)
    else (st, Throw "snapshot collection unavailable").

End StockSummaryModel.

(** ** Loan source readers *)

(** [Math.ceil((today - dueDate) / (1000 * 60 * 60 * 24))]; evaluated only
    where [dueDate < today] holds, so that the date is valid. *)
Definition daysSince (now : Z) (due : Date) : Z :=
  match due with
  | Some d => JSDate.daysBetween now d
  | None => 0
  end.

(** [a || b] on string properties. *)
Definition or_opt_str (x y : option string) : option string :=
  if JS.truthy_str x then x else y.

(** [['Active', 'Partial'].includes(status)]. *)
Definition isActiveOrPartial (st : option string) : bool :=
  JS.str_eq st "Active" || JS.str_eq st "Partial".

(** The loan built from one voucher by the [vouchers.map] callback of
    [createOrUpdateStockSummary]. *)
Definition voucherLoan (now : Z) (voucher : Voucher) : DerivedLoan :=
  let dueDate := v_dueDate voucher in
  let today := Some now in
  let isOverdue := JSDate.lt dueDate today && negb (JS.str_eq (v_status voucher) "Closed") in
  let daysOverdue := if isOverdue then daysSince now dueDate else 0 in
  {| dl_id := None;
     billNo := v_billNo voucher;
     customerId :=
       Some (JS.or_str (or_opt_str (v_customer voucher ≫= c_id) (v_customerId voucher)) "unknown");
     customerName :=
       Some (JS.or_str (or_opt_str (v_customer voucher ≫= c_fullName) (v_customerName voucher))
                       "Unknown Customer");
     customerPhone :=
       Some (JS.or_str (or_opt_str (v_customer voucher ≫= c_phoneNumber) (v_customerPhone voucher))
                       "N/A");
     customerAddress := Some (JS.or_str (v_customer voucher ≫= c_address) "N/A");
     jewelType := Some (JS.or_str (v_jewelType voucher) "gold");
     grossWeight := Some (JS.or_num (v_grossWeight voucher) 0);
     netWeight := Some (JS.or_num (v_netWeight voucher) 0);
     loanAmount := Some (JS.or_num (v_loanAmount voucher) 0);
     finalLoanAmount := Some (JS.or_num (v_finalLoanAmount voucher) 0);
     interestRate := Some (JS.or_num (v_interestRate voucher) 0);
     interestAmount := Some (JS.or_num (v_interestAmount voucher) 0);
     overallLoanAmount := Some (JS.or_num (v_overallLoanAmount voucher) 0);
     disbursementDate := v_disbursementDate voucher;
     dueDate := v_dueDate voucher;
     status := v_status voucher;
     loanStatus :=
       Some (if isOverdue then "overdue"
             else if JS.str_eq (v_status voucher) "Closed" then "closed"
             else if isActiveOrPartial (v_status voucher) then "active"
             else "inactive");
     repaidAmount := Some (JS.or_num (v_repaidAmount voucher) 0);
     balanceAmount := JS.or_else (v_balanceAmount voucher) (v_overallLoanAmount voucher);
     paymentProgress := Some (JS.or_num (v_paymentProgress voucher) 0);
     daysOverdue := Some daysOverdue;
     lastPaymentDate := v_lastPaymentDate voucher;
     monthsPaid := Some (JS.or_num (v_monthsPaid voucher) 0);
     totalInterestPaid := Some (JS.or_num (v_totalInterestPaid voucher) 0);
     closedDate := v_closedDate voucher;
     voucherId := v_id voucher;
     sourceType := Some "voucher";
     sourceId := v_id voucher;
     jewelryItems := JS.or_nil (v_jewelryItems voucher) |}.

(** The same callback as written in [getStockSummary]: it sets neither
    [lastPaymentDate], [monthsPaid], [totalInterestPaid] nor [closedDate]. *)
Definition voucherLoanOnRead (now : Z) (voucher : Voucher) : DerivedLoan :=
  let dueDate := v_dueDate voucher in
  let today := Some now in
  let isOverdue := JSDate.lt dueDate today && negb (JS.str_eq (v_status voucher) "Closed") in
  let daysOverdue := if isOverdue then daysSince now dueDate else 0 in
  {| dl_id := None;
     billNo := v_billNo voucher;
     customerId :=
       Some (JS.or_str (or_opt_str (v_customer voucher ≫= c_id) (v_customerId voucher)) "unknown");
     customerName :=
       Some (JS.or_str (or_opt_str (v_customer voucher ≫= c_fullName) (v_customerName voucher))
                       "Unknown Customer");
     customerPhone :=
       Some (JS.or_str (or_opt_str (v_customer voucher ≫= c_phoneNumber) (v_customerPhone voucher))
                       "N/A");
     customerAddress := Some (JS.or_str (v_customer voucher ≫= c_address) "N/A");
     jewelType := Some (JS.or_str (v_jewelType voucher) "gold");
     grossWeight := Some (JS.or_num (v_grossWeight voucher) 0);
     netWeight := Some (JS.or_num (v_netWeight voucher) 0);
     loanAmount := Some (JS.or_num (v_loanAmount voucher) 0);
     finalLoanAmount := Some (JS.or_num (v_finalLoanAmount voucher) 0);
     interestRate := Some (JS.or_num (v_interestRate voucher) 0);
     interestAmount := Some (JS.or_num (v_interestAmount voucher) 0);
     overallLoanAmount := Some (JS.or_num (v_overallLoanAmount voucher) 0);
     disbursementDate := v_disbursementDate voucher;
     dueDate := v_dueDate voucher;
     status := v_status voucher;
     loanStatus :=
       Some (if isOverdue then "overdue"
             else if JS.str_eq (v_status voucher) "Closed" then "closed"
             else if isActiveOrPartial (v_status voucher) then "active"
             else "inactive");
     repaidAmount := Some (JS.or_num (v_repaidAmount voucher) 0);
     balanceAmount := JS.or_else (v_balanceAmount voucher) (v_overallLoanAmount voucher);
     paymentProgress := Some (JS.or_num (v_paymentProgress voucher) 0);
     daysOverdue := Some daysOverdue;
     lastPaymentDate := None;
     monthsPaid := None;
     totalInterestPaid := None;
     closedDate := None;
     voucherId := v_id voucher;
     sourceType := Some "voucher";
     sourceId := v_id voucher;
     jewelryItems := JS.or_nil (v_jewelryItems voucher) |}.

(** [transaction.voucherId && transaction.billNo]. *)
Definition qualifies (transaction : Transaction) : bool :=
  JS.truthy_str (t_voucherId transaction) && JS.truthy_str (t_billNo transaction).

(** [new Date(transaction.createdAt || dayBook.date)]. *)
Definition disbursedAt (dayBook : DayBook) (transaction : Transaction) : Date :=
  match t_createdAt transaction with
  | Some t => Some t
  | None => db_date dayBook
  end.

(** [dueDate.setMonth(dueDate.getMonth() + 12)]. *)
Definition dueAfterYear (disbursement : Date) : Date :=
  JSDate.addMonths 12 <$> disbursement.

(** The loan pushed for a qualifying [loansDisbursed] transaction. *)
Definition disbursedLoan (now : Z) (dayBook : DayBook) (transaction : Transaction)
    : DerivedLoan :=
  let disbursement := disbursedAt dayBook transaction in
  let due := dueAfterYear disbursement in
  let today := Some now in
  let isOverdue := JSDate.lt due today in
  let daysOverdue := if isOverdue then daysSince now due else 0 in
  {| dl_id := None;
     billNo := t_billNo transaction;
     customerId := Some (JS.or_str (t_customerId transaction) "unknown");
     customerName := Some (JS.or_str (t_customerName transaction) "Unknown Customer");
     customerPhone := Some "N/A";
     customerAddress := Some "N/A";
     jewelType := Some (JS.or_str (t_jewelType transaction) "gold");
     grossWeight := Some (JS.or_num (t_netWeight transaction) 0);
     netWeight := Some (JS.or_num (t_netWeight transaction) 0);
     loanAmount := Some (JS.or_num (t_amount transaction) 0);
     finalLoanAmount := Some (JS.or_num (t_amount transaction) 0);
     interestRate := Some (JS.or_num (t_interestRate transaction) 0);
     interestAmount := Some 0;
     overallLoanAmount := Some (JS.or_num (t_amount transaction) 0);
     disbursementDate := disbursement;
     dueDate := due;
     status := Some (if isOverdue then "Overdue" else "Active");
     loanStatus := Some (if isOverdue then "overdue" else "active");
     repaidAmount := Some 0;
     balanceAmount := Some (JS.or_num (t_amount transaction) 0);
     paymentProgress := Some 0;
     daysOverdue := Some daysOverdue;
     lastPaymentDate := None;
     monthsPaid := None;
     totalInterestPaid := None;
     closedDate := None;
     voucherId := t_voucherId transaction;
     sourceType := Some "daybook";
     sourceId := db_id dayBook;
     jewelryItems := [] |}.

(** The loan pushed for a qualifying [closedLoans] transaction. *)
Definition closedLoan (dayBook : DayBook) (transaction : Transaction) : DerivedLoan :=
  let disbursement := disbursedAt dayBook transaction in
  let due := dueAfterYear disbursement in
  {| dl_id := None;
     billNo := t_billNo transaction;
     customerId := Some (JS.or_str (t_customerId transaction) "unknown");
     customerName := Some (JS.or_str (t_customerName transaction) "Unknown Customer");
     customerPhone := Some "N/A";
     customerAddress := Some "N/A";
     jewelType := Some (JS.or_str (t_jewelType transaction) "gold");
     grossWeight := Some (JS.or_num (t_netWeight transaction) 0);
     netWeight := Some (JS.or_num (t_netWeight transaction) 0);
     loanAmount := Some (JS.or_num (t_amount transaction) 0);
     finalLoanAmount := Some (JS.or_num (t_amount transaction) 0);
     interestRate := Some (JS.or_num (t_interestRate transaction) 0);
     interestAmount := Some 0;
     overallLoanAmount := Some (JS.or_num (t_amount transaction) 0);
     disbursementDate := disbursement;
     dueDate := due;
     status := Some "Closed";
     loanStatus := Some "closed";
     repaidAmount := Some (JS.or_num (t_amount transaction) 0);
     balanceAmount := Some 0;
     paymentProgress := Some 100;
     daysOverdue := Some 0;
     lastPaymentDate := None;
     monthsPaid := None;
     totalInterestPaid := None;
     closedDate := db_date dayBook;
     voucherId := t_voucherId transaction;
     sourceType := Some "daybook";
     sourceId := db_id dayBook;
     jewelryItems := [] |}.

(** [transactions.forEach(transaction => { if (..) loans.push(..) })]. *)
Definition pushEach (mk : Transaction -> DerivedLoan)
    (loans : list DerivedLoan) (transactions : list Transaction) : list DerivedLoan :=
  fold_left
    (fun (loans : list DerivedLoan) transaction =>
       if qualifies transaction then (loans ++ [mk transaction])%list else loans)
    transactions loans.

(** The body of [dayBooks.forEach]. *)
Definition extractFromDayBook (now : Z) (loans : list DerivedLoan) (dayBook : DayBook)
    : list DerivedLoan :=
  let loans1 :=
    match db_loansDisbursed dayBook with
    | Some transactions => pushEach (disbursedLoan now dayBook) loans transactions
    | None => loans
    end in
  match db_closedLoans dayBook with
  | Some transactions => pushEach (closedLoan dayBook) loans1 transactions
  | None => loans1
  end.

Definition extractLoanDataFromDayBooks (now : Z) : M (list DerivedLoan) :=
  try_catch
    (await dayBooks <- DayBookModel.find in
     ret (fold_left (extractFromDayBook now) dayBooks []))
    (fun _ => ret []).

(** ** Responses *)

Record Stats := {
  totalLoans : nat;
  activeLoans : nat;
  overdueLoans : nat;
  closedLoans : nat;
  totalActiveLoanAmount : Z;
  totalOverdueLoanAmount : Z;
  totalLoanAmount : Z;
  overdueRate : Z
}.

Record JewelStats := {
  js_active : nat;
  js_overdue : nat;
  js_closed : nat;
  js_totalAmount : Z;
  js_count : nat
}.

Record Overall := {
  o_totalLoans : nat;
  o_activeLoans : nat;
  o_overdueLoans : nat;
  o_closedLoans : nat;
  o_totalLoanAmount : Z;
  o_overdueRate : Z;
  o_lastUpdated : Z
}.

Record FormattedCustomer := {
  fc_id : option string;
  fc_fullName : option string;
  fc_phoneNumber : option string;
  fc_address : option string
}.

Record FormattedLoan := {
  f_id : option Id;
  f_billNo : option string;
  f_customer : FormattedCustomer;
  f_jewelType : option string;
  f_grossWeight : option Z;
  f_netWeight : option Z;
  f_finalLoanAmount : option Z;
  f_overallLoanAmount : option Z;
  f_interestRate : option Z;
  f_disbursementDate : Date;
  f_dueDate : Date;
  f_status : option string;
  f_loanStatus : option string;
  f_repaidAmount : option Z;
  f_balanceAmount : option Z;
  f_paymentProgress : option Z;
  f_daysOverdue : option Z
}.

(** [totalPages] is [None] when [Math.ceil(totalCount / limit)] is not a
    finite number ([limit] zero). *)
Record Pagination := {
  currentPage : Z;
  totalPages : option Z;
  totalItems : nat;
  itemsPerPage : Z
}.

Record QueryResult := {
  data : list FormattedLoan;
  pagination : Pagination;
  summary : Stats;
  jewelTypeSummary : gmap string JewelStats;
  overallSummary : Overall;
  dataSource : string
}.

(** Of the statistics of the dashboard, the snapshot aggregates and the two
    counts the controller computes. *)
Record Dashboard := {
  d_aggregates : Overall;
  thisMonthLoans : nat;
  dueThisMonth : nat
}.

(** The payload of a response.  [Synced] carries the number of loans of the
    message, the snapshot aggregates copied into [data] and [dataSource]. *)
Inductive Body :=
| Synced (count : nat) (aggregates : Overall) (source : option string)
| Queried (result : QueryResult)
| Found (loan : DerivedLoan)
| Updated (loan : DerivedLoan)
| Statistics (stats : Dashboard)
| Swept (modifiedCount : nat)
| Deleted (deletedCount : nat)
| Message (message : string).

Record Response := {
  code : nat;
  success : bool;
  body : Body
}.

Definition json (b : Body) : Response :=
  {| code := 200; success := true; body := b |}.

Definition failure (c : nat) (message : string) : Response :=
  {| code := c; success := false; body := Message message |}.

(** The outer [try { .. } catch (error) { return res.status(500).json(..) }]
    of a handler. *)
Definition handler (message : string) (m : M Response) (st : Store) : Store * Response :=
  match m st with
  | (st', Return r) => (st', r)
  | (st', Throw _) => (st', failure 500 message)
  end.

(** ** Statistics *)

Definition hasLoanStatus (s : string) (loan : DerivedLoan) : bool :=
  JS.str_eq (loanStatus loan) s.

(** [loans.reduce((sum, loan) => sum + (loan.finalLoanAmount || 0), 0)]. *)
Definition sumFinalLoanAmount (loans : list DerivedLoan) : Z :=
  fold_left (fun sum loan => sum + JS.or_num (finalLoanAmount loan) 0) loans 0.

Definition overdueRateOf (loans : list DerivedLoan) : Z :=
  if (0 <? length loans)%nat
  then JS.round_percent
         (Z.of_nat (length (List.filter (hasLoanStatus "overdue") loans)))
         (Z.of_nat (length loans))
  else 0.

Definition filteredStats (filteredLoans : list DerivedLoan) : Stats :=
  {| totalLoans := length filteredLoans;
     activeLoans := length (List.filter (hasLoanStatus "active") filteredLoans);
     overdueLoans := length (List.filter (hasLoanStatus "overdue") filteredLoans);
     closedLoans := length (List.filter (hasLoanStatus "closed") filteredLoans);
     totalActiveLoanAmount :=
       sumFinalLoanAmount (List.filter (hasLoanStatus "active") filteredLoans);
     totalOverdueLoanAmount :=
       sumFinalLoanAmount (List.filter (hasLoanStatus "overdue") filteredLoans);
     totalLoanAmount := sumFinalLoanAmount filteredLoans;
     overdueRate := overdueRateOf filteredLoans |}.

(** Modelled from the spec: the snapshot-level aggregates are properties of
    the StockSummary model, which is not among the sources; the spec has
    them computed on every load from the [loans] array.  They are taken
    here as the counts by [loanStatus], the sum of [finalLoanAmount] and
    the overdue rate of the whole array. *)
Definition snapshotAggregates (stockSummary : StockSummary) : Overall :=
  let loans := ss_loans stockSummary in
  {| o_totalLoans := length loans;
     o_activeLoans := length (List.filter (hasLoanStatus "active") loans);
     o_overdueLoans := length (List.filter (hasLoanStatus "overdue") loans);
     o_closedLoans := length (List.filter (hasLoanStatus "closed") loans);
     o_totalLoanAmount := sumFinalLoanAmount loans;
     o_overdueRate := overdueRateOf loans;
     o_lastUpdated := ss_lastUpdated stockSummary |}.

Definition newJewelStats : JewelStats :=
  {| js_active := 0; js_overdue := 0; js_closed := 0; js_totalAmount := 0; js_count := 0 |}.

Definition bump (b : bool) (n : nat) : nat := if b then S n else n.

(** The reducer of [jewelTypeSummary]. *)
Definition jewelTypeStep (acc : gmap string JewelStats) (loan : DerivedLoan)
    : gmap string JewelStats :=
  let type := JS.or_str (jewelType loan) "gold" in
  let entry := default newJewelStats (acc !! type) in
  <[type :=
      {| js_active := bump (hasLoanStatus "active" loan) (js_active entry);
         js_overdue := bump (hasLoanStatus "overdue" loan) (js_overdue entry);
         js_closed := bump (hasLoanStatus "closed" loan) (js_closed entry);
         js_totalAmount := js_totalAmount entry + JS.or_num (finalLoanAmount loan) 0;
         js_count := S (js_count entry) |}]> acc.

Definition jewelTypeSummaryOf (filteredLoans : list DerivedLoan) : gmap string JewelStats :=
  fold_left jewelTypeStep filteredLoans ∅.

(** [formattedLoans]. *)
Definition formatLoan (loan : DerivedLoan) : FormattedLoan :=
  {| f_id := or_opt_str (dl_id loan) (voucherId loan);
     f_billNo := billNo loan;
     f_customer :=
       {| fc_id := customerId loan;
          fc_fullName := customerName loan;
          fc_phoneNumber := customerPhone loan;
          fc_address := customerAddress loan |};
     f_jewelType := jewelType loan;
     f_grossWeight := grossWeight loan;
     f_netWeight := netWeight loan;
     f_finalLoanAmount := finalLoanAmount loan;
     f_overallLoanAmount := overallLoanAmount loan;
     f_interestRate := interestRate loan;
     f_disbursementDate := disbursementDate loan;
     f_dueDate := dueDate loan;
     f_status := status loan;
     f_loanStatus := loanStatus loan;
     f_repaidAmount := repaidAmount loan;
     f_balanceAmount := balanceAmount loan;
     f_paymentProgress := paymentProgress loan;
     f_daysOverdue := daysOverdue loan |}.

(** ** Synchroniser *)

(** The inner [try { .. } catch (voucherError) { .. }] shared by
    [createOrUpdateStockSummary] and [getStockSummary]; [loans] stays [[]]
    when the collection is empty or cannot be read. *)
Definition readVouchers (mk : Voucher -> DerivedLoan) : M (list DerivedLoan) :=
  try_catch
    (await voucherCount <- Voucher.countDocuments in
     if (0 <? voucherCount)%nat
     then await vouchers <- Voucher.find in ret (map mk vouchers)
     else ret [])
    (fun _ => ret []).

Definition createOrUpdateStockSummary (now : Z) : Store -> Store * Response :=
  handler "Error creating/updating stock summary"
    (await loans0 <- readVouchers (voucherLoan now) in
     await loans <-
       (if (length loans0 =? 0)%nat
        then extractLoanDataFromDayBooks now
        else ret loans0) in
     await_ StockSummaryModel.deleteMany in
     let stockSummary := newStockSummary now loans in
     await_ StockSummaryModel.create stockSummary in
     ret (json (Synced (length loans) (snapshotAggregates stockSummary)
                  (match loans with
                   | loan :: _ => sourceType loan
                   | [] => Some "unknown"
                   end)))).

(** ** Query and filter engine *)

(** [req.query].  [dateFilter] is [Some d] for a non-empty parameter whose
    [new Date(dateFilter)] is [d]; [page] and [limit] are the numbers the
    parameters denote. *)
Record Query := {
  search : option string;
  dateFilter : option Date;
  statusFilter : option string;
  jewelTypeFilter : option string;
  page : option Z;
  limit : option Z
}.

Definition pageOf (q : Query) : Z := default 1 (page q).
Definition limitOf (q : Query) : Z := default 100 (limit q).

(** [field && field.toLowerCase().includes(searchLower)]. *)
Definition lowerIncludes (field : option string) (searchLower : string) : bool :=
  match field with
  | Some s => negb (String.eqb s "") && JS.includes (JS.toLowerCase s) searchLower
  | None => false
  end.

(** [field && field.includes(search)]. *)
Definition plainIncludes (field : option string) (search : string) : bool :=
  match field with
  | Some s => negb (String.eqb s "") && JS.includes s search
  | None => false
  end.

Definition matchesSearch (search : string) (loan : DerivedLoan) : bool :=
  let searchLower := JS.toLowerCase search in
  lowerIncludes (billNo loan) searchLower
  || lowerIncludes (customerName loan) searchLower
  || lowerIncludes (customerId loan) searchLower
  || plainIncludes (customerPhone loan) search.

Definition onDay (filterDate : Date) (loan : DerivedLoan) : bool :=
  let nextDay := JSDate.addDays 1 <$> filterDate in
  let loanDate := disbursementDate loan in
  JSDate.ge loanDate filterDate && JSDate.lt loanDate nextDay.

Definition searchStage (q : Query) (loans : list DerivedLoan) : list DerivedLoan :=
  if JS.truthy_str (search q)
  then List.filter (matchesSearch (default "" (search q))) loans
  else loans.

Definition dateStage (q : Query) (loans : list DerivedLoan) : list DerivedLoan :=
  match dateFilter q with
  | Some filterDate => List.filter (onDay filterDate) loans
  | None => loans
  end.

Definition statusStage (q : Query) (loans : list DerivedLoan) : list DerivedLoan :=
  if JS.truthy_str (statusFilter q) && negb (JS.str_eq (statusFilter q) "all")
  then
    if JS.str_eq (statusFilter q) "active"
    then List.filter (hasLoanStatus "active") loans
    else if JS.str_eq (statusFilter q) "overdue"
    then List.filter (hasLoanStatus "overdue") loans
    else if JS.str_eq (statusFilter q) "closed"
    then List.filter (hasLoanStatus "closed") loans
    else loans
  else loans.

Definition jewelTypeStage (q : Query) (loans : list DerivedLoan) : list DerivedLoan :=
  if JS.truthy_str (jewelTypeFilter q) && negb (JS.str_eq (jewelTypeFilter q) "all")
  then List.filter (fun loan => JS.str_eq (jewelType loan) (default "" (jewelTypeFilter q))) loans
  else loans.

(** The four [if] blocks applied to [filteredLoans] in turn. *)
Definition applyFilters (q : Query) (loans : list DerivedLoan) : list DerivedLoan :=
  jewelTypeStage q (statusStage q (dateStage q (searchStage q loans))).

Definition paginate (q : Query) (filteredLoans : list DerivedLoan) : list DerivedLoan :=
  let startIndex := (pageOf q - 1) * limitOf q in
  JS.slice filteredLoans startIndex (startIndex + limitOf q).

Definition paginationOf (q : Query) (totalCount : nat) : Pagination :=
  {| currentPage := pageOf q;
     totalPages :=
       if limitOf q =? 0 then None
       else Some (JS.ceil_div (Z.of_nat totalCount) (limitOf q));
     totalItems := totalCount;
     itemsPerPage := limitOf q |}.

(** The response built from the snapshot in hand. *)
Definition answer (q : Query) (stockSummary : StockSummary) : QueryResult :=
  let filteredLoans := applyFilters q (ss_loans stockSummary) in
  let totalCount := length filteredLoans in
  let paginatedLoans := paginate q filteredLoans in
  {| data := map formatLoan paginatedLoans;
     pagination := paginationOf q totalCount;
     summary := filteredStats filteredLoans;
     jewelTypeSummary := jewelTypeSummaryOf filteredLoans;
     overallSummary := snapshotAggregates stockSummary;
     dataSource := "stocksummary" |}.

(** The response of the [catch (syncError)] block. *)
Definition emptyResult (now : Z) (q : Query) : QueryResult :=
  {| data := [];
     pagination :=
       {| currentPage := 1; totalPages := Some 0; totalItems := 0;
          itemsPerPage := limitOf q |};
     summary :=
       {| totalLoans := 0; activeLoans := 0; overdueLoans := 0; closedLoans := 0;
          totalActiveLoanAmount := 0; totalOverdueLoanAmount := 0;
          totalLoanAmount := 0; overdueRate := 0 |};
     jewelTypeSummary := ∅;
     overallSummary :=
       {| o_totalLoans := 0; o_activeLoans := 0; o_overdueLoans := 0;
          o_closedLoans := 0; o_totalLoanAmount := 0; o_overdueRate := 0;
          o_lastUpdated := now |};
     dataSource := "empty" |}.

(** The [if (!stockSummary) { try { .. } catch (syncError) { .. } }] block:
    either the early response or the snapshot just created. *)
Definition populate (now : Z) (q : Query) : M (Response + StockSummary) :=
  try_catch
    (await loans0 <- readVouchers (voucherLoanOnRead now) in
     await loans <-
       (if (length loans0 =? 0)%nat
        then try_catch (extractLoanDataFromDayBooks now) (fun _ => ret loans0)
        else ret loans0) in
     let stockSummary := newStockSummary now loans in
     await_ StockSummaryModel.create stockSummary in
     ret (inr stockSummary))
    (fun _ => ret (inl (json (Queried (emptyResult now q))))).

Definition getStockSummary (now : Z) (q : Query) : Store -> Store * Response :=
  handler "Error fetching stock summary"
    (await found <- StockSummaryModel.findOne in
     await current <-
       match found with
       | Some (_, stockSummary) => ret (inr stockSummary)
       | None => populate now q
       end in
     match current with
     | inl response => ret response
     | inr stockSummary => ret (json (Queried (answer q stockSummary)))
     end).

(** ** Status maintenance *)

(** [loan.status = s; loan.loanStatus = ls]. *)
Definition assignStatus (s ls : string) (loan : DerivedLoan) : DerivedLoan :=
  {| dl_id := dl_id loan;
     billNo := billNo loan;
     customerId := customerId loan;
     customerName := customerName loan;
     customerPhone := customerPhone loan;
     customerAddress := customerAddress loan;
     jewelType := jewelType loan;
     grossWeight := grossWeight loan;
     netWeight := netWeight loan;
     loanAmount := loanAmount loan;
     finalLoanAmount := finalLoanAmount loan;
     interestRate := interestRate loan;
     interestAmount := interestAmount loan;
     overallLoanAmount := overallLoanAmount loan;
     disbursementDate := disbursementDate loan;
     dueDate := dueDate loan;
     status := Some s;
     loanStatus := Some ls;
     repaidAmount := repaidAmount loan;
     balanceAmount := balanceAmount loan;
     paymentProgress := paymentProgress loan;
     daysOverdue := daysOverdue loan;
     lastPaymentDate := lastPaymentDate loan;
     monthsPaid := monthsPaid loan;
     totalInterestPaid := totalInterestPaid loan;
     closedDate := closedDate loan;
     voucherId := voucherId loan;
     sourceType := sourceType loan;
     sourceId := sourceId loan;
     jewelryItems := jewelryItems loan |}.

(** The four assignments of the [if (status === 'Closed')] block. *)
Definition settle (now : Z) (loan : DerivedLoan) : DerivedLoan :=
  {| dl_id := dl_id loan;
     billNo := billNo loan;
     customerId := customerId loan;
     customerName := customerName loan;
     customerPhone := customerPhone loan;
     customerAddress := customerAddress loan;
     jewelType := jewelType loan;
     grossWeight := grossWeight loan;
     netWeight := netWeight loan;
     loanAmount := loanAmount loan;
     finalLoanAmount := finalLoanAmount loan;
     interestRate := interestRate loan;
     interestAmount := interestAmount loan;
     overallLoanAmount := overallLoanAmount loan;
     disbursementDate := disbursementDate loan;
     dueDate := dueDate loan;
     status := status loan;
     loanStatus := loanStatus loan;
     repaidAmount := overallLoanAmount loan;
     balanceAmount := Some 0;
     paymentProgress := Some 100;
     daysOverdue := daysOverdue loan;
     lastPaymentDate := lastPaymentDate loan;
     monthsPaid := monthsPaid loan;
     totalInterestPaid := totalInterestPaid loan;
     closedDate := Some now;
     voucherId := voucherId loan;
     sourceType := sourceType loan;
     sourceId := sourceId loan;
     jewelryItems := jewelryItems loan |}.

(** [loan.daysOverdue = d]. *)
Definition assignDaysOverdue (d : Z) (loan : DerivedLoan) : DerivedLoan :=
  {| dl_id := dl_id loan;
     billNo := billNo loan;
     customerId := customerId loan;
     customerName := customerName loan;
     customerPhone := customerPhone loan;
     customerAddress := customerAddress loan;
     jewelType := jewelType loan;
     grossWeight := grossWeight loan;
     netWeight := netWeight loan;
     loanAmount := loanAmount loan;
     finalLoanAmount := finalLoanAmount loan;
     interestRate := interestRate loan;
     interestAmount := interestAmount loan;
     overallLoanAmount := overallLoanAmount loan;
     disbursementDate := disbursementDate loan;
     dueDate := dueDate loan;
     status := status loan;
     loanStatus := loanStatus loan;
     repaidAmount := repaidAmount loan;
     balanceAmount := balanceAmount loan;
     paymentProgress := paymentProgress loan;
     daysOverdue := Some d;
     lastPaymentDate := lastPaymentDate loan;
     monthsPaid := monthsPaid loan;
     totalInterestPaid := totalInterestPaid loan;
     closedDate := closedDate loan;
     voucherId := voucherId loan;
     sourceType := sourceType loan;
     sourceId := sourceId loan;
     jewelryItems := jewelryItems loan |}.

(** [loan._id?.toString() === id || loan.voucherId?.toString() === id]. *)
Definition hasId (id : string) (loan : DerivedLoan) : bool :=
  JS.str_eq (dl_id loan) id || JS.str_eq (voucherId loan) id.

(** [['Active', 'Partial', 'Overdue', 'Closed'].includes(status)]. *)
Definition validStatus (s : option string) : bool :=
  JS.str_eq s "Active" || JS.str_eq s "Partial"
  || JS.str_eq s "Overdue" || JS.str_eq s "Closed".

(** The assignments made to [stockSummary.loans[loanIndex]]. *)
Definition applyStatus (now : Z) (s : string) (loan : DerivedLoan) : DerivedLoan :=
  let loan1 :=
    assignStatus s
      (if String.eqb s "Closed" then "closed"
       else if String.eqb s "Overdue" then "overdue"
       else "active")
      loan in
  if String.eqb s "Closed" then settle now loan1 else loan1.

Definition getVoucherById (id : string) : Store -> Store * Response :=
  handler "Error fetching loan details"
    (await found <- StockSummaryModel.findOne in
     match found with
     | None => ret (failure 404 "Stock summary not found")
     | Some (_, stockSummary) =>
         match List.find (hasId id) (ss_loans stockSummary) with
         | None => ret (failure 404 "Loan not found")
         | Some loan => ret (json (Found loan))
         end
     end).

Definition updateVoucherStatus (now : Z) (id : string) (newStatus : option string)
    : Store -> Store * Response :=
  handler "Error updating loan status"
    (if negb (validStatus newStatus)
     then ret (failure 400 "Invalid status provided")
     else
       await found <- StockSummaryModel.findOne in
       match found with
       | None => ret (failure 404 "Stock summary not found")
       | Some (position, stockSummary) =>
           match JS.findIndex (hasId id) (ss_loans stockSummary) with
           | None => ret (failure 404 "Loan not found")
           | Some loanIndex =>
               match ss_loans stockSummary !! loanIndex with
               | None => throw "TypeError"
               | Some loan =>
                   let loan' := applyStatus now (default "" newStatus) loan in
                   let loans := <[loanIndex := loan']> (ss_loans stockSummary) in
                   await_ StockSummaryModel.save position (touch now stockSummary loans) in
                   ret (json (Updated loan'))
               end
           end
       end).

(** The callback of [stockSummary.loans.forEach] in [updateOverdueStatus]. *)
Definition isDue (now : Z) (loan : DerivedLoan) : bool :=
  JS.str_eq (loanStatus loan) "active" && JSDate.lt (dueDate loan) (Some now).

Definition markOverdue (now : Z) (loan : DerivedLoan) : DerivedLoan :=
  assignDaysOverdue (daysSince now (dueDate loan)) (assignStatus "Overdue" "overdue" loan).

(** [forEach] visits the loans in order, mutating the visited loan and
    counting. *)
Fixpoint sweepLoans (now : Z) (loans : list DerivedLoan) (modifiedCount : nat)
    : list DerivedLoan * nat :=
  match loans with
  | [] => ([], modifiedCount)
  | loan :: rest =>
      if isDue now loan
      then let '(rest', n) := sweepLoans now rest (S modifiedCount) in
           (markOverdue now loan :: rest', n)
      else let '(rest', n) := sweepLoans now rest modifiedCount in
           (loan :: rest', n)
  end.

Definition updateOverdueStatus (now : Z) : Store -> Store * Response :=
  handler "Error updating overdue status"
    (await found <- StockSummaryModel.findOne in
     match found with
     | None => ret (failure 404 "Stock summary not found")
     | Some (position, stockSummary) =>
         let '(loans, modifiedCount) := sweepLoans now (ss_loans stockSummary) 0 in
         await_ (if (0 <? modifiedCount)%nat
                 then StockSummaryModel.save position (touch now stockSummary loans)
                 else ret tt) in
         ret (json (Swept modifiedCount))
     end).

Definition deleteStockSummary : Store -> Store * Response :=
  handler "Error deleting stock summary"
    (await deletedCount <- StockSummaryModel.deleteMany in
     ret (json (Deleted deletedCount))).

(** ** Dashboard *)

(** [date.getMonth() === now.getMonth() && date.getFullYear() ===
    now.getFullYear()]; false for an invalid date. *)
Definition sameMonth (now : Z) (date : Date) : bool :=
  match date with
  | Some t =>
      let '(y, m, _) := JSDate.civil_from_days (JSDate.Day t) in
      let '(y', m', _) := JSDate.civil_from_days (JSDate.Day now) in
      (m =? m') && (y =? y')
  | None => false
  end.

Definition getDashboardStats (now : Z) : Store -> Store * Response :=
  handler "Error fetching dashboard statistics"
    (await found <- StockSummaryModel.findOne in
     match found with
     | None => ret (failure 404 "Stock summary not found. Please sync data first.")
     | Some (_, stockSummary) =>
         let loans := ss_loans stockSummary in
         ret (json (Statistics
                      {| d_aggregates := snapshotAggregates stockSummary;
                         thisMonthLoans :=
                           length (List.filter
                                     (fun loan => sameMonth now (disbursementDate loan)) loans);
                         dueThisMonth :=
                           length (List.filter
                                     (fun loan => sameMonth now (dueDate loan)) loans) |}))
     end).

(** ** Routes *)

(** The requests of [routes/stockSummaryRoutes]. *)
Inductive Request :=
| GetStockSummary (q : Query)
| PostSync
| GetDashboard
| PostUpdateOverdue
| DeleteReset
| GetById (id : string)
| PutStatus (id : string) (newStatus : option string).

Definition route (now : Z) (request : Request) : Store -> Store * Response :=
  match request with
  | GetStockSummary q => getStockSummary now q
  | PostSync => createOrUpdateStockSummary now
  | GetDashboard => getDashboardStats now
  | PostUpdateOverdue => updateOverdueStatus now
  | DeleteReset => deleteStockSummary
  | GetById id => getVoucherById id
  | PutStatus id newStatus => updateVoucherStatus now id newStatus
  end.

(** * The date-time settings

    The first document of controllers/dateTimeController.js, over
    models/DateTime.js.  The customer collection it touches
    (models/Customer.js) is not among the sources, and neither the string
    accepted by [new Date(..)] nor the text of [toISOString()] matter to the
    controller: they are the variables of the section, so that what is
    proved holds whatever they do. *)

Module DateTimeSettings.

(** A document of the [DateTime] collection.  [customDateTime] is required,
    so that a stored one is never empty; [useCustomDate] is missing once
    [undefined] has been assigned to it; [createdAt] is set by
    [timestamps: true]. *)
Record Settings := {
  customDateTime : string;
  useCustomDate : option bool;
  createdAt : Z
}.

(** [const { customDateTime, useCustomDate } = req.body], for a body that
    carries a string or nothing, and a boolean or nothing. *)
Record SettingsBody := {
  b_customDateTime : option string;
  b_useCustomDate : option bool
}.

(** The two collections, with the availability of the reads and of the writes
    of the settings. *)
Record World (Customers : Type) := {
  w_settings : list Settings;
  w_customers : Customers;
  w_findOk : bool;
  w_saveOk : bool
}.

Arguments w_settings {Customers} _.
Arguments w_customers {Customers} _.
Arguments w_findOk {Customers} _.
Arguments w_saveOk {Customers} _.

Inductive Reply :=
| Current (settings : Settings)
| Fallback (customDateTime : string) (useCustomDate : bool)
| Saved (modifiedCount : nat) (settings : Settings)
| Failed (message : string).

(** A document as a query returns it: a missing [useCustomDate] shows its
    default. *)
Definition hydrate (s : Settings) : Settings :=
  {| customDateTime := customDateTime s;
     useCustomDate := Some (default false (useCustomDate s));
     createdAt := createdAt s |}.

(** [findOne().sort({ createdAt: -1 })]: the first document with the
    greatest [createdAt]. *)
Fixpoint newestFrom (best : Settings) (l : list Settings) : Settings :=
  match l with
  | [] => best
  | s :: r => newestFrom (if createdAt best <? createdAt s then s else best) r
  end.

Definition newest (l : list Settings) : option Settings :=
  match l with
  | [] => None
  | s :: r => Some (newestFrom s r)
  end.

(** The [required: true] of [customDateTime]: a string that is not empty. *)
Definition required (customDateTime : option string) : option string :=
  match customDateTime with
  | Some s => if String.eqb s "" then None else Some s
  | None => None
  end.

Section Controller.

Context {Customers : Type}.

(** [Customer.updateMany({}, { dateAdded: systemDate })]: the collection
    afterwards and [modifiedCount], or nothing when it throws. *)
Variable updateMany : Date -> Customers -> option (Customers * nat).

(** [new Date(customDateTime)]. *)
Variable parseDate : string -> Date.

(** [new Date().toISOString().slice(0, 16)]. *)
Variable isoMinute : Z -> string.

Definition with_settings (w : World Customers) (l : list Settings) : World Customers :=
  {| w_settings := l;
     w_customers := w_customers w;
     w_findOk := w_findOk w;
     w_saveOk := w_saveOk w |}.

Definition with_customers (w : World Customers) (customers : Customers) : World Customers :=
  {| w_settings := w_settings w;
     w_customers := customers;
     w_findOk := w_findOk w;
     w_saveOk := w_saveOk w |}.

Definition getDateTime (now : Z) (w : World Customers) : World Customers * Reply :=
  if w_findOk w
  then match newest (w_settings w) with
       | None => (w, Fallback (isoMinute now) false)
       | Some settings => (w, Current (hydrate settings))
       end
  else (w, Failed "Error fetching date settings").

(** [settings] after the two assignments, or as [DateTime.create] builds
    it, with the collection it is saved into. *)
Definition store (now : Z) (customDateTime : string) (useCustomDate : option bool)
    (l : list Settings) : Settings * list Settings :=
  match l with
  | first :: rest =>
      let settings :=
        {| customDateTime := customDateTime;
           useCustomDate := useCustomDate;
           createdAt := createdAt first |} in
      (settings, settings :: rest)
  | [] =>
      let settings :=
        {| customDateTime := customDateTime;
           useCustomDate := Some (default false useCustomDate);
           createdAt := now |} in
      (settings, [settings])
  end.

Definition updateDateTime (now : Z) (body : SettingsBody) (w : World Customers)
    : World Customers * Reply :=
  let failed := Failed "Error updating date settings" in
  if w_findOk w
  then
    match required (b_customDateTime body) with
    | None => (w, failed)
    | Some customDateTime =>
        if w_saveOk w
        then
          let '(settings, l) :=
            store now customDateTime (b_useCustomDate body) (w_settings w) in
          let w1 := with_settings w l in
          let systemDate :=
            if default false (b_useCustomDate body)
            then parseDate customDateTime
            else Some now in
          match updateMany systemDate (w_customers w1) with
          | Some (customers, modifiedCount) =>
              (with_customers w1 customers, Saved modifiedCount settings)
          | None => (w1, failed)
          end
        else (w, failed)
    end
  else (w, failed).

End Controller.

End DateTimeSettings.

(** * What the specification speaks of *)

(** ** Readers *)

(** The loans of one day-book: one for each qualifying disbursement, then
    one for each qualifying closure. *)
Definition dayBookLoans (now : Z) (dayBook : DayBook) : list DerivedLoan :=
  (map (disbursedLoan now dayBook)
       (List.filter qualifies (JS.or_nil (db_loansDisbursed dayBook)))
   ++ map (closedLoan dayBook)
       (List.filter qualifies (JS.or_nil (db_closedLoans dayBook))))%list.

(** The loans of all day-books, none when they cannot be read. *)
Definition ledgerLoans (now : Z) (st : Store) : list DerivedLoan :=
  match st_dayBooks st with
  | Some dayBooks => flat_map (dayBookLoans now) dayBooks
  | None => []
  end.

(** The loans of the vouchers, none when they cannot be read. *)
Definition voucherLoansOf (mk : Voucher -> DerivedLoan) (st : Store) : list DerivedLoan :=
  if st_countOk st && st_vouchersOk st then map mk (st_vouchers st) else [].

(** The loans a synchronisation stores: those of the vouchers when there
    are any, those of the day-books otherwise. *)
Definition syncLoans (mk : Voucher -> DerivedLoan) (now : Z) (st : Store) : list DerivedLoan :=
  match voucherLoansOf mk st with
  | [] => ledgerLoans now st
  | loans => loans
  end.

(** Reading the voucher collection meets a fault. *)
Definition voucherFault (st : Store) : Prop :=
  st_countOk st = false \/ st_vouchersOk st = false.

(** The transaction has a voucher reference and a bill number. *)
Definition carriesBoth (transaction : Transaction) : Prop :=
  (exists reference, t_voucherId transaction = Some reference /\ reference <> "")
  /\ (exists bill, t_billNo transaction = Some bill /\ bill <> "").

(** The number of transactions of a day-book that qualify. *)
Definition qualifyingCount (dayBook : DayBook) : nat :=
  (length (List.filter qualifies (JS.or_nil (db_loansDisbursed dayBook)))
   + length (List.filter qualifies (JS.or_nil (db_closedLoans dayBook))))%nat.

(** ** Filters *)

(** [sub] occurs in [s]. *)
Definition occursIn (sub s : string) : Prop :=
  exists before after, s = String.append before (String.append sub after).

(** The field is present and contains the needle, letter case apart. *)
Definition containsIgnoringCase (needle : string) (field : option string) : Prop :=
  exists value, field = Some value
    /\ occursIn (JS.toLowerCase needle) (JS.toLowerCase value).

(** The field is present and contains the needle as it is written. *)
Definition containsExactly (needle : string) (field : option string) : Prop :=
  exists value, field = Some value /\ occursIn needle value.

(** The search predicate. *)
Definition searchMatches (needle : string) (loan : DerivedLoan) : Prop :=
  containsIgnoringCase needle (billNo loan)
  \/ containsIgnoringCase needle (customerName loan)
  \/ containsIgnoringCase needle (customerId loan)
  \/ containsExactly needle (customerPhone loan).

(** The loan passes every filter the query supplies: the search when it is
    not empty, the day of disbursement, the status when it is one of the
    three classifications, the jewel type when it is not [all]. *)
Definition passes (q : Query) (loan : DerivedLoan) : Prop :=
  (forall needle, search q = Some needle -> needle <> "" -> searchMatches needle loan)
  /\ (forall filterDate, dateFilter q = Some filterDate ->
        exists day moment,
          filterDate = Some day /\ disbursementDate loan = Some moment
          /\ day <= moment < day + JSDate.msPerDay)
  /\ (forall wanted, statusFilter q = Some wanted ->
        wanted = "active" \/ wanted = "overdue" \/ wanted = "closed" ->
        loanStatus loan = Some wanted)
  /\ (forall wanted, jewelTypeFilter q = Some wanted ->
        wanted <> "" -> wanted <> "all" -> jewelType loan = Some wanted).

(** A stage keeps the loans some test accepts. *)
Definition filtering (stage : list DerivedLoan -> list DerivedLoan) : Prop :=
  exists keep, forall loans, stage loans = List.filter keep loans.

(** ** Stores *)

(** The stores the service can be in: it starts without snapshots; requests
    are served one after the other; in between, the source collections and
    the availability of the collections change freely, the snapshots do
    not. *)
Inductive reachable : Store -> Prop :=
| reachable_empty st :
    st_summaries st = [] -> reachable st
| reachable_request now request st :
    reachable st -> reachable (fst (route now request st))
| reachable_sources st st' :
    reachable st -> st_summaries st' = st_summaries st -> reachable st'.

(** Every loan of every snapshot that came from a day-book has equal gross
    and net weights. *)
Definition weightsAgree (st : Store) : Prop :=
  forall snapshot loan,
    In snapshot (st_summaries st) -> In loan (ss_loans snapshot) ->
    sourceType loan = Some "daybook" -> grossWeight loan = netWeight loan.

(** The same of a list of loans. *)
Definition dayBookWeights (loans : list DerivedLoan) : Prop :=
  forall loan, In loan loans ->
    sourceType loan = Some "daybook" -> grossWeight loan = netWeight loan.

(** At most one snapshot is stored, and the weights of its day-book loans
    agree. *)
Definition snapshotInvariant (st : Store) : Prop :=
  (length (st_summaries st) <= 1)%nat /\ weightsAgree st.

(** The loans of the current snapshot of a store, none when there is no
    snapshot. *)
Definition currentLoans (st : Store) : list DerivedLoan :=
  match StockSummaryModel.latest (st_summaries st) with
  | Some (_, stockSummary) => ss_loans stockSummary
  | None => []
  end.

(** [stockSummary], at position [i], is the first snapshot of the
    collection whose [lastUpdated] is greatest. *)
Definition firstGreatest (l : list StockSummary) (i : nat) (stockSummary : StockSummary)
    : Prop :=
  l !! i = Some stockSummary
  /\ (forall j other, l !! j = Some other ->
        ss_lastUpdated other <= ss_lastUpdated stockSummary)
  /\ (forall j other, (j < i)%nat -> l !! j = Some other ->
        ss_lastUpdated other < ss_lastUpdated stockSummary).

(** ** Status maintenance *)

(** The loan is the one a request names: by its own id or by the voucher
    it came from. *)
Definition matchesId (id : string) (loan : DerivedLoan) : Prop :=
  dl_id loan = Some id \/ voucherId loan = Some id.

(** The statuses a status update accepts. *)
Definition acceptedStatus (s : option string) : Prop :=
  s = Some "Active" \/ s = Some "Partial" \/ s = Some "Overdue" \/ s = Some "Closed".

(** The voucher's due date has passed and it is not closed. *)
Definition overdueAt (now : Z) (voucher : Voucher) : Prop :=
  (exists due, v_dueDate voucher = Some due /\ due < now)
  /\ v_status voucher <> Some "Closed".

(** The overdue rule of the voucher reader, between a voucher and the loan
    derived from it. *)
Definition followsOverdueRule (now : Z) (voucher : Voucher) (loan : DerivedLoan) : Prop :=
  (overdueAt now voucher ->
   loanStatus loan = Some "overdue"
   /\ forall due, v_dueDate voucher = Some due ->
        exists days, daysOverdue loan = Some days
          /\ (days - 1) * JSDate.msPerDay < now - due <= days * JSDate.msPerDay)
  /\ (~ overdueAt now voucher ->
      daysOverdue loan = Some 0
      /\ (v_status voucher = Some "Closed" -> loanStatus loan = Some "closed")
      /\ (v_status voucher = Some "Active" \/ v_status voucher = Some "Partial" ->
          loanStatus loan = Some "active")
      /\ (v_status voucher <> Some "Closed" -> v_status voucher <> Some "Active" ->
          v_status voucher <> Some "Partial" -> loanStatus loan = Some "inactive")).

(** [due] is the moment [t] moved to the same day of the same month of the
    following year, at the same time of day (a 29 February, which the
    following year lacks, runs over to 1 March). *)
Definition twelveMonthsAfter (t due : Z) : Prop :=
  let '(y, m, d) := JSDate.civil_from_days (JSDate.Day t) in
  JSDate.days_from_civil y m d = JSDate.Day t
  /\ due = JSDate.MakeDate (JSDate.days_from_civil (y + 1) m d) (JSDate.TimeWithinDay t).

(** The loan is active and its due date has passed. *)
Definition activeAndDue (now : Z) (loan : DerivedLoan) : Prop :=
  loanStatus loan = Some "active" /\ exists due, dueDate loan = Some due /\ due < now.

(** What the sweep leaves in place of each loan. *)
Definition sweptLoan (now : Z) (loan : DerivedLoan) : DerivedLoan :=
  if isDue now loan then markOverdue now loan else loan.

(** ** Sample data *)

Module Sample.

(** 2024-11-15T22:13:20Z. *)
Definition clock : Z := 1731708800000.

Definition voucher : Voucher :=
  {| v_id := Some "64f0c0ffee0000000000a001";
     v_billNo := Some "B-001";
     v_customer := None;
     v_customerId := None;
     v_customerName := Some "Asha";
     v_customerPhone := Some "9840012345";
     v_jewelType := None;
     v_grossWeight := Some 12;
     v_netWeight := Some 11;
     v_loanAmount := Some 4500;
     v_finalLoanAmount := Some 4500;
     v_interestRate := Some 2;
     v_interestAmount := None;
     v_overallLoanAmount := Some 5000;
     v_disbursementDate := Some 1700000000000;
     v_dueDate := Some (clock - JSDate.msPerDay);
     v_status := Some "Active";
     v_repaidAmount := None;
     v_balanceAmount := None;
     v_paymentProgress := None;
     v_lastPaymentDate := None;
     v_monthsPaid := None;
     v_totalInterestPaid := None;
     v_closedDate := None;
     v_jewelryItems := None |}.

(** A second voucher: another bill, silver, not yet due. *)
Definition voucher2 : Voucher :=
  {| v_id := Some "64f0c0ffee0000000000a002";
     v_billNo := Some "B-002";
     v_customer :=
       Some {| c_id := Some "64f0c0ffee0000000000c002";
               c_fullName := Some "Ravi Kumar";
               c_phoneNumber := Some "9000011111";
               c_address := None |};
     v_customerId := None;
     v_customerName := None;
     v_customerPhone := None;
     v_jewelType := Some "silver";
     v_grossWeight := Some 40;
     v_netWeight := Some 38;
     v_loanAmount := Some 2000;
     v_finalLoanAmount := Some 2000;
     v_interestRate := Some 2;
     v_interestAmount := Some 40;
     v_overallLoanAmount := Some 2040;
     v_disbursementDate := Some 1731000000000;
     v_dueDate := Some (clock + 30 * JSDate.msPerDay);
     v_status := Some "Active";
     v_repaidAmount := Some 0;
     v_balanceAmount := Some 2040;
     v_paymentProgress := Some 0;
     v_lastPaymentDate := None;
     v_monthsPaid := Some 0;
     v_totalInterestPaid := Some 0;
     v_closedDate := None;
     v_jewelryItems := Some ["chain"] |}.

(** A third voucher, closed. *)
Definition voucher3 : Voucher :=
  {| v_id := Some "64f0c0ffee0000000000a003";
     v_billNo := Some "B-003";
     v_customer := None;
     v_customerId := Some "CUST-7";
     v_customerName := Some "Meena";
     v_customerPhone := None;
     v_jewelType := Some "gold";
     v_grossWeight := Some 8;
     v_netWeight := Some 8;
     v_loanAmount := Some 1000;
     v_finalLoanAmount := Some 1000;
     v_interestRate := Some 2;
     v_interestAmount := Some 20;
     v_overallLoanAmount := Some 1020;
     v_disbursementDate := Some 1690000000000;
     v_dueDate := Some 1721536000000;
     v_status := Some "Closed";
     v_repaidAmount := Some 1020;
     v_balanceAmount := Some 0;
     v_paymentProgress := Some 100;
     v_lastPaymentDate := Some 1720000000000;
     v_monthsPaid := Some 11;
     v_totalInterestPaid := Some 20;
     v_closedDate := Some 1720000000000;
     v_jewelryItems := None |}.

Definition disbursed : Transaction :=
  {| t_voucherId := Some "64f0c0ffee0000000000a101";
     t_billNo := Some "D-101";
     t_customerId := Some "CUST-1";
     t_customerName := Some "Lakshmi";
     t_jewelType := None;
     t_netWeight := Some 10;
     t_grossWeight := Some 11;
     t_amount := Some 3000;
     t_interestRate := Some 2;
     t_createdAt := Some 1709164800000 |}.

(** A transaction without a bill number. *)
Definition unbilled : Transaction :=
  {| t_voucherId := Some "64f0c0ffee0000000000a102";
     t_billNo := None;
     t_customerId := None;
     t_customerName := None;
     t_jewelType := None;
     t_netWeight := None;
     t_grossWeight := None;
     t_amount := Some 100;
     t_interestRate := None;
     t_createdAt := None |}.

Definition closed : Transaction :=
  {| t_voucherId := Some "64f0c0ffee0000000000a103";
     t_billNo := Some "D-103";
     t_customerId := None;
     t_customerName := Some "Kavi";
     t_jewelType := Some "silver";
     t_netWeight := Some 25;
     t_grossWeight := Some 27;
     t_amount := Some 800;
     t_interestRate := None;
     t_createdAt := None |}.

Definition dayBook : DayBook :=
  {| db_id := Some "64f0c0ffee0000000000d001";
     db_date := Some 1709251200000;
     db_loansDisbursed := Some [disbursed; unbilled];
     db_closedLoans := Some [closed] |}.

(** Three vouchers, one day-book, no snapshot yet. *)
Definition store : Store :=
  {| st_vouchers := [voucher; voucher2; voucher3];
     st_countOk := true;
     st_vouchersOk := true;
     st_dayBooks := Some [dayBook];
     st_summaries := [];
     st_findOk := true;
     st_deleteOk := true;
     st_saveOk := true |}.

(** One voucher only. *)
Definition oneVoucherStore : Store :=
  {| st_vouchers := [voucher];
     st_countOk := true;
     st_vouchersOk := true;
     st_dayBooks := None;
     st_summaries := [];
     st_findOk := true;
     st_deleteOk := true;
     st_saveOk := true |}.

(** The same with an empty voucher collection. *)
Definition ledgerStore : Store :=
  {| st_vouchers := [];
     st_countOk := true;
     st_vouchersOk := true;
     st_dayBooks := Some [dayBook];
     st_summaries := [];
     st_findOk := true;
     st_deleteOk := true;
     st_saveOk := true |}.

(** The store after a sync made ten days before [clock]. *)
Definition synced : Store :=
  fst (createOrUpdateStockSummary (clock - 10 * JSDate.msPerDay) store).

Definition noFilter : Query :=
  {| search := None; dateFilter := None; statusFilter := Some "all";
     jewelTypeFilter := None; page := None; limit := None |}.

Definition activeGold : Query :=
  {| search := Some "b-0"; dateFilter := None; statusFilter := Some "active";
     jewelTypeFilter := Some "gold"; page := Some 1; limit := Some 10 |}.

Definition negativeLimit : Query :=
  {| search := None; dateFilter := None; statusFilter := None;
     jewelTypeFilter := None; page := None; limit := Some (-1) |}.

End Sample.

(** * Further properties: what they speak of *)

(** The loan a lookup answers with. *)
Definition foundLoan (response : Response) : option DerivedLoan :=
  match body response with
  | Found loan => Some loan
  | _ => None
  end.

(** The page of loans a query answers with. *)
Definition dataOf (response : Response) : list FormattedLoan :=
  match body response with
  | Queried result => data result
  | _ => []
  end.

(** The query for another page. *)
Definition withPage (q : Query) (p : Z) : Query :=
  {| search := search q;
     dateFilter := dateFilter q;
     statusFilter := statusFilter q;
     jewelTypeFilter := jewelTypeFilter q;
     page := Some p;
     limit := limit q |}.

(** The loan is in none of the three classes the statistics count. *)
Definition unclassified (loan : DerivedLoan) : bool :=
  negb (hasLoanStatus "active" loan) && negb (hasLoanStatus "overdue" loan)
  && negb (hasLoanStatus "closed" loan).

(** The key a loan is counted under in the jewel-type summary. *)
Definition jewelKey (loan : DerivedLoan) : string := JS.or_str (jewelType loan) "gold".

(** The loans counted under a key. *)
Definition jewelGroup (key : string) (loans : list DerivedLoan) : list DerivedLoan :=
  List.filter (fun loan => String.eqb (jewelKey loan) key) loans.

(** The entry of the jewel-type summary for a group of loans. *)
Definition jewelEntry (group : list DerivedLoan) : option JewelStats :=
  match group with
  | [] => None
  | _ =>
      Some {| js_active := length (List.filter (hasLoanStatus "active") group);
              js_overdue := length (List.filter (hasLoanStatus "overdue") group);
              js_closed := length (List.filter (hasLoanStatus "closed") group);
              js_totalAmount := sumFinalLoanAmount group;
              js_count := length group |}
  end.

(** What holds of every stored loan: a classification among the four, a
    source among the two, a number of days overdue that is not negative,
    and [closed] as classification exactly for the status [Closed]. *)
Definition wellClassified (loan : DerivedLoan) : Prop :=
  (loanStatus loan = Some "active" \/ loanStatus loan = Some "overdue"
   \/ loanStatus loan = Some "closed" \/ loanStatus loan = Some "inactive")
  /\ (sourceType loan = Some "voucher" \/ sourceType loan = Some "daybook")
  /\ (exists days, daysOverdue loan = Some days /\ 0 <= days)
  /\ (loanStatus loan = Some "closed" <-> status loan = Some "Closed").

(** The source collections and the availability flags of two stores are the
    same. *)
Definition sameSources (st st' : Store) : Prop :=
  st_vouchers st' = st_vouchers st
  /\ st_countOk st' = st_countOk st
  /\ st_vouchersOk st' = st_vouchersOk st
  /\ st_dayBooks st' = st_dayBooks st
  /\ st_findOk st' = st_findOk st
  /\ st_deleteOk st' = st_deleteOk st
  /\ st_saveOk st' = st_saveOk st.

(** A computation changes nothing but the snapshots. *)
Definition framed {A} (m : M A) : Prop :=
  forall st, sameSources st (fst (m st)).


(** The names every object inherits from [Object.prototype]: under them
    [acc[type]] finds the inherited member, not an entry of the summary. *)
Definition inheritedNames : list string :=
  ["__proto__"; "constructor"; "hasOwnProperty"; "isPrototypeOf";
   "propertyIsEnumerable"; "toLocaleString"; "toString"; "valueOf";
   "__defineGetter__"; "__defineSetter__"; "__lookupGetter__"; "__lookupSetter__"].

Definition ownName (key : string) : bool :=
  negb (existsb (String.eqb key) inheritedNames).

(** A query for pages of two loans. *)
Definition twoPerPage : Query :=
  {| search := None; dateFilter := None; statusFilter := None;
     jewelTypeFilter := None; page := None; limit := Some 2 |}.

(** Every loan of every snapshot of the store satisfies [P]. *)
Definition everyLoan (P : DerivedLoan -> Prop) (st : Store) : Prop :=
  forall snapshot loan,
    In snapshot (st_summaries st) -> In loan (ss_loans snapshot) -> P loan.

(** The query supplies no filter. *)
Definition unfiltered (q : Query) : Prop :=
  (search q = None \/ search q = Some "")
  /\ dateFilter q = None
  /\ (statusFilter q = None \/ statusFilter q = Some "" \/ statusFilter q = Some "all")
  /\ (jewelTypeFilter q = None \/ jewelTypeFilter q = Some ""
      \/ jewelTypeFilter q = Some "all").

(** The loan is counted among the loans of the month of [now]. *)
Definition disbursedThisMonth (now : Z) (loan : DerivedLoan) : bool :=
  sameMonth now (disbursementDate loan).

(** The loan is counted among the loans due in the month of [now]. *)
Definition dueInMonth (now : Z) (loan : DerivedLoan) : bool :=
  sameMonth now (dueDate loan).


(** The message of the 500 response of each route. *)
Definition errorMessage (request : Request) : string :=
  match request with
  | GetStockSummary _ => "Error fetching stock summary"
  | PostSync => "Error creating/updating stock summary"
  | GetDashboard => "Error fetching dashboard statistics"
  | PostUpdateOverdue => "Error updating overdue status"
  | DeleteReset => "Error deleting stock summary"
  | GetById _ => "Error fetching loan details"
  | PutStatus _ _ => "Error updating loan status"
  end.

(** The request reads the snapshot collection first: all but a sync, a
    reset, and a status update with a status that is refused. *)
Definition readsSnapshotFirst (request : Request) : Prop :=
  match request with
  | PostSync | DeleteReset => False
  | PutStatus _ newStatus => acceptedStatus newStatus
  | _ => True
  end.

(** The synced sample store with a snapshot collection that has become
    read-only, and one that cannot be read. *)
Definition readOnlySample : Store :=
  {| st_vouchers := st_vouchers Sample.synced;
     st_countOk := true;
     st_vouchersOk := true;
     st_dayBooks := st_dayBooks Sample.synced;
     st_summaries := st_summaries Sample.synced;
     st_findOk := true;
     st_deleteOk := true;
     st_saveOk := false |}.

Definition unreadableSample : Store :=
  {| st_vouchers := st_vouchers Sample.synced;
     st_countOk := true;
     st_vouchersOk := true;
     st_dayBooks := st_dayBooks Sample.synced;
     st_summaries := st_summaries Sample.synced;
     st_findOk := false;
     st_deleteOk := true;
     st_saveOk := true |}.

(** Two loans are listed alike by a query. *)
Definition sameListing (a b : DerivedLoan) : Prop := formatLoan a = formatLoan b.


(** ** The date-time settings *)

(** The date the customers are stamped with. *)
Definition systemDateOf (parseDate : string -> Date) (now : Z)
    (customDateTime : string) (useCustomDate : option bool) : Date :=
  if default false useCustomDate then parseDate customDateTime else Some now.

(** An instance of the variables of the controller, for the examples: the
    customers are their [dateAdded], a date that is not valid makes the
    update throw, and one string is a date. *)
Definition sampleUpdateMany (systemDate : Date) (customers : list Date)
    : option (list Date * nat) :=
  match systemDate with
  | Some _ => Some (map (fun _ => systemDate) customers, length customers)
  | None => None
  end.

Definition sampleParseDate (s : string) : Date :=
  if String.eqb s "2025-08-12T17:35" then Some 1755020100000 else None.

Definition sampleIsoMinute (now : Z) : string := "2024-11-15T22:13".

Definition sampleWorld : DateTimeSettings.World (list Date) :=
  {| DateTimeSettings.w_settings := [];
     DateTimeSettings.w_customers := [Some 0; None];
     DateTimeSettings.w_findOk := true;
     DateTimeSettings.w_saveOk := true |}.

Definition sampleBody : DateTimeSettings.SettingsBody :=
  {| DateTimeSettings.b_customDateTime := Some "2025-08-12T17:35";
     DateTimeSettings.b_useCustomDate := Some true |}.

Definition brokenBody : DateTimeSettings.SettingsBody :=
  {| DateTimeSettings.b_customDateTime := Some "next week";
     DateTimeSettings.b_useCustomDate := Some true |}.

(** * Properties *)

(** ** JavaScript primitives *)

Lemma str_eq_spec x s : JS.str_eq x s = true <-> x = Some s.
Proof.
  destruct x as [t|]; simpl; [|split; discriminate].
  rewrite String.eqb_eq. split; congruence.
Qed.

Lemma str_eq_false x s : JS.str_eq x s = false <-> x <> Some s.
Proof.
  rewrite <- str_eq_spec. destruct (JS.str_eq x s); split; congruence.
Qed.

Lemma truthy_str_spec x : JS.truthy_str x = true <-> exists s, x = Some s /\ s <> "".
Proof.
  destruct x as [s|]; simpl.
  - rewrite negb_true_iff, String.eqb_neq. split; [eauto|]. by intros (? & [= <-] & ?).
  - split; [discriminate|]. by intros (? & ? & ?).
Qed.

Lemma or_num_present x a : x = Some a -> JS.or_num x 0 = a.
Proof. intros ->. simpl. destruct (Z.eqb_spec a 0); congruence. Qed.

Lemma ceil_div_bounds a b :
  0 < b -> (JS.ceil_div a b - 1) * b < a <= JS.ceil_div a b * b.
Proof.
  intros Hb. unfold JS.ceil_div.
  pose proof (Z.mul_div_le (- a) b Hb).
  pose proof (Z.mul_succ_div_gt (- a) b Hb).
  nia.
Qed.

Lemma append_cons c s t : String.append (String c s) t = String c (String.append s t).
Proof. reflexivity. Qed.

Lemma append_empty t : String.append "" t = t.
Proof. reflexivity. Qed.

Lemma prefix_spec sub : forall s,
  String.prefix sub s = true <-> exists after, s = String.append sub after.
Proof.
  induction sub as [|c sub IH]; intros s.
  - destruct s as [|d s]; simpl; (split; [intros _; eexists; by rewrite append_empty | done]).
  - destruct s as [|d s]; simpl.
    + split; [discriminate|]. intros (after & Heq). rewrite append_cons in Heq. discriminate.
    + destruct (ascii_dec c d) as [->|Hne].
      * rewrite IH. split; intros (after & Heq); exists after;
          rewrite append_cons in *; congruence.
      * split; [discriminate|]. intros (after & Heq). rewrite append_cons in Heq. congruence.
Qed.

Lemma includes_spec sub : forall s, JS.includes s sub = true <-> occursIn sub s.
Proof.
  unfold occursIn. induction s as [|c s IH].
  - change (JS.includes "" sub) with (String.prefix sub "" || false).
    rewrite orb_false_r, prefix_spec. split.
    + intros (after & Heq). exists "", after. by rewrite append_empty.
    + intros (before & after & Heq). destruct before.
      * rewrite append_empty in Heq. eauto.
      * rewrite append_cons in Heq. discriminate.
  - change (JS.includes (String c s) sub)
      with (String.prefix sub (String c s) || JS.includes s sub).
    rewrite orb_true_iff, IH, prefix_spec. split.
    + intros [(after & Heq) | (before & after & Heq)].
      * exists "", after. by rewrite append_empty.
      * exists (String c before), after. rewrite append_cons. congruence.
    + intros (before & after & Heq). destruct before as [|d before].
      * left. rewrite append_empty in Heq. eauto.
      * right. rewrite append_cons in Heq. injection Heq as _ Heq. eauto.
Qed.

Lemma occursIn_empty sub : occursIn sub "" -> sub = "".
Proof.
  intros (before & after & Heq). destruct before; [|discriminate].
  rewrite append_empty in Heq. destruct sub; [done|discriminate].
Qed.

Lemma toLowerCase_nonempty s : s <> "" -> JS.toLowerCase s <> "".
Proof. destruct s; [done|discriminate]. Qed.

Lemma toLowerCase_length s : String.length (JS.toLowerCase s) = String.length s.
Proof. induction s as [|c s IH]; simpl; congruence. Qed.

Example toLowerCase_mixed : JS.toLowerCase "B-001 Asha" = "b-001 asha".
Proof. reflexivity. Qed.

Lemma slice_length_le {A} (l : list A) (start count : Z) :
  0 <= count -> Z.of_nat (length (JS.slice l start (start + count))) <= count.
Proof.
  intros Hc. unfold JS.slice, JS.rel_index.
  rewrite length_take, length_drop.
  destruct (Z.ltb_spec start 0), (Z.ltb_spec (start + count) 0); lia.
Qed.

Lemma slice_window {A} (l : list A) (start count : Z) :
  0 <= start -> 0 <= count ->
  JS.slice l start (start + count) = take (Z.to_nat count) (drop (Z.to_nat start) l).
Proof.
  intros Hs Hc. unfold JS.slice, JS.rel_index.
  destruct (Z.ltb_spec start 0), (Z.ltb_spec (start + count) 0); try lia.
  destruct (Z.le_gt_cases start (Z.of_nat (length l))) as [Hle|Hgt].
  - rewrite (Z.min_l start) by lia.
    destruct (Z.le_gt_cases (start + count) (Z.of_nat (length l))) as [Hle'|Hgt'].
    + rewrite Z.min_l by lia. f_equal. lia.
    + rewrite Z.min_r by lia.
      rewrite !take_ge; [done| |]; rewrite length_drop; lia.
  - rewrite !drop_ge by lia. by rewrite !take_nil.
Qed.

Example slice_from_the_end : JS.slice [1; 2; 3] 0 (-1) = [1; 2].
Proof. reflexivity. Qed.

Lemma findIndex_none {A} (p : A -> bool) l :
  (forall x, In x l -> p x = false) -> JS.findIndex p l = None.
Proof.
  induction l as [|x l IH]; intros H; simpl; [done|].
  rewrite (H x) by (by left). rewrite IH; [done|]. intros y Hy. apply H. by right.
Qed.

Lemma findIndex_first {A} (p : A -> bool) l : forall i x,
  l !! i = Some x -> p x = true ->
  (forall j y, (j < i)%nat -> l !! j = Some y -> p y = false) ->
  JS.findIndex p l = Some i.
Proof.
  induction l as [|a l IH]; intros i x Hi Hp Hbefore; [done|].
  destruct i as [|i]; simpl in *.
  - injection Hi as ->. by rewrite Hp.
  - rewrite (Hbefore 0%nat a) by (done || lia).
    rewrite (IH i x Hi Hp); [done|].
    intros j y Hj Hy. apply (Hbefore (S j) y); [lia|done].
Qed.

(** ** Dates *)

Ltac div_lia := Z.to_euclidean_division_equations; lia.

Lemma date_lt_spec a now :
  JSDate.lt a (Some now) = true <-> exists d, a = Some d /\ d < now.
Proof.
  destruct a as [d|]; simpl.
  - rewrite Z.ltb_lt. split; [eauto|]. by intros (? & [= <-] & ?).
  - split; [discriminate|]. by intros (? & ? & ?).
Qed.

(** The month of a civil date lies in 1..12 and its day in 1..31. *)
Lemma civil_month_day_range z :
  let '(y, m, d) := JSDate.civil_from_days z in 1 <= m <= 12 /\ 1 <= d <= 31.
Proof.
  unfold JSDate.civil_from_days. cbv zeta.
  match goal with |- context [Z.ltb ?a 10] => destruct (Z.ltb_spec a 10) end;
    div_lia.
Qed.

(** A day number is the day number of its civil date. *)
Lemma days_from_civil_of_days z :
  let '(y, m, d) := JSDate.civil_from_days z in JSDate.days_from_civil y m d = z.
Proof.
  unfold JSDate.civil_from_days, JSDate.days_from_civil. cbv zeta.
  match goal with |- context [Z.ltb ?a 10] => destruct (Z.ltb_spec a 10) end;
    repeat match goal with |- context [Z.leb ?a ?b] => destruct (Z.leb_spec a b) end;
    repeat match goal with |- context [Z.ltb ?a ?b] => destruct (Z.ltb_spec a b) end;
    div_lia.
Qed.

Lemma days_from_civil_day y m d :
  JSDate.days_from_civil y m d = JSDate.days_from_civil y m 1 + d - 1.
Proof. unfold JSDate.days_from_civil. cbv zeta. lia. Qed.

Lemma MakeDay_in_year y m d k :
  1 <= m <= 12 ->
  JSDate.MakeDay y (m - 1 + 12 * k) d = JSDate.days_from_civil (y + k) m d.
Proof.
  intros Hm. unfold JSDate.MakeDay.
  replace ((m - 1 + 12 * k) / 12) with k by div_lia.
  replace ((m - 1 + 12 * k) mod 12 + 1) with m by div_lia.
  rewrite (days_from_civil_day (y + k) m d). lia.
Qed.

Lemma year_length y m d :
  1 <= m <= 12 ->
  365 <= JSDate.days_from_civil (y + 1) m d - JSDate.days_from_civil y m d <= 366.
Proof.
  intros Hm. unfold JSDate.days_from_civil. cbv zeta.
  destruct (Z.leb_spec m 2), (Z.ltb_spec 2 m); try lia; div_lia.
Qed.

(** [setMonth(getMonth() + 12)] keeps the day of the month, the month and
    the time of day and moves to the following year, 365 or 366 days
    later. *)
Lemma addMonths_12 t :
  twelveMonthsAfter t (JSDate.addMonths 12 t)
  /\ 365 * JSDate.msPerDay <= JSDate.addMonths 12 t - t <= 366 * JSDate.msPerDay.
Proof.
  unfold twelveMonthsAfter, JSDate.addMonths.
  pose proof (civil_month_day_range (JSDate.Day t)) as Hr.
  pose proof (days_from_civil_of_days (JSDate.Day t)) as Hd.
  destruct (JSDate.civil_from_days (JSDate.Day t)) as [[y m] d].
  replace (m - 1 + 12) with (m - 1 + 12 * 1) by lia.
  rewrite MakeDay_in_year by lia. split; [done|].
  pose proof (year_length y m d (proj1 Hr)) as Hy.
  unfold JSDate.MakeDate, JSDate.Day, JSDate.TimeWithinDay, JSDate.msPerDay in *.
  div_lia.
Qed.

(** [setDate(getDate() + 1)] is one day later. *)
Lemma addDays_1 t : JSDate.addDays 1 t = t + JSDate.msPerDay.
Proof.
  unfold JSDate.addDays.
  pose proof (civil_month_day_range (JSDate.Day t)) as Hr.
  pose proof (days_from_civil_of_days (JSDate.Day t)) as Hd.
  destruct (JSDate.civil_from_days (JSDate.Day t)) as [[y m] d].
  replace (m - 1) with (m - 1 + 12 * 0) by lia.
  rewrite MakeDay_in_year by lia.
  rewrite (days_from_civil_day (y + 0) m (d + 1)).
  rewrite (days_from_civil_day y m d) in Hd. replace (y + 0) with y by lia.
  unfold JSDate.MakeDate, JSDate.Day, JSDate.TimeWithinDay, JSDate.msPerDay in *.
  div_lia.
Qed.

(** 2024-02-29T00:00Z, twelve months on, is 2025-03-01T00:00Z. *)
Example addMonths_leap_day : JSDate.addMonths 12 1709164800000 = 1740787200000.
Proof. reflexivity. Qed.

(** 2023-11-14T22:13:20Z, twelve months on, is 2024-11-14T22:13:20Z. *)
Example addMonths_plain_day : JSDate.addMonths 12 1700000000000 = 1731622400000.
Proof. reflexivity. Qed.

Example civil_of_epoch : JSDate.civil_from_days 0 = (1970, 1, 1).
Proof. reflexivity. Qed.

(** ** The request monad *)

Lemma bind_ret {A B} (a : A) (k : A -> M B) st : bind (ret a) k st = k a st.
Proof. reflexivity. Qed.

Lemma bind_throw {A B} e (k : A -> M B) st : bind (throw e) k st = (st, Throw e).
Proof. reflexivity. Qed.

Lemma bind_ret_r {A} (m : M A) st : bind m ret st = m st.
Proof. unfold bind, ret. by destruct (m st) as [st' [a|e]]. Qed.

Lemma bind_assoc {A B C} (m : M A) (k : A -> M B) (h : B -> M C) st :
  bind (bind m k) h st = bind m (fun a => bind (k a) h) st.
Proof. unfold bind. by destruct (m st) as [st' [a|e]]. Qed.

Lemma try_catch_ret {A} (a : A) h st : try_catch (ret a) h st = (st, Return a).
Proof. reflexivity. Qed.

Lemma try_catch_throw {A} e (h : string -> M A) st : try_catch (throw e) h st = h e st.
Proof. reflexivity. Qed.

(** A handler always answers. *)
Lemma handler_answers message m st :
  exists st' response, handler message m st = (st', response).
Proof. unfold handler. destruct (m st) as [st' [r|e]]; eauto. Qed.

(** ** Loan source readers *)

Ltac run :=
  unfold handler, bind, try_catch, ret, throw,
    StockSummaryModel.findOne, StockSummaryModel.deleteMany,
    StockSummaryModel.create, StockSummaryModel.save in *.

Lemma qualifies_spec transaction : qualifies transaction = true <-> carriesBoth transaction.
Proof.
  unfold qualifies, carriesBoth. by rewrite andb_true_iff, !truthy_str_spec.
Qed.

Lemma pushEach_app mk transactions : forall loans,
  pushEach mk loans transactions
  = (loans ++ map mk (List.filter qualifies transactions))%list.
Proof.
  unfold pushEach. induction transactions as [|t ts IH]; intros loans; simpl.
  - by rewrite app_nil_r.
  - rewrite IH. destruct (qualifies t); simpl; [|done].
    by rewrite <- app_assoc.
Qed.

Lemma extractFromDayBook_app now loans dayBook :
  extractFromDayBook now loans dayBook = (loans ++ dayBookLoans now dayBook)%list.
Proof.
  unfold extractFromDayBook, dayBookLoans.
  destruct (db_loansDisbursed dayBook) as [ds|], (db_closedLoans dayBook) as [cs|];
    simpl; rewrite ?pushEach_app, ?app_nil_r, ?app_assoc; done.
Qed.

Lemma extract_fold now dayBooks : forall loans,
  fold_left (extractFromDayBook now) dayBooks loans
  = (loans ++ flat_map (dayBookLoans now) dayBooks)%list.
Proof.
  induction dayBooks as [|d ds IH]; intros loans; simpl.
  - by rewrite app_nil_r.
  - rewrite IH, extractFromDayBook_app. by rewrite <- app_assoc.
Qed.

(** The day-book reader never throws. *)
Lemma extractLoanData_run now st :
  extractLoanDataFromDayBooks now st = (st, Return (ledgerLoans now st)).
Proof.
  unfold extractLoanDataFromDayBooks, try_catch, bind, DayBookModel.find, ret, ledgerLoans.
  destruct (st_dayBooks st); [|done]. by rewrite extract_fold.
Qed.

Lemma readVouchers_run mk st :
  readVouchers mk st = (st, Return (voucherLoansOf mk st)).
Proof.
  unfold readVouchers, try_catch, bind, Voucher.countDocuments, Voucher.find, ret,
    voucherLoansOf.
  destruct (st_countOk st); simpl; [|done].
  destruct (st_vouchers st) as [|v vs] eqn:E; simpl; [by destruct (st_vouchersOk st)|].
  destruct (st_vouchersOk st); by rewrite ?E.
Qed.

Lemma loans_after_readers mk now st :
  (if (length (voucherLoansOf mk st) =? 0)%nat
   then ledgerLoans now st else voucherLoansOf mk st) = syncLoans mk now st.
Proof.
  unfold syncLoans. by destruct (voucherLoansOf mk st).
Qed.

Lemma syncLoans_vouchers mk now st voucher vouchers :
  st_countOk st = true -> st_vouchersOk st = true ->
  st_vouchers st = voucher :: vouchers ->
  syncLoans mk now st = map mk (voucher :: vouchers).
Proof.
  intros Hc Hv He. unfold syncLoans, voucherLoansOf. by rewrite Hc, Hv, He.
Qed.

Lemma syncLoans_ledger mk now st :
  voucherFault st \/ st_vouchers st = [] ->
  syncLoans mk now st = ledgerLoans now st.
Proof.
  unfold syncLoans, voucherLoansOf, voucherFault.
  intros [[-> | ->] | ->]; simpl; rewrite ?andb_false_r; try done.
  by destruct (st_countOk st && st_vouchersOk st).
Qed.

Lemma dayBookLoans_length now dayBook :
  length (dayBookLoans now dayBook) = qualifyingCount dayBook.
Proof. unfold dayBookLoans, qualifyingCount. by rewrite length_app, !length_map. Qed.

Lemma flat_map_length {A B} (f : A -> list B) (l : list A) :
  length (flat_map f l) = list_sum (map (fun x => length (f x)) l).
Proof. induction l as [|x l IH]; simpl; [done|]. by rewrite length_app, IH. Qed.

(** Where each loan of the day-book reader comes from. *)
Lemma ledgerLoans_origin now dayBooks loan :
  In loan (flat_map (dayBookLoans now) dayBooks) ->
  exists dayBook transaction,
    In dayBook dayBooks /\ carriesBoth transaction
    /\ ((In transaction (JS.or_nil (db_loansDisbursed dayBook))
         /\ loan = disbursedLoan now dayBook transaction)
        \/ (In transaction (JS.or_nil (db_closedLoans dayBook))
            /\ loan = closedLoan dayBook transaction)).
Proof.
  intros Hin. apply in_flat_map in Hin as (db & Hdbin & Hin).
  unfold dayBookLoans in Hin. apply in_app_iff in Hin as [Hin|Hin];
    apply in_map_iff in Hin as (t & <- & Ht); apply filter_In in Ht as [Ht Hq];
    apply qualifies_spec in Hq; exists db, t; eauto 10.
Qed.

Lemma ledgerLoans_daybook now st :
  Forall (fun loan => sourceType loan = Some "daybook") (ledgerLoans now st).
Proof.
  unfold ledgerLoans. destruct (st_dayBooks st) as [dbs|]; [|constructor].
  apply List.Forall_forall. intros loan Hin.
  destruct (ledgerLoans_origin _ _ _ Hin) as (db & t & _ & _ & [[_ ->] | [_ ->]]); done.
Qed.

Lemma ledgerLoans_weights now st loan :
  In loan (ledgerLoans now st) -> grossWeight loan = netWeight loan.
Proof.
  unfold ledgerLoans. destruct (st_dayBooks st) as [dbs|]; [|done].
  intros Hin.
  destruct (ledgerLoans_origin _ _ _ Hin) as (db & t & _ & _ & [[_ ->] | [_ ->]]); done.
Qed.

Lemma dueAfterYear_spec disbursement t :
  disbursement = Some t ->
  exists due, dueAfterYear disbursement = Some due
    /\ twelveMonthsAfter t due
    /\ 365 * JSDate.msPerDay <= due - t <= 366 * JSDate.msPerDay.
Proof.
  intros ->. exists (JSDate.addMonths 12 t). split; [done|]. apply addMonths_12.
Qed.

(** C3: the day-book reader emits one loan for each transaction that carries
    both a voucher reference and a bill number and skips the others; the
    due date is the disbursement date plus twelve months; the transactions
    under [closedLoans] are emitted closed and settled in full. *)
Theorem ledger_reader_emits_qualifying (now : Z) (st : Store) (dayBooks : list DayBook) :
  st_dayBooks st = Some dayBooks ->
  exists loans,
    extractLoanDataFromDayBooks now st = (st, Return loans)
    /\ loans = flat_map (dayBookLoans now) dayBooks
    /\ length loans = list_sum (map qualifyingCount dayBooks)
    /\ (forall loan, In loan loans ->
          exists dayBook transaction,
            In dayBook dayBooks /\ carriesBoth transaction
            /\ ((In transaction (JS.or_nil (db_loansDisbursed dayBook))
                 /\ loan = disbursedLoan now dayBook transaction)
                \/ (In transaction (JS.or_nil (db_closedLoans dayBook))
                    /\ loan = closedLoan dayBook transaction)))
    /\ (forall loan, In loan loans ->
          dueDate loan = JSDate.addMonths 12 <$> disbursementDate loan
          /\ forall t, disbursementDate loan = Some t ->
               exists due, dueDate loan = Some due
                 /\ twelveMonthsAfter t due
                 /\ 365 * JSDate.msPerDay <= due - t <= 366 * JSDate.msPerDay)
    /\ (forall dayBook transaction,
          In dayBook dayBooks ->
          In transaction (JS.or_nil (db_closedLoans dayBook)) ->
          carriesBoth transaction ->
          exists loan,
            In loan loans
            /\ billNo loan = t_billNo transaction
            /\ voucherId loan = t_voucherId transaction
            /\ status loan = Some "Closed"
            /\ loanStatus loan = Some "closed"
            /\ (forall amount, t_amount transaction = Some amount ->
                  repaidAmount loan = Some amount)
            /\ balanceAmount loan = Some 0
            /\ paymentProgress loan = Some 100).
Proof.
  intros Hdb. exists (flat_map (dayBookLoans now) dayBooks).
  split; [|split; [done|split; [|split; [|split]]]].
  - rewrite extractLoanData_run. unfold ledgerLoans. by rewrite Hdb.
  - rewrite flat_map_length. f_equal. apply map_ext. intros db. apply dayBookLoans_length.
  - apply ledgerLoans_origin.
  - intros loan Hin.
    destruct (ledgerLoans_origin _ _ _ Hin) as (db & t & _ & _ & [[_ ->] | [_ ->]]);
      (split; [done|]); intros t0 Ht0; simpl in *; by apply dueAfterYear_spec.
  - intros db t Hdbin Ht Hq. exists (closedLoan db t). split; [|split; [done|]].
    + apply in_flat_map. exists db. split; [done|]. unfold dayBookLoans.
      apply in_app_iff. right. apply in_map. apply filter_In. split; [done|].
      by apply qualifies_spec.
    + split; [done|]. split; [done|]. split; [done|]. split; [|done].
      intros a Ha. simpl. f_equal. by apply or_num_present.
Qed.

Lemma ledger_reader_emits_qualifying_witness :
  st_dayBooks Sample.ledgerStore = Some [Sample.dayBook]
  /\ exists loans,
       extractLoanDataFromDayBooks Sample.clock Sample.ledgerStore
       = (Sample.ledgerStore, Return loans)
       /\ length loans = 2%nat
       /\ (forall loan, In loan loans ->
             dueDate loan = JSDate.addMonths 12 <$> disbursementDate loan).
Proof.
  split; [reflexivity|].
  destruct (ledger_reader_emits_qualifying Sample.clock Sample.ledgerStore
              [Sample.dayBook] eq_refl)
    as (loans & Hrun & _ & Hlength & _ & Hdue & _).
  exists loans. split; [exact Hrun|]. split; [exact Hlength|].
  intros loan Hin. exact (proj1 (Hdue loan Hin)).
Defined.

(** ** Synchroniser *)

Lemma sync_run now st :
  st_deleteOk st = true -> st_saveOk st = true ->
  createOrUpdateStockSummary now st
  = (with_summaries st [newStockSummary now (syncLoans (voucherLoan now) now st)],
     json (Synced (length (syncLoans (voucherLoan now) now st))
             (snapshotAggregates (newStockSummary now (syncLoans (voucherLoan now) now st)))
             (match syncLoans (voucherLoan now) now st with
              | loan :: _ => sourceType loan
              | [] => Some "unknown"
              end))).
Proof.
  intros Hd Hs. unfold createOrUpdateStockSummary, handler, bind.
  rewrite readVouchers_run.
  rewrite <- (loans_after_readers (voucherLoan now) now st).
  destruct (length (voucherLoansOf (voucherLoan now) st) =? 0)%nat.
  - rewrite extractLoanData_run. run. simpl. rewrite Hd; simpl. rewrite Hs. done.
  - run. rewrite Hd; simpl. rewrite Hs. done.
Qed.

(** C1: a sync reads the vouchers first and falls through to the day-books
    when the voucher collection is empty or cannot be read; it replaces all
    snapshots by exactly one, possibly with no loans; the loans of that
    snapshot all come from one source. *)
Theorem sync_selects_one_source (now : Z) (st : Store) :
  st_deleteOk st = true -> st_saveOk st = true ->
  exists loans source,
    createOrUpdateStockSummary now st
    = (with_summaries st [newStockSummary now loans],
       json (Synced (length loans) (snapshotAggregates (newStockSummary now loans)) source))
    /\ (forall voucher vouchers,
          st_countOk st = true -> st_vouchersOk st = true ->
          st_vouchers st = voucher :: vouchers ->
          loans = map (voucherLoan now) (voucher :: vouchers)
          /\ Forall (fun loan => sourceType loan = Some "voucher") loans)
    /\ (voucherFault st \/ st_vouchers st = [] ->
          extractLoanDataFromDayBooks now st = (st, Return loans)
          /\ Forall (fun loan => sourceType loan = Some "daybook") loans).
Proof.
  intros Hd Hs. eexists _, _. split; [apply sync_run; assumption|]. split.
  - intros v vs Hc Hv He. rewrite (syncLoans_vouchers _ _ _ v vs) by done.
    split; [done|]. apply List.Forall_forall. intros loan Hin.
    apply in_map_iff in Hin as (x & <- & _). done.
  - intros Hv. rewrite syncLoans_ledger by done.
    split; [apply extractLoanData_run | apply ledgerLoans_daybook].
Qed.

Lemma sync_selects_one_source_witness :
  st_deleteOk Sample.store = true /\ st_saveOk Sample.store = true
  /\ exists loans,
       st_summaries (fst (createOrUpdateStockSummary Sample.clock Sample.store))
       = [newStockSummary Sample.clock loans]
       /\ length loans = 3%nat
       /\ Forall (fun loan => sourceType loan = Some "voucher") loans.
Proof.
  split; [reflexivity|]. split; [reflexivity|].
  destruct (sync_selects_one_source Sample.clock Sample.store eq_refl eq_refl)
    as (loans & source & Hrun & Hvouchers & _).
  destruct (Hvouchers _ _ eq_refl eq_refl eq_refl) as [Hloans Hall].
  exists loans. rewrite Hrun. split; [reflexivity|]. split; [|exact Hall].
  rewrite Hloans. reflexivity.
Defined.

(** ** Voucher reader *)

Section VoucherRule.

Variable now : Z.
Variable voucher : Voucher.

(** The test the two copies of the [vouchers.map] callback make. *)
Let isOverdue : bool :=
JSDate.lt (v_dueDate voucher) (Some now)
&& negb (JS.str_eq (v_status voucher) "Closed").

Lemma isOverdue_spec : isOverdue = true <-> overdueAt now voucher.
Proof.
unfold isOverdue, overdueAt.
by rewrite andb_true_iff, negb_true_iff, date_lt_spec, str_eq_false.
Qed.

(** The rule in terms of the fields the callback computes. *)
Lemma overdue_rule_of_fields loan :
loanStatus loan
= Some (if isOverdue then "overdue"
        else if JS.str_eq (v_status voucher) "Closed" then "closed"
        else if isActiveOrPartial (v_status voucher) then "active"
        else "inactive") ->
daysOverdue loan = Some (if isOverdue then daysSince now (v_dueDate voucher) else 0) ->
followsOverdueRule now voucher loan.
Proof.
intros Hstatus Hdays. split.
- intros Hov. apply isOverdue_spec in Hov. rewrite Hov in Hstatus, Hdays.
  split; [done|]. intros due Hdue. eexists. split; [exact Hdays|].
  rewrite Hdue. simpl. by apply ceil_div_bounds.
- intros Hno. destruct isOverdue eqn:E; [by apply isOverdue_spec in E|].
  split; [done|]. rewrite Hstatus. split; [|split].
  + intros ->. done.
  + intros [-> | ->]; done.
  + intros H1 H2 H3. apply str_eq_false in H1, H2, H3.
    unfold isActiveOrPartial. by rewrite H1, H2, H3.
Qed.

Lemma voucherLoan_rule : followsOverdueRule now voucher (voucherLoan now voucher).
Proof. by apply overdue_rule_of_fields. Qed.

Lemma voucherLoanOnRead_rule : followsOverdueRule now voucher (voucherLoanOnRead now voucher).
Proof. by apply overdue_rule_of_fields. Qed.

(** A voucher that is not closed and fell due exactly one day ago. *)
Lemma due_yesterday loan :
followsOverdueRule now voucher loan ->
v_status voucher = Some "Active" ->
v_dueDate voucher = Some (now - JSDate.msPerDay) ->
loanStatus loan = Some "overdue" /\ daysOverdue loan = Some 1.
Proof.
intros [Hrule _] Hstatus Hdue.
assert (Hov : overdueAt now voucher).
{ split; [|by rewrite Hstatus].
  exists (now - JSDate.msPerDay). split; [done|]. unfold JSDate.msPerDay. lia. }
destruct (Hrule Hov) as [Hls Hdays]. split; [done|].
destruct (Hdays _ Hdue) as (days & -> & Hbounds). f_equal.
unfold JSDate.msPerDay in Hbounds. nia.
Qed.

End VoucherRule.

(** C2: a voucher is overdue when its due date has passed and it is not
    closed; the days overdue are the day difference rounded up, or zero;
    the classification is overdue, closed, active or inactive, in that
    order; an active voucher due exactly one day ago is synced as overdue by
    one day. *)
Theorem voucher_overdue_rule (now : Z) (st : Store) (vouchers : list Voucher) :
  st_deleteOk st = true -> st_saveOk st = true ->
  st_countOk st = true -> st_vouchersOk st = true ->
  st_vouchers st = vouchers -> vouchers <> [] ->
  exists snapshot,
    st_summaries (fst (createOrUpdateStockSummary now st)) = [snapshot]
    /\ length (ss_loans snapshot) = length vouchers
    /\ (forall i voucher, vouchers !! i = Some voucher ->
          exists loan,
            ss_loans snapshot !! i = Some loan
            /\ followsOverdueRule now voucher loan
            /\ (v_status voucher = Some "Active" ->
                v_dueDate voucher = Some (now - JSDate.msPerDay) ->
                loanStatus loan = Some "overdue" /\ daysOverdue loan = Some 1)).
Proof.
  intros Hd Hs Hc Hv He Hne. rewrite (sync_run now st Hd Hs). simpl.
  eexists. split; [reflexivity|]. simpl.
  assert (Hloans : syncLoans (voucherLoan now) now st = map (voucherLoan now) vouchers).
  { destruct vouchers as [|v vs]; [done|]. by apply syncLoans_vouchers. }
  rewrite Hloans. split; [by rewrite length_map|].
  intros i voucher Hi. exists (voucherLoan now voucher). split.
  - rewrite list_lookup_fmap, Hi. done.
  - split; [apply voucherLoan_rule|]. apply due_yesterday, voucherLoan_rule.
Qed.

Lemma voucher_overdue_rule_witness :
  st_deleteOk Sample.oneVoucherStore = true /\ st_saveOk Sample.oneVoucherStore = true
  /\ st_countOk Sample.oneVoucherStore = true
  /\ st_vouchersOk Sample.oneVoucherStore = true
  /\ st_vouchers Sample.oneVoucherStore = [Sample.voucher]
  /\ exists snapshot loan,
       st_summaries (fst (createOrUpdateStockSummary Sample.clock Sample.oneVoucherStore))
       = [snapshot]
       /\ ss_loans snapshot !! 0%nat = Some loan
       /\ loanStatus loan = Some "overdue"
       /\ daysOverdue loan = Some 1.
Proof.
  split; [reflexivity|]. split; [reflexivity|]. split; [reflexivity|].
  split; [reflexivity|]. split; [reflexivity|].
  destruct (voucher_overdue_rule Sample.clock Sample.oneVoucherStore [Sample.voucher]
              eq_refl eq_refl eq_refl eq_refl eq_refl)
    as (snapshot & Hsnapshot & _ & Hloans); [discriminate|].
  destruct (Hloans 0%nat Sample.voucher eq_refl) as (loan & Hloan & _ & Hscenario).
  destruct (Hscenario eq_refl eq_refl) as [Hstatus Hdays].
  exists snapshot, loan. split; [exact Hsnapshot|]. split; [exact Hloan|].
  split; [exact Hstatus | exact Hdays].
Defined.

(** C9 fails as stated: a voucher without [balanceAmount] whose
    [overallLoanAmount] is 5000 gives a loan with balance 5000. *)
Lemma voucher_balance_default_counterexample :
  v_balanceAmount Sample.voucher = None
  /\ balanceAmount (voucherLoan Sample.clock Sample.voucher) = Some 5000
  /\ balanceAmount (voucherLoan Sample.clock Sample.voucher) <> Some 0.
Proof. split; [reflexivity|]. split; [reflexivity|]. discriminate. Qed.

(** C9, as amended: a financial field other than [balanceAmount] is zero
    when the voucher has no value for it; a missing [balanceAmount] takes the
    voucher's [overallLoanAmount]. *)
Theorem voucher_financial_defaults (now : Z) (voucher : Voucher) :
  let loan := voucherLoan now voucher in
  let onRead := voucherLoanOnRead now voucher in
  ((v_loanAmount voucher = None -> loanAmount loan = Some 0)
   /\ (v_finalLoanAmount voucher = None -> finalLoanAmount loan = Some 0)
   /\ (v_overallLoanAmount voucher = None -> overallLoanAmount loan = Some 0)
   /\ (v_interestRate voucher = None -> interestRate loan = Some 0)
   /\ (v_interestAmount voucher = None -> interestAmount loan = Some 0)
   /\ (v_repaidAmount voucher = None -> repaidAmount loan = Some 0)
   /\ (v_paymentProgress voucher = None -> paymentProgress loan = Some 0)
   /\ (v_totalInterestPaid voucher = None -> totalInterestPaid loan = Some 0)
   /\ (v_monthsPaid voucher = None -> monthsPaid loan = Some 0))
  /\ (v_balanceAmount voucher = None ->
      balanceAmount loan = v_overallLoanAmount voucher
      /\ balanceAmount onRead = v_overallLoanAmount voucher)
  /\ ((v_loanAmount voucher = None -> loanAmount onRead = Some 0)
      /\ (v_finalLoanAmount voucher = None -> finalLoanAmount onRead = Some 0)
      /\ (v_overallLoanAmount voucher = None -> overallLoanAmount onRead = Some 0)
      /\ (v_interestRate voucher = None -> interestRate onRead = Some 0)
      /\ (v_interestAmount voucher = None -> interestAmount onRead = Some 0)
      /\ (v_repaidAmount voucher = None -> repaidAmount onRead = Some 0)
      /\ (v_paymentProgress voucher = None -> paymentProgress onRead = Some 0)).
Proof.
  simpl.
  repeat match goal with |- _ /\ _ => split end;
    intros Hnone; rewrite Hnone; try split; reflexivity.
Qed.

Lemma voucher_financial_defaults_witness :
  v_interestAmount Sample.voucher = None /\ v_balanceAmount Sample.voucher = None
  /\ interestAmount (voucherLoan Sample.clock Sample.voucher) = Some 0
  /\ balanceAmount (voucherLoan Sample.clock Sample.voucher) = Some 5000.
Proof.
  split; [reflexivity|]. split; [reflexivity|].
  destruct (voucher_financial_defaults Sample.clock Sample.voucher)
    as ((_ & _ & _ & _ & Hinterest & _) & Hbalance & _).
  split; [exact (Hinterest eq_refl)|].
  destruct (Hbalance eq_refl) as [Hsync _]. rewrite Hsync. reflexivity.
Defined.

(** ** Query and filter engine *)

Lemma hasLoanStatus_spec s loan : hasLoanStatus s loan = true <-> loanStatus loan = Some s.
Proof. apply str_eq_spec. Qed.

Lemma lowerIncludes_spec needle field :
  needle <> "" ->
  lowerIncludes field (JS.toLowerCase needle) = true <-> containsIgnoringCase needle field.
Proof.
  intros Hne. unfold lowerIncludes, containsIgnoringCase.
  destruct field as [value|]; [|split; [discriminate|by intros (? & ? & ?)]].
  rewrite andb_true_iff, negb_true_iff, String.eqb_neq, includes_spec. split.
  - intros [_ Hocc]. eauto.
  - intros (v & [= <-] & Hocc). split; [|done]. intros ->.
    apply occursIn_empty in Hocc. by apply toLowerCase_nonempty in Hne.
Qed.

Lemma plainIncludes_spec needle field :
  needle <> "" ->
  plainIncludes field needle = true <-> containsExactly needle field.
Proof.
  intros Hne. unfold plainIncludes, containsExactly.
  destruct field as [value|]; [|split; [discriminate|by intros (? & ? & ?)]].
  rewrite andb_true_iff, negb_true_iff, String.eqb_neq, includes_spec. split.
  - intros [_ Hocc]. eauto.
  - intros (v & [= <-] & Hocc). split; [|done]. intros ->.
    by apply occursIn_empty in Hocc.
Qed.

Lemma matchesSearch_spec needle loan :
  needle <> "" -> matchesSearch needle loan = true <-> searchMatches needle loan.
Proof.
  intros Hne. unfold matchesSearch, searchMatches.
  rewrite !orb_true_iff, !lowerIncludes_spec, plainIncludes_spec by done. tauto.
Qed.

Lemma onDay_spec filterDate loan :
  onDay filterDate loan = true <->
  exists day moment,
    filterDate = Some day /\ disbursementDate loan = Some moment
    /\ day <= moment < day + JSDate.msPerDay.
Proof.
  unfold onDay. destruct filterDate as [day|], (disbursementDate loan) as [moment|]; simpl.
  - rewrite andb_true_iff, Z.leb_le, Z.ltb_lt, addDays_1. split.
    + intros [? ?]. exists day, moment. done.
    + intros (? & ? & [= <-] & [= <-] & ?). done.
  - split; [discriminate|]. by intros (? & ? & ? & ? & ?).
  - split; [discriminate|]. by intros (? & ? & ? & ? & ?).
  - split; [discriminate|]. by intros (? & ? & ? & ? & ?).
Qed.

Section Filters.

Variable q : Query.
Variable loans : list DerivedLoan.
Variable loan : DerivedLoan.

(** A stage that does not filter. *)
Local Ltac stage_off :=
split; [intros ?; split; [done|] | tauto].

Lemma searchStage_spec :
In loan (searchStage q loans) <->
In loan loans
/\ (forall needle, search q = Some needle -> needle <> "" -> searchMatches needle loan).
Proof.
unfold searchStage. destruct (JS.truthy_str (search q)) eqn:E.
- apply truthy_str_spec in E as (s & Hs & Hne). rewrite Hs. simpl.
  rewrite filter_In, matchesSearch_spec by done. split.
  + intros [? ?]. split; [done|]. by intros ? [= <-] _.
  + intros [? H]. eauto.
- stage_off. intros s Hs Hne.
  assert (JS.truthy_str (search q) = true) by (apply truthy_str_spec; eauto). congruence.
Qed.

Lemma dateStage_spec :
In loan (dateStage q loans) <->
In loan loans
/\ (forall filterDate, dateFilter q = Some filterDate ->
      exists day moment,
        filterDate = Some day /\ disbursementDate loan = Some moment
        /\ day <= moment < day + JSDate.msPerDay).
Proof.
unfold dateStage. destruct (dateFilter q) as [d|].
- rewrite filter_In, onDay_spec. split.
  + intros [? ?]. split; [done|]. by intros ? [= <-].
  + intros [? H]. eauto.
- stage_off. discriminate.
Qed.

Lemma statusStage_spec :
In loan (statusStage q loans) <->
In loan loans
/\ (forall wanted, statusFilter q = Some wanted ->
      wanted = "active" \/ wanted = "overdue" \/ wanted = "closed" ->
      loanStatus loan = Some wanted).
Proof.
unfold statusStage. destruct (statusFilter q) as [f|]; simpl.
2: { stage_off. discriminate. }
destruct (String.eqb_spec f "") as [->|Hne]; simpl.
{ stage_off. by intros ? [= <-] [?|[?|?]]. }
destruct (String.eqb_spec f "all") as [->|Hall]; simpl.
{ stage_off. by intros ? [= <-] [?|[?|?]]. }
destruct (String.eqb_spec f "active") as [->|Ha].
{ rewrite filter_In, hasLoanStatus_spec. split.
  - intros [? ?]. split; [done|]. by intros ? [= <-] _.
  - intros [? H]. eauto. }
destruct (String.eqb_spec f "overdue") as [->|Ho].
{ rewrite filter_In, hasLoanStatus_spec. split.
  - intros [? ?]. split; [done|]. by intros ? [= <-] _.
  - intros [? H]. eauto. }
destruct (String.eqb_spec f "closed") as [->|Hc].
{ rewrite filter_In, hasLoanStatus_spec. split.
  - intros [? ?]. split; [done|]. by intros ? [= <-] _.
  - intros [? H]. eauto. }
stage_off. intros ? [= <-] [?|[?|?]]; congruence.
Qed.

Lemma jewelTypeStage_spec :
In loan (jewelTypeStage q loans) <->
In loan loans
/\ (forall wanted, jewelTypeFilter q = Some wanted ->
      wanted <> "" -> wanted <> "all" -> jewelType loan = Some wanted).
Proof.
unfold jewelTypeStage. destruct (jewelTypeFilter q) as [f|]; simpl.
2: { stage_off. discriminate. }
destruct (String.eqb_spec f "") as [->|Hne]; simpl.
{ stage_off. by intros ? [= <-] ?. }
destruct (String.eqb_spec f "all") as [->|Hall]; simpl.
{ stage_off. by intros ? [= <-] ? ?. }
rewrite filter_In, str_eq_spec. split.
- intros [? ?]. split; [done|]. by intros ? [= <-] _ _.
- intros [? H]. eauto.
Qed.

End Filters.

Lemma applyFilters_spec q loans loan :
  In loan (applyFilters q loans) <-> In loan loans /\ passes q loan.
Proof.
  unfold applyFilters, passes.
  rewrite jewelTypeStage_spec, statusStage_spec, dateStage_spec, searchStage_spec.
  tauto.
Qed.

Lemma filter_filter {A} (p r : A -> bool) l :
  List.filter r (List.filter p l) = List.filter (fun x => p x && r x) l.
Proof.
  induction l as [|x l IH]; simpl; [done|].
  destruct (p x); simpl; [|done]. destruct (r x); simpl; by rewrite IH.
Qed.

Lemma filter_all {A} (l : list A) : List.filter (fun _ => true) l = l.
Proof. induction l as [|x l IH]; simpl; congruence. Qed.

Lemma filtering_id : filtering (fun loans => loans).
Proof. exists (fun _ => true). intros loans. by rewrite filter_all. Qed.

Lemma filtering_filter keep : filtering (List.filter keep).
Proof. by exists keep. Qed.

Lemma filtering_compose f g : filtering f -> filtering g -> filtering (fun loans => g (f loans)).
Proof.
  intros (p & Hp) (r & Hr). exists (fun loan => p loan && r loan).
  intros loans. by rewrite Hp, Hr, filter_filter.
Qed.

Lemma stages_filtering q :
  filtering (searchStage q) /\ filtering (dateStage q)
  /\ filtering (statusStage q) /\ filtering (jewelTypeStage q).
Proof.
  unfold searchStage, dateStage, statusStage, jewelTypeStage.
  repeat split;
    repeat match goal with
           | |- filtering (fun loans => if ?c then _ else _) => destruct c
           | |- filtering (fun loans => match ?x with Some _ => _ | None => _ end) =>
               destruct x
           end;
    (apply filtering_id || apply filtering_filter).
Qed.

(** The four stages together keep the loans that pass, in their order and
    as often as they occur. *)
Lemma applyFilters_filter q :
  exists keep,
    (forall loans, applyFilters q loans = List.filter keep loans)
    /\ (forall loan, keep loan = true <-> passes q loan).
Proof.
  destruct (stages_filtering q) as (Hsearch & Hdate & Hstatus & Hjewel).
  destruct (filtering_compose _ _
              (filtering_compose _ _ (filtering_compose _ _ Hsearch Hdate) Hstatus) Hjewel)
    as (keep & Hkeep).
  exists keep. split; [exact Hkeep|].
  intros loan. pose proof (applyFilters_spec q [loan] loan) as Hspec.
  unfold applyFilters in Hspec. rewrite Hkeep in Hspec. simpl in Hspec.
  destruct (keep loan); simpl in Hspec.
  - split; [|done]. intros _. apply Hspec. by left.
  - split; [done|]. intros Hp. exfalso. apply Hspec. split; [by left|done].
Qed.

Lemma applyFilters_nil q : applyFilters q [] = [].
Proof.
  unfold applyFilters, jewelTypeStage, statusStage, dateStage, searchStage.
  repeat match goal with
         | |- context [if ?b then _ else _] => destruct b
         | |- context [match ?x with Some _ => _ | None => _ end] => destruct x
         end; reflexivity.
Qed.

Lemma applyFilters_disabled q loans :
  (search q = None \/ search q = Some "") ->
  dateFilter q = None ->
  (statusFilter q = None \/ statusFilter q = Some "" \/ statusFilter q = Some "all") ->
  (jewelTypeFilter q = None \/ jewelTypeFilter q = Some "" \/ jewelTypeFilter q = Some "all") ->
  applyFilters q loans = loans.
Proof.
  intros Hs Hd Hst Hj.
  unfold applyFilters, jewelTypeStage, statusStage, dateStage, searchStage.
  rewrite Hd.
  destruct Hs as [-> | ->], Hst as [-> | [-> | ->]], Hj as [-> | [-> | ->]]; reflexivity.
Qed.

Lemma paginate_nil q : paginate q [] = [].
Proof. unfold paginate, JS.slice. by rewrite drop_nil, take_nil. Qed.

Lemma latest_none l : StockSummaryModel.latest l = None <-> l = [].
Proof. destruct l; simpl; split; congruence. Qed.

Lemma populate_run now q st :
  populate now q st
  = if st_saveOk st
    then (with_summaries st
            (st_summaries st ++ [newStockSummary now (syncLoans (voucherLoanOnRead now) now st)]),
          Return (inr (newStockSummary now (syncLoans (voucherLoanOnRead now) now st))))
    else (st, Return (inl (json (Queried (emptyResult now q))))).
Proof.
  unfold populate, try_catch, bind at 1. rewrite readVouchers_run.
  rewrite <- (loans_after_readers (voucherLoanOnRead now) now st).
  destruct (length (voucherLoansOf (voucherLoanOnRead now) st) =? 0)%nat.
  - unfold try_catch, bind. rewrite extractLoanData_run. run.
    destruct (st_saveOk st); reflexivity.
  - run. destruct (st_saveOk st); reflexivity.
Qed.

Lemma getStockSummary_run now q st :
  st_findOk st = true ->
  getStockSummary now q st
  = match StockSummaryModel.latest (st_summaries st) with
    | Some (_, stockSummary) => (st, json (Queried (answer q stockSummary)))
    | None =>
        if st_saveOk st
        then (with_summaries st
                (st_summaries st
                 ++ [newStockSummary now (syncLoans (voucherLoanOnRead now) now st)]),
              json (Queried
                      (answer q (newStockSummary now
                                   (syncLoans (voucherLoanOnRead now) now st)))))
        else (st, json (Queried (emptyResult now q)))
    end.
Proof.
  intros Hf. unfold getStockSummary, handler, bind, StockSummaryModel.findOne.
  rewrite Hf. destruct (StockSummaryModel.latest (st_summaries st)) as [[pos s]|].
  - reflexivity.
  - rewrite populate_run. destruct (st_saveOk st); reflexivity.
Qed.

(** What a query answers from, whether the snapshot was found or has just
    been created. *)
Lemma query_answers now q st :
  st_findOk st = true ->
  exists result,
    snd (getStockSummary now q st) = json (Queried result)
    /\ totalItems (pagination result)
       = length (applyFilters q (currentLoans (fst (getStockSummary now q st))))
    /\ data result
       = map formatLoan
           (paginate q (applyFilters q (currentLoans (fst (getStockSummary now q st))))).
Proof.
  intros Hf. rewrite (getStockSummary_run now q st Hf). unfold currentLoans.
  destruct (StockSummaryModel.latest (st_summaries st)) as [[pos s]|] eqn:E.
  - simpl. rewrite E. eexists. split; [reflexivity|]. split; reflexivity.
  - apply latest_none in E. rewrite E. destruct (st_saveOk st); simpl.
    + eexists. split; [reflexivity|]. split; reflexivity.
    + rewrite E. simpl. eexists. split; [reflexivity|].
      rewrite applyFilters_nil, paginate_nil. split; reflexivity.
Qed.

(** C4: the filters of a query compose conjunctively, the search matches
    the bill number, customer name or customer id ignoring case or the phone
    number exactly, and [all] or a missing value switches the status and
    jewel-type filters off. *)
Theorem query_filters_conjunctive (now : Z) (q : Query) (st : Store)
    (position : nat) (stockSummary : StockSummary) :
  st_findOk st = true ->
  StockSummaryModel.latest (st_summaries st) = Some (position, stockSummary) ->
  exists result,
    getStockSummary now q st = (st, json (Queried result))
    /\ (forall loan,
          In loan (applyFilters q (ss_loans stockSummary))
          <-> In loan (ss_loans stockSummary) /\ passes q loan)
    /\ (exists keep,
          applyFilters q (ss_loans stockSummary) = List.filter keep (ss_loans stockSummary)
          /\ forall loan, keep loan = true <-> passes q loan)
    /\ totalItems (pagination result) = length (applyFilters q (ss_loans stockSummary))
    /\ summary result = filteredStats (applyFilters q (ss_loans stockSummary))
    /\ data result = map formatLoan (paginate q (applyFilters q (ss_loans stockSummary)))
    /\ (pageOf q = 1 ->
        Z.of_nat (length (applyFilters q (ss_loans stockSummary))) <= limitOf q ->
        data result = map formatLoan (applyFilters q (ss_loans stockSummary)))
    /\ ((search q = None \/ search q = Some "") ->
        dateFilter q = None ->
        (statusFilter q = None \/ statusFilter q = Some "" \/ statusFilter q = Some "all") ->
        (jewelTypeFilter q = None \/ jewelTypeFilter q = Some ""
         \/ jewelTypeFilter q = Some "all") ->
        applyFilters q (ss_loans stockSummary) = ss_loans stockSummary).
Proof.
  intros Hf Hl. rewrite (getStockSummary_run now q st Hf), Hl.
  eexists. split; [reflexivity|]. split; [|split; [|split; [|split; [|split; [|split]]]]].
  - intros loan. apply applyFilters_spec.
  - destruct (applyFilters_filter q) as (keep & Hkeep & Hpass). exists keep. by split.
  - reflexivity.
  - reflexivity.
  - reflexivity.
  - intros Hp Hlim. simpl. f_equal. unfold paginate. rewrite Hp.
    replace ((1 - 1) * limitOf q) with 0 by lia.
    rewrite slice_window by lia. simpl. rewrite drop_0. apply take_ge. lia.
  - apply applyFilters_disabled.
Qed.

Lemma query_filters_conjunctive_witness :
  st_findOk Sample.synced = true
  /\ exists stockSummary result,
       StockSummaryModel.latest (st_summaries Sample.synced) = Some (0%nat, stockSummary)
       /\ getStockSummary Sample.clock Sample.activeGold Sample.synced
          = (Sample.synced, json (Queried result))
       /\ totalItems (pagination result) = 1%nat
       /\ (forall loan,
             In loan (applyFilters Sample.activeGold (ss_loans stockSummary))
             <-> In loan (ss_loans stockSummary) /\ passes Sample.activeGold loan).
Proof.
  split; [reflexivity|].
  destruct (StockSummaryModel.latest (st_summaries Sample.synced))
    as [[position stockSummary]|] eqn:Hlatest; [|discriminate].
  injection Hlatest as <- <-.
  destruct (query_filters_conjunctive Sample.clock Sample.activeGold Sample.synced
              0%nat _ eq_refl eq_refl)
    as (result & Hrun & Hiff & _ & Htotal & _).
  eexists _, result. split; [reflexivity|]. split; [exact Hrun|].
  split; [|exact Hiff]. rewrite Htotal. reflexivity.
Defined.

(** C5 fails as stated: with [limit = -1] the page of a three-loan
    snapshot holds two loans. *)
Lemma query_negative_limit_counterexample :
  exists result,
    snd (getStockSummary Sample.clock Sample.negativeLimit Sample.synced)
    = json (Queried result)
    /\ limitOf Sample.negativeLimit = -1
    /\ totalItems (pagination result) = 3%nat
    /\ length (data result) = 2%nat
    /\ ~ Z.of_nat (length (data result)) <= limitOf Sample.negativeLimit.
Proof.
  eexists. split; [reflexivity|]. split; [reflexivity|]. split; [reflexivity|].
  split; [reflexivity|]. vm_compute. intros H. apply H. reflexivity.
Qed.

(** C5, as amended: pagination is 1-indexed with default limit 100 and is
    applied to the filtered loans at offset [(page - 1) * limit];
    [totalItems] is the size of the filtered set whatever the page and the
    limit; the page holds at most [limit] loans when [limit] is not
    negative. *)
Theorem query_pagination (now : Z) (q : Query) (st : Store) :
  st_findOk st = true ->
  exists result,
    snd (getStockSummary now q st) = json (Queried result)
    /\ (page q = None -> pageOf q = 1)
    /\ (limit q = None -> limitOf q = 100)
    /\ totalItems (pagination result)
       = length (applyFilters q (currentLoans (fst (getStockSummary now q st))))
    /\ data result
       = map formatLoan
           (JS.slice (applyFilters q (currentLoans (fst (getStockSummary now q st))))
              ((pageOf q - 1) * limitOf q) ((pageOf q - 1) * limitOf q + limitOf q))
    /\ (1 <= pageOf q -> 0 <= limitOf q ->
        data result
        = map formatLoan
            (take (Z.to_nat (limitOf q))
               (drop (Z.to_nat ((pageOf q - 1) * limitOf q))
                  (applyFilters q (currentLoans (fst (getStockSummary now q st)))))))
    /\ (0 <= limitOf q -> Z.of_nat (length (data result)) <= limitOf q).
Proof.
  intros Hf. destruct (query_answers now q st Hf) as (result & Hr & Ht & Hd).
  exists result. split; [done|]. split; [|split; [|split; [done|split; [done|split]]]].
  - unfold pageOf. by intros ->.
  - unfold limitOf. by intros ->.
  - intros Hp Hl. rewrite Hd. unfold paginate. rewrite slice_window by nia. done.
  - intros Hl. rewrite Hd, length_map. unfold paginate. by apply slice_length_le.
Qed.

Lemma query_pagination_witness :
  st_findOk Sample.synced = true
  /\ exists result,
       snd (getStockSummary Sample.clock Sample.activeGold Sample.synced)
       = json (Queried result)
       /\ totalItems (pagination result) = 1%nat
       /\ Z.of_nat (length (data result)) <= 10.
Proof.
  split; [reflexivity|].
  destruct (query_pagination Sample.clock Sample.activeGold Sample.synced eq_refl)
    as (result & Hrun & _ & _ & Htotal & _ & _ & Hbound).
  exists result. split; [exact Hrun|]. split.
  - rewrite Htotal. reflexivity.
  - apply Hbound. discriminate.
Defined.

(** C8: with no snapshot in the store a query populates one, from the
    vouchers first and from the day-books otherwise; when that fails the
    query answers successfully with an empty result. *)
Theorem query_populates_or_degrades (now : Z) (q : Query) (st : Store) :
  st_findOk st = true ->
  st_summaries st = [] ->
  (st_saveOk st = true ->
   exists loans,
     getStockSummary now q st
     = (with_summaries st [newStockSummary now loans],
        json (Queried (answer q (newStockSummary now loans))))
     /\ (forall voucher vouchers,
           st_countOk st = true -> st_vouchersOk st = true ->
           st_vouchers st = voucher :: vouchers ->
           loans = map (voucherLoanOnRead now) (voucher :: vouchers))
     /\ (voucherFault st \/ st_vouchers st = [] ->
           extractLoanDataFromDayBooks now st = (st, Return loans)))
  /\ (st_saveOk st = false ->
      exists result,
        getStockSummary now q st
        = (st, {| code := 200; success := true; body := Queried result |})
        /\ data result = []
        /\ totalItems (pagination result) = 0%nat
        /\ summary result = filteredStats []
        /\ overdueRate (summary result) = 0
        /\ jewelTypeSummary result = ∅
        /\ o_totalLoans (overallSummary result) = 0%nat
        /\ o_overdueRate (overallSummary result) = 0
        /\ dataSource result = "empty")
  /\ (voucherFault st -> st_dayBooks st = None ->
      exists result,
        snd (getStockSummary now q st)
        = {| code := 200; success := true; body := Queried result |}
        /\ data result = []
        /\ totalItems (pagination result) = 0%nat
        /\ summary result = filteredStats []
        /\ overdueRate (summary result) = 0).
Proof.
  intros Hf He. rewrite (getStockSummary_run now q st Hf), He. simpl.
  split; [|split].
  - intros ->. eexists. split; [reflexivity|]. split.
    + intros v vs Hc Hv Hvs. by apply syncLoans_vouchers.
    + intros Hv. rewrite extractLoanData_run. by rewrite syncLoans_ledger.
  - intros ->. eexists. split; [reflexivity|]. repeat split.
  - intros Hv Hd. destruct (st_saveOk st); simpl.
    + eexists. split; [reflexivity|].
      rewrite syncLoans_ledger by (by left). unfold ledgerLoans. rewrite Hd. simpl.
      rewrite applyFilters_nil, paginate_nil. repeat split.
    + eexists. split; [reflexivity|]. repeat split.
Qed.

Lemma query_populates_or_degrades_witness :
  st_findOk Sample.store = true /\ st_summaries Sample.store = []
  /\ exists loans,
       getStockSummary Sample.clock Sample.noFilter Sample.store
       = (with_summaries Sample.store [newStockSummary Sample.clock loans],
          json (Queried (answer Sample.noFilter (newStockSummary Sample.clock loans))))
       /\ loans = map (voucherLoanOnRead Sample.clock)
                    [Sample.voucher; Sample.voucher2; Sample.voucher3].
Proof.
  split; [reflexivity|]. split; [reflexivity|].
  destruct (query_populates_or_degrades Sample.clock Sample.noFilter Sample.store
              eq_refl eq_refl)
    as (Hpopulate & _ & _).
  destruct (Hpopulate eq_refl) as (loans & Hrun & Hvouchers & _).
  exists loans. split; [exact Hrun|]. apply (Hvouchers _ _ eq_refl eq_refl eq_refl).
Defined.

(** ** The current snapshot *)

Lemma latestFrom_spec l : forall k bi bs ri rs,
  StockSummaryModel.latestFrom (bi, bs) k l = (ri, rs) ->
  (ri = bi /\ rs = bs
   /\ forall j other, l !! j = Some other -> ss_lastUpdated other <= ss_lastUpdated bs)
  \/ (exists j, ri = (k + j)%nat /\ l !! j = Some rs
        /\ ss_lastUpdated bs < ss_lastUpdated rs
        /\ (forall j' other, l !! j' = Some other ->
              ss_lastUpdated other <= ss_lastUpdated rs)
        /\ (forall j' other, (j' < j)%nat -> l !! j' = Some other ->
              ss_lastUpdated other < ss_lastUpdated rs)).
Proof.
  induction l as [|s r IH]; intros k bi bs ri rs Hrun; simpl in Hrun.
  - left. injection Hrun as <- <-. split; [done|]. split; [done|]. intros j other H. done.
  - destruct (Z.ltb_spec (ss_lastUpdated bs) (ss_lastUpdated s)) as [Hlt|Hge].
    + right. apply IH in Hrun as [(-> & -> & Hall) | (j & -> & Hj & Hlt' & Hall & Hbefore)].
      * exists 0%nat. split; [lia|]. split; [done|]. split; [done|]. split.
        -- intros [|j'] other H; simpl in H; [injection H as <-; lia | eauto].
        -- intros j' other Hj'. lia.
      * exists (S j). split; [lia|]. split; [done|]. split; [lia|]. split.
        -- intros [|j'] other H; simpl in H; [injection H as <-; lia | eauto].
        -- intros [|j'] other Hj' H; simpl in H; [injection H as <-; lia|].
           apply (Hbefore j'); [lia|done].
    + apply IH in Hrun as [(-> & -> & Hall) | (j & -> & Hj & Hlt' & Hall & Hbefore)].
      * left. split; [done|]. split; [done|].
        intros [|j'] other H; simpl in H; [injection H as <-; lia | eauto].
      * right. exists (S j). split; [lia|]. split; [done|]. split; [lia|]. split.
        -- intros [|j'] other H; simpl in H; [injection H as <-; lia | eauto].
        -- intros [|j'] other Hj' H; simpl in H; [injection H as <-; lia|].
           apply (Hbefore j'); [lia|done].
Qed.

Lemma latest_spec l i s :
  StockSummaryModel.latest l = Some (i, s) -> firstGreatest l i s.
Proof.
  destruct l as [|s0 r]; [discriminate|]. simpl. intros [= Hrun].
  apply latestFrom_spec in Hrun as [(-> & -> & Hall) | (j & -> & Hj & Hlt & Hall & Hbefore)].
  - split; [done|]. split.
    + intros [|j] other H; simpl in H; [injection H as <-; lia | eauto].
    + intros j other Hj. lia.
  - split; [done|]. split.
    + intros [|j'] other H; simpl in H; [injection H as <-; lia | eauto].
    + intros [|j'] other Hj' H; simpl in H; [injection H as <-; lia|].
      apply (Hbefore j'); [lia|done].
Qed.

Lemma firstGreatest_unique l i s i' s' :
  firstGreatest l i s -> firstGreatest l i' s' -> i = i' /\ s = s'.
Proof.
  intros (Hi & Hmax & Hbefore) (Hi' & Hmax' & Hbefore').
  destruct (lt_eq_lt_dec i i') as [[Hlt | ->] | Hgt].
  - pose proof (Hbefore' i s Hlt Hi). pose proof (Hmax i' s' Hi'). lia.
  - split; [done|]. congruence.
  - pose proof (Hbefore i' s' Hgt Hi'). pose proof (Hmax' i s Hi). lia.
Qed.

Lemma latest_complete l i s :
  firstGreatest l i s -> StockSummaryModel.latest l = Some (i, s).
Proof.
  intros Hfg. destruct (StockSummaryModel.latest l) as [[i' s']|] eqn:E.
  - apply latest_spec in E. destruct (firstGreatest_unique _ _ _ _ _ E Hfg) as [-> ->]. done.
  - apply latest_none in E. subst l. destruct Hfg as (H & _). done.
Qed.

Lemma latest_lookup l i s :
  StockSummaryModel.latest l = Some (i, s) -> l !! i = Some s.
Proof. intros H. by apply latest_spec in H as (? & _). Qed.

Lemma latest_insert l i s s' :
  StockSummaryModel.latest l = Some (i, s) ->
  ss_lastUpdated s <= ss_lastUpdated s' ->
  StockSummaryModel.latest (<[i := s']> l) = Some (i, s').
Proof.
  intros Hl Hle. apply latest_spec in Hl as (Hi & Hmax & Hbefore).
  apply latest_complete. split; [|split].
  - apply list_lookup_insert_eq. by apply lookup_lt_Some in Hi.
  - intros j other Hj. destruct (decide (i = j)) as [<-|Hne].
    + rewrite list_lookup_insert_eq in Hj by (by apply lookup_lt_Some in Hi).
      injection Hj as <-. lia.
    + rewrite list_lookup_insert_ne in Hj by done. specialize (Hmax j other Hj). lia.
  - intros j other Hlt Hj. rewrite list_lookup_insert_ne in Hj by lia.
    specialize (Hbefore j other Hlt Hj). lia.
Qed.

(** ** Status update *)

Lemma hasId_spec id loan : hasId id loan = true <-> matchesId id loan.
Proof. unfold hasId, matchesId. by rewrite orb_true_iff, !str_eq_spec. Qed.

Lemma validStatus_spec s : validStatus s = true <-> acceptedStatus s.
Proof.
  unfold validStatus, acceptedStatus. rewrite !orb_true_iff, !str_eq_spec. tauto.
Qed.

(** C6: a status outside Active, Partial, Overdue, Closed is refused; a
    missing snapshot or loan is reported as not found; otherwise the loan
    takes the status, its classification follows the three-way mapping and
    closing settles it in full. *)
Theorem setStatus_contract (now : Z) (id : string) (newStatus : option string) (st : Store) :
  (~ acceptedStatus newStatus ->
   updateVoucherStatus now id newStatus st = (st, failure 400 "Invalid status provided"))
  /\ (acceptedStatus newStatus -> st_findOk st = true ->
      (st_summaries st = [] ->
       updateVoucherStatus now id newStatus st = (st, failure 404 "Stock summary not found"))
      /\ (forall position stockSummary,
            StockSummaryModel.latest (st_summaries st) = Some (position, stockSummary) ->
            ((forall loan, In loan (ss_loans stockSummary) -> ~ matchesId id loan) ->
             updateVoucherStatus now id newStatus st = (st, failure 404 "Loan not found"))
            /\ (forall index loan s,
                  newStatus = Some s ->
                  ss_loans stockSummary !! index = Some loan ->
                  matchesId id loan ->
                  (forall j other, (j < index)%nat ->
                     ss_loans stockSummary !! j = Some other -> ~ matchesId id other) ->
                  st_saveOk st = true ->
                  exists updated,
                    updateVoucherStatus now id newStatus st
                    = (with_summaries st
                         (<[position :=
                              touch now stockSummary
                                (<[index := updated]> (ss_loans stockSummary))]>
                            (st_summaries st)),
                       json (Updated updated))
                    /\ status updated = Some s
                    /\ (s = "Closed" -> loanStatus updated = Some "closed")
                    /\ (s = "Overdue" -> loanStatus updated = Some "overdue")
                    /\ (s <> "Closed" -> s <> "Overdue" -> loanStatus updated = Some "active")
                    /\ loanStatus updated <> Some "inactive"
                    /\ (s = "Closed" ->
                        closedDate updated = Some now
                        /\ repaidAmount updated = overallLoanAmount loan
                        /\ balanceAmount updated = Some 0
                        /\ paymentProgress updated = Some 100)))).
Proof.
  split.
  - intros Hbad. unfold updateVoucherStatus, handler.
    destruct (validStatus newStatus) eqn:E; [by apply validStatus_spec in E|done].
  - intros Hok Hf. apply validStatus_spec in Hok.
    unfold updateVoucherStatus, handler. rewrite Hok. simpl.
    unfold bind, StockSummaryModel.findOne. rewrite Hf. split.
    + intros ->. done.
    + intros position stockSummary ->. split.
      * intros Hnone. rewrite findIndex_none; [done|].
        intros loan Hin. specialize (Hnone loan Hin).
        destruct (hasId id loan) eqn:E; [by apply hasId_spec in E|done].
      * intros index loan s -> Hloan Hid Hbefore Hs.
        rewrite (findIndex_first (hasId id) _ index loan Hloan).
        2: { by apply hasId_spec. }
        2: { intros j other Hj Hother. specialize (Hbefore j other Hj Hother).
             destruct (hasId id other) eqn:E; [by apply hasId_spec in E|done]. }
        rewrite Hloan. unfold StockSummaryModel.save, ret. rewrite Hs. simpl.
        eexists. split; [reflexivity|]. unfold applyStatus.
        destruct (String.eqb_spec s "Closed") as [->|Hc]; simpl.
        { repeat split; try done. }
        destruct (String.eqb_spec s "Overdue") as [->|Ho]; simpl.
        { repeat split; try done. }
        repeat split; try done.
Qed.

Lemma setStatus_contract_witness :
  acceptedStatus (Some "Closed") /\ st_findOk Sample.synced = true
  /\ exists updated,
       snd (updateVoucherStatus Sample.clock "64f0c0ffee0000000000a002" (Some "Closed")
              Sample.synced)
       = json (Updated updated)
       /\ status updated = Some "Closed"
       /\ loanStatus updated = Some "closed"
       /\ closedDate updated = Some Sample.clock
       /\ repaidAmount updated = Some 2040
       /\ balanceAmount updated = Some 0
       /\ paymentProgress updated = Some 100.
Proof.
  assert (Haccepted : acceptedStatus (Some "Closed")) by (right; right; right; reflexivity).
  split; [exact Haccepted|]. split; [reflexivity|].
  destruct (setStatus_contract Sample.clock "64f0c0ffee0000000000a002" (Some "Closed")
              Sample.synced) as (_ & Hvalid).
  destruct (Hvalid Haccepted eq_refl) as (_ & Hfound).
  destruct (StockSummaryModel.latest (st_summaries Sample.synced))
    as [[position stockSummary]|] eqn:Hlatest; [|discriminate].
  injection Hlatest as <- <-.
  destruct (Hfound _ _ eq_refl) as (_ & Hupdate).
  destruct (Hupdate 1%nat _ "Closed" eq_refl eq_refl (or_intror eq_refl))
    as (updated & Hrun & Hstatus & Hclosed & _ & _ & _ & Hsettled).
  - intros [|j] other Hj Hother; [|lia]. injection Hother as <-.
    intros [Hid | Hid]; discriminate.
  - reflexivity.
  - destruct (Hsettled eq_refl) as (Hdate & Hrepaid & Hbalance & Hprogress).
    exists updated. rewrite Hrun. split; [reflexivity|]. split; [exact Hstatus|].
    split; [exact (Hclosed eq_refl)|]. split; [exact Hdate|].
    split; [exact Hrepaid|]. split; [exact Hbalance | exact Hprogress].
Defined.

(** ** Overdue sweep *)

Lemma isDue_spec now loan : isDue now loan = true <-> activeAndDue now loan.
Proof. unfold isDue, activeAndDue. by rewrite andb_true_iff, str_eq_spec, date_lt_spec. Qed.

Lemma sweepLoans_spec now loans : forall n,
  sweepLoans now loans n
  = (map (sweptLoan now) loans, (n + length (List.filter (isDue now) loans))%nat).
Proof.
  induction loans as [|loan rest IH]; intros n; simpl.
  - f_equal. lia.
  - unfold sweptLoan at 1. destruct (isDue now loan); rewrite IH; simpl; f_equal; lia.
Qed.

Lemma isDue_markOverdue later now loan : isDue later (markOverdue now loan) = false.
Proof. reflexivity. Qed.

Lemma swept_none_due now later loans :
  (forall loan, In loan loans -> isDue later loan = true -> isDue now loan = true) ->
  List.filter (isDue later) (map (sweptLoan now) loans) = [].
Proof.
  induction loans as [|loan rest IH]; intros H; simpl; [done|].
  rewrite IH by (intros l Hl; apply H; by right).
  unfold sweptLoan. destruct (isDue now loan) eqn:E.
  - by rewrite isDue_markOverdue.
  - destruct (isDue later loan) eqn:E'; [|done].
    rewrite (H loan) in E by (done || by left). discriminate.
Qed.

Lemma updateOverdueStatus_run now st position stockSummary :
  st_findOk st = true -> st_saveOk st = true ->
  StockSummaryModel.latest (st_summaries st) = Some (position, stockSummary) ->
  updateOverdueStatus now st
  = (if (0 <? length (List.filter (isDue now) (ss_loans stockSummary)))%nat
     then with_summaries st
            (<[position := touch now stockSummary (map (sweptLoan now) (ss_loans stockSummary))]>
               (st_summaries st))
     else st,
     json (Swept (length (List.filter (isDue now) (ss_loans stockSummary))))).
Proof.
  intros Hf Hs Hl. unfold updateOverdueStatus, handler, bind, StockSummaryModel.findOne.
  rewrite Hf, Hl, sweepLoans_spec. simpl.
  destruct (0 <? length (List.filter (isDue now) (ss_loans stockSummary)))%nat.
  - unfold StockSummaryModel.save. by rewrite Hs.
  - done.
Qed.

Lemma latest_single s : StockSummaryModel.latest [s] = Some (0%nat, s).
Proof. reflexivity. Qed.

(** The snapshot the sweep saved is the one the next request finds. *)
Lemma swept_is_current l position stockSummary now loans :
  StockSummaryModel.latest l = Some (position, stockSummary) ->
  ss_lastUpdated stockSummary <= now \/ length l = 1%nat ->
  StockSummaryModel.latest (<[position := touch now stockSummary loans]> l)
  = Some (position, touch now stockSummary loans).
Proof.
  intros Hl [Hclock | Hone].
  - by apply (latest_insert _ _ stockSummary).
  - destruct l as [|s [|s' r]]; try discriminate.
    rewrite latest_single in Hl. injection Hl as <- <-. reflexivity.
Qed.

(** ** Invariants of the stored snapshots *)

Lemma syncLoans_weights mk now st :
  (forall voucher, sourceType (mk voucher) = Some "voucher") ->
  dayBookWeights (syncLoans mk now st).
Proof.
  intros Hmk loan Hin Hsrc. unfold syncLoans in Hin.
  destruct (voucherLoansOf mk st) as [|l ls] eqn:E;
    [by apply (ledgerLoans_weights now st)|].
  unfold voucherLoansOf in E.
  destruct (st_countOk st && st_vouchersOk st); [|discriminate].
  rewrite <- E in Hin. apply in_map_iff in Hin as (x & <- & _).
  rewrite Hmk in Hsrc. discriminate.
Qed.

Lemma in_insert {A} (l : list A) i x y :
  In y (<[i := x]> l) -> y = x \/ In y l.
Proof.
  revert i. induction l as [|a l IH]; intros i Hin; [done|].
  destruct i as [|i]; simpl in Hin.
  - destruct Hin as [<- | Hin]; [by left | right; by right].
  - destruct Hin as [<- | Hin]; [right; by left|].
    destruct (IH i Hin) as [-> | ?]; [by left | right; by right].
Qed.

Lemma invariant_empty st : st_summaries st = [] -> snapshotInvariant st.
Proof.
  intros He. split; [rewrite He; simpl; lia|].
  intros snapshot loan Hin. rewrite He in Hin. done.
Qed.

Lemma invariant_single st snapshot :
  dayBookWeights (ss_loans snapshot) -> snapshotInvariant (with_summaries st [snapshot]).
Proof.
  intros Hw. split; [simpl; lia|].
  intros s loan [<- | []]. apply Hw.
Qed.

Lemma invariant_insert st position stockSummary now loans :
  snapshotInvariant st ->
  dayBookWeights loans ->
  snapshotInvariant
    (with_summaries st (<[position := touch now stockSummary loans]> (st_summaries st))).
Proof.
  intros [Hlen Hw] Hloans. split; [simpl; by rewrite length_insert|].
  intros s loan Hin. simpl in Hin. apply in_insert in Hin as [-> | Hin].
  - apply Hloans.
  - by apply Hw.
Qed.

Lemma invariant_current st position stockSummary :
  snapshotInvariant st ->
  StockSummaryModel.latest (st_summaries st) = Some (position, stockSummary) ->
  dayBookWeights (ss_loans stockSummary).
Proof.
  intros [_ Hw] Hl loan. apply Hw.
  apply latest_lookup in Hl. apply list_elem_of_In. by apply list_elem_of_lookup_2 in Hl.
Qed.

Lemma applyStatus_weights now s loan :
  sourceType (applyStatus now s loan) = sourceType loan
  /\ grossWeight (applyStatus now s loan) = grossWeight loan
  /\ netWeight (applyStatus now s loan) = netWeight loan.
Proof. unfold applyStatus. destruct (String.eqb s "Closed"); done. Qed.

Lemma sweep_weights now loans :
  dayBookWeights loans -> dayBookWeights (map (sweptLoan now) loans).
Proof.
  intros Hw loan Hin. apply in_map_iff in Hin as (old & <- & Hin).
  unfold sweptLoan. destruct (isDue now old); [|by apply Hw].
  simpl. by apply Hw.
Qed.

Section Invariant.

Variable now : Z.
Variable st : Store.
Hypothesis Hinv : snapshotInvariant st.

Lemma sync_invariant : snapshotInvariant (fst (createOrUpdateStockSummary now st)).
Proof.
unfold createOrUpdateStockSummary, handler, bind at 1.
rewrite readVouchers_run. unfold bind at 1.
assert (Hrun : forall loans, dayBookWeights loans ->
          snapshotInvariant
            (fst (let (st', o) :=
                    (await_ StockSummaryModel.deleteMany in
                     let stockSummary := newStockSummary now loans in
                     await_ StockSummaryModel.create stockSummary in
                     ret (json (Synced (length loans) (snapshotAggregates stockSummary)
                                  (match loans with
                                   | loan :: _ => sourceType loan
                                   | [] => Some "unknown"
                                   end)))) st in
                  match o with
                  | Return r => (st', r)
                  | Throw _ => (st', failure 500 "Error creating/updating stock summary")
                  end))).
{ intros loans Hw. run. destruct (st_deleteOk st); simpl; [|done].
  destruct (st_saveOk st); simpl.
  - by apply invariant_single.
  - by apply invariant_empty. }
pose proof (syncLoans_weights (voucherLoan now) now st (fun _ => eq_refl)) as Hw.
rewrite <- loans_after_readers in Hw.
destruct (length (voucherLoansOf (voucherLoan now) st) =? 0)%nat.
- rewrite extractLoanData_run. by apply Hrun.
- unfold ret at 1. by apply Hrun.
Qed.

Lemma query_invariant q : snapshotInvariant (fst (getStockSummary now q st)).
Proof.
destruct (st_findOk st) eqn:Hf.
- rewrite (getStockSummary_run now q st Hf).
  destruct (StockSummaryModel.latest (st_summaries st)) as [[pos s]|] eqn:E; [done|].
  apply latest_none in E. rewrite E. destruct (st_saveOk st); [|done].
  apply invariant_single. simpl. by apply syncLoans_weights.
- unfold getStockSummary, handler, bind, StockSummaryModel.findOne. by rewrite Hf.
Qed.

Lemma sweep_invariant : snapshotInvariant (fst (updateOverdueStatus now st)).
Proof.
unfold updateOverdueStatus, handler, bind, StockSummaryModel.findOne.
destruct (st_findOk st); [|done].
destruct (StockSummaryModel.latest (st_summaries st)) as [[pos s]|] eqn:E; [|done].
rewrite sweepLoans_spec. simpl.
destruct (0 <? length (List.filter (isDue now) (ss_loans s)))%nat; [|done].
unfold StockSummaryModel.save. destruct (st_saveOk st); [|done]. simpl.
apply invariant_insert; [done|]. apply sweep_weights. by apply (invariant_current st pos).
Qed.

Lemma status_invariant id newStatus :
snapshotInvariant (fst (updateVoucherStatus now id newStatus st)).
Proof.
unfold updateVoucherStatus, handler.
destruct (validStatus newStatus); [|done]. simpl.
unfold bind, StockSummaryModel.findOne.
destruct (st_findOk st); [|done].
destruct (StockSummaryModel.latest (st_summaries st)) as [[pos s]|] eqn:E; [|done].
destruct (JS.findIndex (hasId id) (ss_loans s)) as [index|]; [|done].
destruct (ss_loans s !! index) as [loan|] eqn:Hloan; [|done].
unfold StockSummaryModel.save. destruct (st_saveOk st); [|done]. simpl.
apply invariant_insert; [done|].
pose proof (invariant_current st pos s Hinv E) as Hw.
intros l Hin Hsrc. apply in_insert in Hin as [-> | Hin]; [|by apply Hw].
destruct (applyStatus_weights now (default "" newStatus) loan) as (Hs & -> & ->).
apply Hw; [|congruence].
apply list_elem_of_In. by apply list_elem_of_lookup_2 in Hloan.
Qed.

Lemma reset_invariant : snapshotInvariant (fst (deleteStockSummary st)).
Proof.
unfold deleteStockSummary. run. destruct (st_deleteOk st); [|done].
by apply invariant_empty.
Qed.

Lemma dashboard_reads : fst (getDashboardStats now st) = st.
Proof.
unfold getDashboardStats. run. destruct (st_findOk st); [|done].
by destruct (StockSummaryModel.latest (st_summaries st)) as [[pos s]|].
Qed.

Lemma getVoucherById_reads id : fst (getVoucherById id st) = st.
Proof.
unfold getVoucherById. run. destruct (st_findOk st); [|done].
destruct (StockSummaryModel.latest (st_summaries st)) as [[pos s]|]; [|done].
by destruct (List.find (hasId id) (ss_loans s)).
Qed.

(** Every request keeps the invariant. *)
Lemma route_invariant request : snapshotInvariant (fst (route now request st)).
Proof.
destruct request; simpl.
- apply query_invariant.
- apply sync_invariant.
- by rewrite dashboard_reads.
- apply sweep_invariant.
- apply reset_invariant.
- by rewrite getVoucherById_reads.
- apply status_invariant.
Qed.

End Invariant.

Lemma reachable_invariant st : reachable st -> snapshotInvariant st.
Proof.
  induction 1 as [st He | now request st _ IH | st st' _ IH Hsame].
  - by apply invariant_empty.
  - by apply route_invariant.
  - destruct IH as [Hlen Hw]. split; [by rewrite Hsame|].
    intros snapshot loan Hin. rewrite Hsame in Hin. by apply Hw.
Qed.

(** The sample store, once synced, is a store the service can be in. *)
Example sample_synced_reachable : reachable Sample.synced.
Proof.
  apply (reachable_request (Sample.clock - 10 * JSDate.msPerDay) PostSync Sample.store).
  by apply reachable_empty.
Qed.

(** C7: the sweep turns exactly the active loans whose due date has passed
    into overdue ones, saves the snapshot only when there is one, returns
    their number, and finds nothing to do when run again with no loan newly
    due.  For the second run to find the snapshot the first one saved, the
    clock is not behind the [lastUpdated] of that snapshot, or the store is
    one the service can be in (it then holds no other snapshot). *)
Theorem sweep_marks_due_loans (now : Z) (st : Store)
    (position : nat) (stockSummary : StockSummary) :
  st_findOk st = true -> st_saveOk st = true ->
  StockSummaryModel.latest (st_summaries st) = Some (position, stockSummary) ->
  let due := List.filter (isDue now) (ss_loans stockSummary) in
  let swept := map (sweptLoan now) (ss_loans stockSummary) in
  updateOverdueStatus now st
  = (if (0 <? length due)%nat
     then with_summaries st
            (<[position := touch now stockSummary swept]> (st_summaries st))
     else st,
     json (Swept (length due)))
  /\ (forall loan, In loan due <-> In loan (ss_loans stockSummary) /\ activeAndDue now loan)
  /\ length swept = length (ss_loans stockSummary)
  /\ (forall i loan, ss_loans stockSummary !! i = Some loan ->
        (~ activeAndDue now loan -> swept !! i = Some loan)
        /\ (activeAndDue now loan ->
            exists marked, swept !! i = Some marked
              /\ status marked = Some "Overdue"
              /\ loanStatus marked = Some "overdue"
              /\ (forall due, dueDate loan = Some due ->
                    daysOverdue marked = Some (JS.ceil_div (now - due) JSDate.msPerDay))
              /\ billNo marked = billNo loan
              /\ voucherId marked = voucherId loan
              /\ dueDate marked = dueDate loan))
  /\ (ss_lastUpdated stockSummary <= now \/ reachable st ->
      forall later,
        (forall loan, In loan (ss_loans stockSummary) ->
           activeAndDue later loan -> activeAndDue now loan) ->
        updateOverdueStatus later (fst (updateOverdueStatus now st))
        = (fst (updateOverdueStatus now st), json (Swept 0))).
Proof.
  intros Hf Hs Hl due swept.
  split; [by apply updateOverdueStatus_run|]. split; [|split; [|split]].
  - intros loan. subst due. rewrite filter_In, isDue_spec. done.
  - subst swept. apply length_map.
  - intros i loan Hi. subst swept. rewrite list_lookup_fmap, Hi. simpl. split.
    + intros Hno. unfold sweptLoan.
      destruct (isDue now loan) eqn:E; [by apply isDue_spec in E|done].
    + intros Hdue. apply isDue_spec in Hdue. unfold sweptLoan. rewrite Hdue.
      eexists. split; [reflexivity|]. repeat split.
      intros d Hd. simpl. by rewrite Hd.
  - intros Hclock later Hnew.
    assert (Hnew' : forall loan, In loan (ss_loans stockSummary) ->
              isDue later loan = true -> isDue now loan = true).
    { intros loan Hin H. apply isDue_spec. apply Hnew; [done|]. by apply isDue_spec. }
    rewrite (updateOverdueStatus_run now st position stockSummary Hf Hs Hl). simpl.
    destruct (0 <? length (List.filter (isDue now) (ss_loans stockSummary)))%nat eqn:E.
    + erewrite updateOverdueStatus_run; [|done|done|].
      2: { simpl. apply swept_is_current; [done|].
           destruct Hclock as [Hclock | Hreach]; [by left | right].
           apply reachable_invariant in Hreach as [Hlen _].
           destruct (st_summaries st) as [|s [|s' r]]; [done|done|simpl in Hlen; lia]. }
      simpl. by rewrite swept_none_due.
    + rewrite (updateOverdueStatus_run later st position stockSummary Hf Hs Hl). simpl.
      apply Nat.ltb_ge in E.
      assert (Hnone : List.filter (isDue now) (ss_loans stockSummary) = [])
        by (destruct (List.filter (isDue now) (ss_loans stockSummary)); [done|simpl in E; lia]).
      assert (Hlater : List.filter (isDue later) (ss_loans stockSummary) = []).
      { destruct (List.filter (isDue later) (ss_loans stockSummary)) as [|loan rest] eqn:E';
          [done|].
        assert (Hin : In loan (List.filter (isDue later) (ss_loans stockSummary)))
          by (rewrite E'; by left).
        apply filter_In in Hin as [Hin Hd].
        assert (Hin' : In loan (List.filter (isDue now) (ss_loans stockSummary)))
          by (apply filter_In; eauto).
        rewrite Hnone in Hin'. done. }
      by rewrite Hlater.
Qed.

Lemma sweep_marks_due_loans_witness :
  st_findOk Sample.synced = true /\ st_saveOk Sample.synced = true
  /\ exists stockSummary,
       StockSummaryModel.latest (st_summaries Sample.synced) = Some (0%nat, stockSummary)
       /\ snd (updateOverdueStatus Sample.clock Sample.synced) = json (Swept 1)
       /\ snd (updateOverdueStatus Sample.clock
                 (fst (updateOverdueStatus Sample.clock Sample.synced)))
          = json (Swept 0).
Proof.
  split; [reflexivity|]. split; [reflexivity|].
  destruct (StockSummaryModel.latest (st_summaries Sample.synced))
    as [[position stockSummary]|] eqn:Hlatest; [|discriminate].
  injection Hlatest as <- <-.
  destruct (sweep_marks_due_loans Sample.clock Sample.synced 0%nat _ eq_refl eq_refl eq_refl)
    as (Hrun & _ & _ & _ & Hagain).
  eexists. split; [reflexivity|]. split.
  - rewrite Hrun. reflexivity.
  - rewrite Hagain; [reflexivity | left; discriminate |].
    intros loan _ Hdue. exact Hdue.
Defined.

(** C10: the loans emitted by the day-book reader have their gross weight
    equal to their net weight, both being the net weight of the transaction
    and none the gross weight of the source; so have the day-book loans of
    every snapshot the service ever stores. *)
Theorem ledger_loans_gross_equals_net :
  (forall now st loans loan,
     extractLoanDataFromDayBooks now st = (st, Return loans) ->
     In loan loans -> grossWeight loan = netWeight loan)
  /\ (forall now dayBook transaction,
        grossWeight (disbursedLoan now dayBook transaction)
        = Some (JS.or_num (t_netWeight transaction) 0)
        /\ netWeight (disbursedLoan now dayBook transaction)
           = Some (JS.or_num (t_netWeight transaction) 0)
        /\ grossWeight (closedLoan dayBook transaction)
           = Some (JS.or_num (t_netWeight transaction) 0)
        /\ netWeight (closedLoan dayBook transaction)
           = Some (JS.or_num (t_netWeight transaction) 0))
  /\ (forall st snapshot loan,
        reachable st ->
        In snapshot (st_summaries st) ->
        In loan (ss_loans snapshot) ->
        sourceType loan = Some "daybook" ->
        grossWeight loan = netWeight loan).
Proof.
  split; [|split].
  - intros now st loans loan Hrun. rewrite extractLoanData_run in Hrun.
    injection Hrun as <-. apply ledgerLoans_weights.
  - done.
  - intros st snapshot loan Hreach. by apply reachable_invariant.
Qed.

(** The day-book loans of a store synced from the day-books alone. *)
Example ledger_sync_weights :
  map (fun loan => (billNo loan, grossWeight loan, netWeight loan))
    (currentLoans (fst (createOrUpdateStockSummary Sample.clock Sample.ledgerStore)))
  = [(Some "D-101", Some 10, Some 10); (Some "D-103", Some 25, Some 25)].
Proof. reflexivity. Qed.

Lemma ledger_loans_gross_equals_net_witness :
  reachable (fst (createOrUpdateStockSummary Sample.clock Sample.ledgerStore))
  /\ exists snapshot loan,
       In snapshot
         (st_summaries (fst (createOrUpdateStockSummary Sample.clock Sample.ledgerStore)))
       /\ In loan (ss_loans snapshot)
       /\ sourceType loan = Some "daybook"
       /\ billNo loan = Some "D-101"
       /\ grossWeight loan = netWeight loan.
Proof.
  assert (Hreach : reachable (fst (createOrUpdateStockSummary Sample.clock Sample.ledgerStore))).
  { apply (reachable_request Sample.clock PostSync Sample.ledgerStore).
    apply reachable_empty. reflexivity. }
  split; [exact Hreach|].
  destruct ledger_loans_gross_equals_net as (_ & _ & Hstored).
  eexists _, _. split; [left; reflexivity|]. split; [left; reflexivity|].
  split; [reflexivity|]. split; [reflexivity|].
  eapply (Hstored _ _ _ Hreach); [left; reflexivity | left; reflexivity | reflexivity].
Defined.

(** * Further properties of the controller *)

(** ** Lookup of one loan *)

Lemma find_none {A} (p : A -> bool) l :
  (forall x, In x l -> p x = false) -> List.find p l = None.
Proof.
  induction l as [|x l IH]; intros H; simpl; [done|].
  rewrite (H x) by (by left). apply IH. intros y Hy. apply H. by right.
Qed.

Lemma find_first {A} (p : A -> bool) l : forall i x,
  l !! i = Some x -> p x = true ->
  (forall j y, (j < i)%nat -> l !! j = Some y -> p y = false) ->
  List.find p l = Some x.
Proof.
  induction l as [|a l IH]; intros i x Hi Hp Hbefore; [done|].
  destruct i as [|i]; simpl in *.
  - injection Hi as ->. by rewrite Hp.
  - rewrite (Hbefore 0%nat a) by (done || lia).
    apply (IH i x Hi Hp). intros j y Hj Hy. apply (Hbefore (S j) y); [lia|done].
Qed.

Lemma find_in {A} (p : A -> bool) l x :
  In x l -> p x = true -> exists y, List.find p l = Some y /\ p y = true /\ In y l.
Proof.
  induction l as [|a l IH]; intros Hin Hp; [done|]. simpl.
  destruct (p a) eqn:E; [exists a; split; [done|]; split; [done|by left]|].
  destruct Hin as [-> | Hin]; [congruence|].
  destruct (IH Hin Hp) as (y & Hy & Hpy & Hiny). exists y. split; [done|].
  split; [done|by right].
Qed.

Lemma findIndex_some {A} (p : A -> bool) l : forall i,
  JS.findIndex p l = Some i ->
  exists x, l !! i = Some x /\ p x = true
    /\ forall j y, (j < i)%nat -> l !! j = Some y -> p y = false.
Proof.
  induction l as [|a l IH]; intros i Hi; [done|]. simpl in Hi.
  destruct (p a) eqn:E.
  - injection Hi as <-. exists a. split; [done|]. split; [done|]. intros j y Hj. lia.
  - destruct (JS.findIndex p l) as [k|] eqn:Ek; [|done]. injection Hi as <-.
    destruct (IH k eq_refl) as (x & Hx & Hp & Hbefore). exists x.
    split; [done|]. split; [done|].
    intros [|j] y Hj Hy; simpl in Hy; [congruence|].
    apply (Hbefore j y); [lia|done].
Qed.

(** X1: a lookup by id never changes the store; it reports a missing snapshot
    or a missing loan as not found and otherwise answers with the first loan,
    in the order of the snapshot, whose own id or voucher reference is the
    id. *)
Theorem getVoucherById_contract (id : string) (st : Store) :
  st_findOk st = true ->
  fst (getVoucherById id st) = st
  /\ (st_summaries st = [] ->
      snd (getVoucherById id st) = failure 404 "Stock summary not found")
  /\ (forall position stockSummary,
        StockSummaryModel.latest (st_summaries st) = Some (position, stockSummary) ->
        ((forall loan, In loan (ss_loans stockSummary) -> ~ matchesId id loan) ->
         snd (getVoucherById id st) = failure 404 "Loan not found")
        /\ (forall index loan,
              ss_loans stockSummary !! index = Some loan ->
              matchesId id loan ->
              (forall j other, (j < index)%nat ->
                 ss_loans stockSummary !! j = Some other -> ~ matchesId id other) ->
              snd (getVoucherById id st) = json (Found loan))).
Proof.
  intros Hf. split; [apply getVoucherById_reads|].
  unfold getVoucherById, handler, bind, StockSummaryModel.findOne. rewrite Hf. split.
  - intros ->. done.
  - intros position stockSummary ->. split.
    + intros Hnone. rewrite find_none; [done|].
      intros loan Hin. specialize (Hnone loan Hin).
      destruct (hasId id loan) eqn:E; [by apply hasId_spec in E|done].
    + intros index loan Hloan Hid Hbefore.
      rewrite (find_first (hasId id) _ index loan Hloan); [done| |].
      * by apply hasId_spec.
      * intros j other Hj Hother. specialize (Hbefore j other Hj Hother).
        destruct (hasId id other) eqn:E; [by apply hasId_spec in E|done].
Qed.

Lemma getVoucherById_contract_witness :
  st_findOk Sample.synced = true
  /\ exists loan,
       snd (getVoucherById "64f0c0ffee0000000000a002" Sample.synced) = json (Found loan)
       /\ billNo loan = Some "B-002".
Proof.
  split; [reflexivity|].
  destruct (getVoucherById_contract "64f0c0ffee0000000000a002" Sample.synced eq_refl)
    as (_ & _ & Hfound).
  destruct (StockSummaryModel.latest (st_summaries Sample.synced))
    as [[position stockSummary]|] eqn:Hlatest; [|discriminate].
  injection Hlatest as <- <-.
  destruct (Hfound _ _ eq_refl) as (_ & Hfirst).
  eexists. split.
  - apply (Hfirst 1%nat); [reflexivity | right; reflexivity |].
    intros [|j] other Hj Hother; [|lia]. injection Hother as <-.
    intros [Hid | Hid]; discriminate.
  - reflexivity.
Defined.

(** ** A stored snapshot stays the current one *)

Lemma reachable_single st position stockSummary :
  reachable st ->
  StockSummaryModel.latest (st_summaries st) = Some (position, stockSummary) ->
  st_summaries st = [stockSummary] /\ position = 0%nat.
Proof.
  intros Hreach Hl. apply reachable_invariant in Hreach as [Hlen _].
  destruct (st_summaries st) as [|s [|s' r]]; [done| |simpl in Hlen; lia].
  rewrite latest_single in Hl. by injection Hl as <- <-.
Qed.

Lemma current_after_save st position stockSummary now loans :
  StockSummaryModel.latest (st_summaries st) = Some (position, stockSummary) ->
  ss_lastUpdated stockSummary <= now \/ reachable st ->
  StockSummaryModel.latest
    (<[position := touch now stockSummary loans]> (st_summaries st))
  = Some (position, touch now stockSummary loans).
Proof.
  intros Hl [Hclock | Hreach].
  - apply swept_is_current; [done|by left].
  - apply swept_is_current; [done|right].
    destruct (reachable_single st _ _ Hreach Hl) as [-> _]. done.
Qed.

Lemma applyStatus_ids now s loan :
  dl_id (applyStatus now s loan) = dl_id loan
  /\ voucherId (applyStatus now s loan) = voucherId loan.
Proof. unfold applyStatus. destruct (String.eqb s "Closed"); done. Qed.

Lemma hasId_applyStatus id now s loan :
  hasId id (applyStatus now s loan) = hasId id loan.
Proof. unfold hasId. by destruct (applyStatus_ids now s loan) as [-> ->]. Qed.

(** What a successful status update has done. *)
Lemma updateVoucherStatus_success now id newStatus st updated :
  snd (updateVoucherStatus now id newStatus st) = json (Updated updated) ->
  exists s position stockSummary index loan,
    newStatus = Some s /\ acceptedStatus (Some s)
    /\ st_findOk st = true /\ st_saveOk st = true
    /\ StockSummaryModel.latest (st_summaries st) = Some (position, stockSummary)
    /\ ss_loans stockSummary !! index = Some loan
    /\ hasId id loan = true
    /\ (forall j other, (j < index)%nat ->
          ss_loans stockSummary !! j = Some other -> hasId id other = false)
    /\ updated = applyStatus now s loan
    /\ fst (updateVoucherStatus now id newStatus st)
       = with_summaries st
           (<[position := touch now stockSummary
                            (<[index := updated]> (ss_loans stockSummary))]>
              (st_summaries st)).
Proof.
  unfold updateVoucherStatus, handler.
  destruct (validStatus newStatus) eqn:Hvalid; simpl; [|discriminate].
  unfold bind, StockSummaryModel.findOne.
  destruct (st_findOk st) eqn:Hf; [|discriminate].
  destruct (StockSummaryModel.latest (st_summaries st)) as [[position stockSummary]|] eqn:Hl;
    [|discriminate].
  destruct (JS.findIndex (hasId id) (ss_loans stockSummary)) as [index|] eqn:Hi;
    [|discriminate].
  destruct (findIndex_some _ _ _ Hi) as (loan & Hloan & Hid & Hbefore).
  rewrite Hloan. unfold StockSummaryModel.save.
  destruct (st_saveOk st) eqn:Hs; [|discriminate].
  simpl. intros [= <-].
  apply validStatus_spec in Hvalid.
  destruct newStatus as [s|]; [|by destruct Hvalid as [?|[?|[?|?]]]].
  exists s, position, stockSummary, index, loan. simpl. repeat split; done.
Qed.

(** X2: the loan a successful status update answers with is the loan a
    lookup by the same id finds afterwards. *)
Theorem status_update_then_lookup (now : Z) (id : string) (newStatus : option string)
    (st : Store) (updated : DerivedLoan) :
  reachable st ->
  snd (updateVoucherStatus now id newStatus st) = json (Updated updated) ->
  snd (getVoucherById id (fst (updateVoucherStatus now id newStatus st)))
  = json (Found updated)
  /\ status updated = newStatus.
Proof.
  intros Hreach Hrun.
  destruct (updateVoucherStatus_success _ _ _ _ _ Hrun)
    as (s & position & stockSummary & index & loan & -> & _ & Hf & Hs & Hl & Hloan
        & Hid & Hbefore & -> & ->).
  split.
  - unfold getVoucherById, handler, bind, StockSummaryModel.findOne. simpl.
    rewrite Hf, (current_after_save st position stockSummary) by (done || by right).
    simpl.
    rewrite (find_first (hasId id) _ index (applyStatus now s loan)); [done| | |].
    + apply list_lookup_insert_eq. by apply lookup_lt_Some in Hloan.
    + by rewrite hasId_applyStatus.
    + intros j other Hj Hother. rewrite list_lookup_insert_ne in Hother by lia.
      by apply (Hbefore j).
  - unfold applyStatus. by destruct (String.eqb s "Closed").
Qed.

Lemma status_update_then_lookup_witness :
  reachable Sample.synced
  /\ exists updated,
       snd (updateVoucherStatus Sample.clock "64f0c0ffee0000000000a002" (Some "Closed")
              Sample.synced)
       = json (Updated updated)
       /\ snd (getVoucherById "64f0c0ffee0000000000a002"
                 (fst (updateVoucherStatus Sample.clock "64f0c0ffee0000000000a002"
                         (Some "Closed") Sample.synced)))
          = json (Found updated).
Proof.
  split; [exact sample_synced_reachable|].
  eexists. split; [reflexivity|].
  apply (status_update_then_lookup Sample.clock "64f0c0ffee0000000000a002" (Some "Closed")
           Sample.synced _ sample_synced_reachable eq_refl).
Defined.

(** ** Reset *)

(** X3: a reset empties the snapshot collection and reports how many
    snapshots it held; until the next sync or query, lookups, the dashboard,
    the sweep and status updates answer 404 and store nothing, whereas a
    query stores a fresh snapshot. *)
Theorem reset_then_not_found (st : Store) :
  st_deleteOk st = true -> st_findOk st = true ->
  deleteStockSummary st
  = (with_summaries st [], json (Deleted (length (st_summaries st))))
  /\ (forall now id newStatus,
        acceptedStatus newStatus ->
        getVoucherById id (with_summaries st [])
        = (with_summaries st [], failure 404 "Stock summary not found")
        /\ getDashboardStats now (with_summaries st [])
           = (with_summaries st [],
              failure 404 "Stock summary not found. Please sync data first.")
        /\ updateOverdueStatus now (with_summaries st [])
           = (with_summaries st [], failure 404 "Stock summary not found")
        /\ updateVoucherStatus now id newStatus (with_summaries st [])
           = (with_summaries st [], failure 404 "Stock summary not found"))
  /\ (forall now q,
        st_saveOk st = true ->
        st_summaries (fst (getStockSummary now q (with_summaries st [])))
        = [newStockSummary now (syncLoans (voucherLoanOnRead now) now st)]).
Proof.
  intros Hd Hf. split; [|split].
  - unfold deleteStockSummary. run. by rewrite Hd.
  - intros now id newStatus Hok. apply validStatus_spec in Hok.
    unfold getVoucherById, getDashboardStats, updateOverdueStatus, updateVoucherStatus.
    run. simpl. rewrite Hf, Hok. simpl. rewrite Hf. done.
  - intros now q Hs. rewrite getStockSummary_run by done. simpl. rewrite Hs. done.
Qed.

Lemma reset_then_not_found_witness :
  st_deleteOk Sample.synced = true /\ st_findOk Sample.synced = true
  /\ snd (deleteStockSummary Sample.synced) = json (Deleted 1)
  /\ code (snd (getVoucherById "64f0c0ffee0000000000a002"
                  (fst (deleteStockSummary Sample.synced)))) = 404%nat.
Proof.
  split; [reflexivity|]. split; [reflexivity|].
  destruct (reset_then_not_found Sample.synced eq_refl eq_refl) as (Hrun & Hafter & _).
  rewrite Hrun. split; [reflexivity|].
  destruct (Hafter Sample.clock "64f0c0ffee0000000000a002" (Some "Closed")) as (Hget & _).
  - right; right; right; reflexivity.
  - cbn [fst]. rewrite Hget. reflexivity.
Defined.

(** ** The routes and the source collections *)

Lemma sameSources_refl st : sameSources st st.
Proof. by repeat split. Qed.

Lemma sameSources_with_summaries st l : sameSources st (with_summaries st l).
Proof. by repeat split. Qed.

Lemma sameSources_trans st1 st2 st3 :
  sameSources st1 st2 -> sameSources st2 st3 -> sameSources st1 st3.
Proof.
  unfold sameSources. intros (?&?&?&?&?&?&?) (?&?&?&?&?&?&?).
  repeat split; congruence.
Qed.

Lemma framed_ret {A} (a : A) : framed (ret a).
Proof. intros st. apply sameSources_refl. Qed.

Lemma framed_throw {A} e : framed (@throw A e).
Proof. intros st. apply sameSources_refl. Qed.

Lemma framed_bind {A B} (m : M A) (k : A -> M B) :
  framed m -> (forall a, framed (k a)) -> framed (bind m k).
Proof.
  intros Hm Hk st. unfold bind. specialize (Hm st).
  destruct (m st) as [st' [a|e]]; simpl in *; [|done].
  eapply sameSources_trans; [exact Hm|]. apply Hk.
Qed.

Lemma framed_try_catch {A} (m : M A) h :
  framed m -> (forall e, framed (h e)) -> framed (try_catch m h).
Proof.
  intros Hm Hh st. unfold try_catch. specialize (Hm st).
  destruct (m st) as [st' [a|e]]; simpl in *; [done|].
  eapply sameSources_trans; [exact Hm|]. apply Hh.
Qed.

Lemma framed_handler message m st :
  framed m -> sameSources st (fst (handler message m st)).
Proof.
  intros Hm. unfold handler. specialize (Hm st). by destruct (m st) as [st' [r|e]].
Qed.

Lemma framed_primitives :
  framed Voucher.countDocuments /\ framed Voucher.find /\ framed DayBookModel.find
  /\ framed StockSummaryModel.findOne /\ framed StockSummaryModel.deleteMany
  /\ (forall s, framed (StockSummaryModel.create s))
  /\ (forall i s, framed (StockSummaryModel.save i s)).
Proof.
  unfold framed, Voucher.countDocuments, Voucher.find, DayBookModel.find,
    StockSummaryModel.findOne, StockSummaryModel.deleteMany, StockSummaryModel.create,
    StockSummaryModel.save.
  repeat match goal with |- _ /\ _ => split end; intros;
    repeat match goal with
           | |- context [if ?b then _ else _] => destruct b
           | |- context [match ?x with Some _ => _ | None => _ end] => destruct x
           end;
    (apply sameSources_refl || apply sameSources_with_summaries).
Qed.

Create HintDb frame.

#[local] Hint Resolve framed_ret framed_throw : frame.
#[local] Hint Extern 1 (framed Voucher.countDocuments) =>
  exact (proj1 framed_primitives) : frame.
#[local] Hint Extern 1 (framed Voucher.find) =>
  exact (proj1 (proj2 framed_primitives)) : frame.
#[local] Hint Extern 1 (framed DayBookModel.find) =>
  exact (proj1 (proj2 (proj2 framed_primitives))) : frame.
#[local] Hint Extern 1 (framed StockSummaryModel.findOne) =>
  exact (proj1 (proj2 (proj2 (proj2 framed_primitives)))) : frame.
#[local] Hint Extern 1 (framed StockSummaryModel.deleteMany) =>
  exact (proj1 (proj2 (proj2 (proj2 (proj2 framed_primitives))))) : frame.
#[local] Hint Extern 1 (framed (StockSummaryModel.create _)) =>
  apply (proj1 (proj2 (proj2 (proj2 (proj2 (proj2 framed_primitives)))))) : frame.
#[local] Hint Extern 1 (framed (StockSummaryModel.save _ _)) =>
  apply (proj2 (proj2 (proj2 (proj2 (proj2 (proj2 framed_primitives)))))) : frame.

(** Breaks a computation down to the primitive accesses. *)
Ltac frame :=
  repeat first
    [ progress auto with frame
    | apply framed_bind; [|intros ?]
    | apply framed_try_catch; [|intros ?]
    | match goal with
      | |- framed (if ?b then _ else _) => destruct b
      | |- framed (match ?x with Some _ => _ | None => _ end) => destruct x
      | |- framed (match ?x with inl _ => _ | inr _ => _ end) => destruct x
      | |- framed (match ?x with (_, _) => _ end) => destruct x
      | |- framed (let '(_, _) := ?x in _) => destruct x
      end ].

Lemma framed_readers now mk :
  framed (readVouchers mk) /\ framed (extractLoanDataFromDayBooks now).
Proof. split; unfold readVouchers, extractLoanDataFromDayBooks; frame. Qed.

Lemma route_frame now request st : sameSources st (fst (route now request st)).
Proof.
  destruct (framed_readers now (voucherLoan now)) as [Hv Hd].
  destruct (framed_readers now (voucherLoanOnRead now)) as [Hv' _].
  destruct request; simpl; apply framed_handler.
  - unfold populate. frame.
  - frame.
  - frame.
  - frame.
  - frame.
  - frame.
  - frame.
Qed.

(** X4: no route of the stock summary writes to the voucher or day-book
    collections: whatever the request and its outcome, only the snapshots of
    the store can differ afterwards. *)
Theorem routes_leave_sources (now : Z) (request : Request) (st : Store) :
  sameSources st (fst (route now request st))
  /\ st_vouchers (fst (route now request st)) = st_vouchers st
  /\ st_dayBooks (fst (route now request st)) = st_dayBooks st.
Proof.
  pose proof (route_frame now request st) as H.
  split; [done|]. destruct H as (? & _ & _ & ? & _). done.
Qed.

(** ** More on the synchroniser *)

Lemma sameSources_eq st st' :
  sameSources st st' -> st' = with_summaries st (st_summaries st').
Proof.
  intros (Hv & Hc & Hvo & Hd & Hf & Hde & Hs). destruct st'. unfold with_summaries.
  simpl in *. congruence.
Qed.

(** A sync, whatever the availability of the snapshot collection. *)
Lemma sync_run_any now st :
  createOrUpdateStockSummary now st
  = if st_deleteOk st
    then if st_saveOk st
         then (with_summaries st [newStockSummary now (syncLoans (voucherLoan now) now st)],
               json (Synced (length (syncLoans (voucherLoan now) now st))
                       (snapshotAggregates
                          (newStockSummary now (syncLoans (voucherLoan now) now st)))
                       (match syncLoans (voucherLoan now) now st with
                        | loan :: _ => sourceType loan
                        | [] => Some "unknown"
                        end)))
         else (with_summaries st [], failure 500 "Error creating/updating stock summary")
    else (st, failure 500 "Error creating/updating stock summary").
Proof.
  unfold createOrUpdateStockSummary, handler, bind.
  rewrite readVouchers_run.
  rewrite <- (loans_after_readers (voucherLoan now) now st).
  destruct (length (voucherLoansOf (voucherLoan now) st) =? 0)%nat.
  - rewrite extractLoanData_run. run. simpl.
    destruct (st_deleteOk st); simpl; [|done]. by destruct (st_saveOk st).
  - run. destruct (st_deleteOk st); simpl; [|done]. by destruct (st_saveOk st).
Qed.

(** X5: a sync takes nothing from the snapshots it replaces: its outcome is
    the same whatever requests were served before, status updates and sweeps
    included, and repeating it at the same clock changes nothing. *)
Theorem sync_forgets_previous_snapshots (now : Z) (st : Store) :
  st_deleteOk st = true ->
  (forall snapshots,
     createOrUpdateStockSummary now (with_summaries st snapshots)
     = createOrUpdateStockSummary now st)
  /\ (forall t request,
        createOrUpdateStockSummary now (fst (route t request st))
        = createOrUpdateStockSummary now st)
  /\ createOrUpdateStockSummary now (fst (createOrUpdateStockSummary now st))
     = createOrUpdateStockSummary now st.
Proof.
  intros Hd.
  assert (H1 : forall snapshots,
            createOrUpdateStockSummary now (with_summaries st snapshots)
            = createOrUpdateStockSummary now st).
  { intros l. rewrite !sync_run_any. simpl. rewrite Hd. reflexivity. }
  assert (H2 : forall t request,
            createOrUpdateStockSummary now (fst (route t request st))
            = createOrUpdateStockSummary now st).
  { intros t request. pose proof (route_frame t request st) as Hsame.
    rewrite (sameSources_eq _ _ Hsame). apply H1. }
  split; [done|]. split; [done|]. apply (H2 now PostSync).
Qed.

Lemma sync_forgets_previous_snapshots_witness :
  st_deleteOk Sample.synced = true
  /\ createOrUpdateStockSummary Sample.clock
       (fst (updateVoucherStatus Sample.clock "64f0c0ffee0000000000a002" (Some "Closed")
               Sample.synced))
     = createOrUpdateStockSummary Sample.clock Sample.synced.
Proof.
  split; [reflexivity|].
  destruct (sync_forgets_previous_snapshots Sample.clock Sample.synced eq_refl)
    as (_ & Hroute & _).
  exact (Hroute Sample.clock (PutStatus "64f0c0ffee0000000000a002" (Some "Closed"))).
Defined.

(** X6: a sync reports the number of loans it stored and their source: the
    source type shared by all stored loans, or [unknown] exactly when it
    stored none. *)
Theorem sync_reports_source (now : Z) (st : Store) :
  st_deleteOk st = true -> st_saveOk st = true ->
  exists loans aggregates source,
    snd (createOrUpdateStockSummary now st) = json (Synced (length loans) aggregates source)
    /\ st_summaries (fst (createOrUpdateStockSummary now st)) = [newStockSummary now loans]
    /\ (loans = [] <-> source = Some "unknown")
    /\ (forall loan, In loan loans -> sourceType loan = source)
    /\ (source = Some "voucher" \/ source = Some "daybook" \/ source = Some "unknown").
Proof.
  intros Hd Hs. rewrite (sync_run now st Hd Hs). simpl.
  eexists _, _, _. split; [reflexivity|]. split; [reflexivity|].
  assert (Hsrc : Forall (fun loan => sourceType loan = Some "voucher")
                   (syncLoans (voucherLoan now) now st)
                 \/ Forall (fun loan => sourceType loan = Some "daybook")
                      (syncLoans (voucherLoan now) now st)).
  { unfold syncLoans. destruct (voucherLoansOf (voucherLoan now) st) as [|l ls] eqn:E.
    - right. apply ledgerLoans_daybook.
    - left. unfold voucherLoansOf in E.
      destruct (st_countOk st && st_vouchersOk st); [|discriminate].
      rewrite <- E. apply List.Forall_forall. intros loan Hin.
      by apply in_map_iff in Hin as (x & <- & _). }
  destruct (syncLoans (voucherLoan now) now st) as [|first rest].
  - split; [done|]. split; [done|]. by right; right.
  - destruct Hsrc as [Hall | Hall]; pose proof Hall as Hall';
      apply List.Forall_forall with (x := first) in Hall'; try (by left);
      rewrite Hall'.
    + split; [split; discriminate|]. split; [|by left].
      intros loan Hin. by apply (proj1 (List.Forall_forall _ _) Hall).
    + split; [split; discriminate|]. split; [|by right; left].
      intros loan Hin. by apply (proj1 (List.Forall_forall _ _) Hall).
Qed.

Lemma sync_reports_source_witness :
  st_deleteOk Sample.ledgerStore = true /\ st_saveOk Sample.ledgerStore = true
  /\ exists aggregates,
       snd (createOrUpdateStockSummary Sample.clock Sample.ledgerStore)
       = json (Synced 2 aggregates (Some "daybook")).
Proof.
  split; [reflexivity|]. split; [reflexivity|].
  destruct (sync_reports_source Sample.clock Sample.ledgerStore eq_refl eq_refl)
    as (loans & aggregates & source & Hrun & Hstored & _).
  injection Hstored as Hloans. subst loans.
  eexists. reflexivity.
Defined.

Lemma voucherLoan_not_due now voucher :
  isDue now (voucherLoan now voucher) = false
  /\ isDue now (voucherLoanOnRead now voucher) = false.
Proof.
  unfold isDue, voucherLoan, voucherLoanOnRead. simpl.
  destruct (JSDate.lt (v_dueDate voucher) (Some now)),
    (JS.str_eq (v_status voucher) "Closed"), (isActiveOrPartial (v_status voucher)); done.
Qed.

Lemma ledgerLoans_not_due now st loan :
  In loan (ledgerLoans now st) -> isDue now loan = false.
Proof.
  unfold ledgerLoans. destruct (st_dayBooks st) as [dbs|]; [|done].
  intros Hin.
  destruct (ledgerLoans_origin _ _ _ Hin) as (db & t & _ & _ & [[_ ->] | [_ ->]]);
    [|done].
  unfold isDue, disbursedLoan. simpl.
  by destruct (JSDate.lt (dueAfterYear (disbursedAt db t)) (Some now)).
Qed.

Lemma syncLoans_not_due now st mk :
  (forall voucher, isDue now (mk voucher) = false) ->
  List.filter (isDue now) (syncLoans mk now st) = [].
Proof.
  intros Hmk.
  assert (H : forall loan, In loan (syncLoans mk now st) -> isDue now loan = false).
  { intros loan Hin. unfold syncLoans in Hin.
    destruct (voucherLoansOf mk st) as [|l ls] eqn:E; [by apply (ledgerLoans_not_due now st)|].
    unfold voucherLoansOf in E.
    destruct (st_countOk st && st_vouchersOk st); [|discriminate].
    rewrite <- E in Hin. by apply in_map_iff in Hin as (x & <- & _). }
  induction (syncLoans mk now st) as [|loan rest IH]; simpl; [done|].
  rewrite (H loan) by (by left). apply IH. intros l Hl. apply H. by right.
Qed.

(** X7: a sync already classifies as overdue every loan that is due: a sweep
    at the same clock right after a sync, or after the first query of an
    empty store, modifies no loan and stores nothing. *)
Theorem sweep_after_sync_is_idle (now : Z) (st : Store) :
  st_findOk st = true -> st_saveOk st = true ->
  (st_deleteOk st = true ->
   updateOverdueStatus now (fst (createOrUpdateStockSummary now st))
   = (fst (createOrUpdateStockSummary now st), json (Swept 0)))
  /\ (forall q, st_summaries st = [] ->
        updateOverdueStatus now (fst (getStockSummary now q st))
        = (fst (getStockSummary now q st), json (Swept 0))).
Proof.
  intros Hf Hs. split.
  - intros Hd. rewrite (sync_run now st Hd Hs). simpl.
    rewrite (updateOverdueStatus_run now _ 0%nat
               (newStockSummary now (syncLoans (voucherLoan now) now st))) by done.
    simpl. rewrite syncLoans_not_due; [done|]. intros v. apply voucherLoan_not_due.
  - intros q He. rewrite (getStockSummary_run now q st Hf), He. simpl. rewrite Hs. simpl.
    rewrite (updateOverdueStatus_run now _ 0%nat
               (newStockSummary now (syncLoans (voucherLoanOnRead now) now st))) by done.
    simpl. rewrite syncLoans_not_due; [done|]. intros v. apply voucherLoan_not_due.
Qed.

Lemma sweep_after_sync_is_idle_witness :
  st_findOk Sample.oneVoucherStore = true /\ st_saveOk Sample.oneVoucherStore = true
  /\ st_deleteOk Sample.oneVoucherStore = true
  /\ snd (updateOverdueStatus Sample.clock
            (fst (createOrUpdateStockSummary Sample.clock Sample.oneVoucherStore)))
     = json (Swept 0).
Proof.
  split; [reflexivity|]. split; [reflexivity|]. split; [reflexivity|].
  destruct (sweep_after_sync_is_idle Sample.clock Sample.oneVoucherStore eq_refl eq_refl)
    as (Hsync & _).
  rewrite (Hsync eq_refl). reflexivity.
Defined.

(** ** Statistics of a query *)

(** What a query reports, whether the snapshot was found or has just been
    created. *)
Lemma query_reports now q st :
  st_findOk st = true ->
  exists result,
    snd (getStockSummary now q st) = json (Queried result)
    /\ summary result
       = filteredStats (applyFilters q (currentLoans (fst (getStockSummary now q st))))
    /\ jewelTypeSummary result
       = jewelTypeSummaryOf (applyFilters q (currentLoans (fst (getStockSummary now q st))))
    /\ totalItems (pagination result)
       = length (applyFilters q (currentLoans (fst (getStockSummary now q st)))).
Proof.
  intros Hf. rewrite (getStockSummary_run now q st Hf). unfold currentLoans.
  destruct (StockSummaryModel.latest (st_summaries st)) as [[pos s]|] eqn:E.
  - simpl. rewrite E. eexists. by repeat split.
  - apply latest_none in E. rewrite E. destruct (st_saveOk st); simpl.
    + eexists. by repeat split.
    + rewrite E. simpl. eexists. split; [reflexivity|].
      rewrite applyFilters_nil. by repeat split.
Qed.

Lemma sum_from loans : forall a,
  fold_left (fun sum loan => sum + JS.or_num (finalLoanAmount loan) 0) loans a
  = a + sumFinalLoanAmount loans.
Proof.
  unfold sumFinalLoanAmount.
  induction loans as [|loan rest IH]; intros a; cbn [fold_left]; [lia|].
  rewrite (IH (a + _)), (IH (0 + _)). lia.
Qed.

Lemma sum_cons loan rest :
  sumFinalLoanAmount (loan :: rest)
  = JS.or_num (finalLoanAmount loan) 0 + sumFinalLoanAmount rest.
Proof. unfold sumFinalLoanAmount at 1. simpl. by rewrite sum_from. Qed.

Lemma sum_app l1 l2 :
  sumFinalLoanAmount (l1 ++ l2) = sumFinalLoanAmount l1 + sumFinalLoanAmount l2.
Proof.
  induction l1 as [|loan rest IH]; simpl; [done|]. rewrite !sum_cons, IH. lia.
Qed.

(** A loan is in at most one of the three classes. *)
Lemma classes_exclusive loan :
  (hasLoanStatus "active" loan = true ->
   hasLoanStatus "overdue" loan = false /\ hasLoanStatus "closed" loan = false)
  /\ (hasLoanStatus "overdue" loan = true -> hasLoanStatus "closed" loan = false).
Proof.
  unfold hasLoanStatus. destruct (loanStatus loan) as [s|]; simpl; [|done].
  split.
  - intros H. apply String.eqb_eq in H as ->. done.
  - intros H. apply String.eqb_eq in H as ->. done.
Qed.

Lemma count_partition loans :
  length loans
  = (length (List.filter (hasLoanStatus "active") loans)
     + length (List.filter (hasLoanStatus "overdue") loans)
     + length (List.filter (hasLoanStatus "closed") loans)
     + length (List.filter unclassified loans))%nat.
Proof.
  induction loans as [|loan rest IH]; [done|]. cbn [List.filter].
  destruct (classes_exclusive loan) as [Ha Ho].
  assert (Hu : unclassified loan
               = negb (hasLoanStatus "active" loan) && negb (hasLoanStatus "overdue" loan)
                 && negb (hasLoanStatus "closed" loan)) by reflexivity.
  rewrite Hu. clear Hu.
  destruct (hasLoanStatus "active" loan) eqn:E1.
  - destruct (Ha eq_refl) as [-> ->]. cbn [negb andb length]. lia.
  - destruct (hasLoanStatus "overdue" loan) eqn:E2.
    + rewrite (Ho eq_refl). cbn [negb andb length]. lia.
    + destruct (hasLoanStatus "closed" loan); cbn [negb andb length]; lia.
Qed.


Lemma filter_length_le {A} (p : A -> bool) l : (length (List.filter p l) <= length l)%nat.
Proof. induction l as [|x l IH]; simpl; [done|]. destruct (p x); simpl; lia. Qed.




(** ** The summary by jewel type *)

Lemma jewelTypeSummaryOf_snoc loans loan :
  jewelTypeSummaryOf (loans ++ [loan]) = jewelTypeStep (jewelTypeSummaryOf loans) loan.
Proof. unfold jewelTypeSummaryOf. by rewrite fold_left_app. Qed.

Lemma jewelGroup_snoc key loans loan :
  jewelGroup key (loans ++ [loan])
  = (jewelGroup key loans ++ (if String.eqb (jewelKey loan) key then [loan] else []))%list.
Proof. unfold jewelGroup. by rewrite List.filter_app. Qed.

Lemma filter_snoc_length {A} (p : A -> bool) l x :
  length (List.filter p (l ++ [x])) = bump (p x) (length (List.filter p l)).
Proof.
  rewrite List.filter_app, length_app. simpl. destruct (p x); simpl; lia.
Qed.

Lemma jewelEntry_snoc group loan :
  jewelEntry (group ++ [loan])
  = Some {| js_active := bump (hasLoanStatus "active" loan)
                           (js_active (default newJewelStats (jewelEntry group)));
            js_overdue := bump (hasLoanStatus "overdue" loan)
                            (js_overdue (default newJewelStats (jewelEntry group)));
            js_closed := bump (hasLoanStatus "closed" loan)
                           (js_closed (default newJewelStats (jewelEntry group)));
            js_totalAmount := js_totalAmount (default newJewelStats (jewelEntry group))
                              + JS.or_num (finalLoanAmount loan) 0;
            js_count := S (js_count (default newJewelStats (jewelEntry group))) |}.
Proof.
  assert (H : jewelEntry (group ++ [loan])
              = Some {| js_active := length (List.filter (hasLoanStatus "active") (group ++ [loan]));
                        js_overdue := length (List.filter (hasLoanStatus "overdue") (group ++ [loan]));
                        js_closed := length (List.filter (hasLoanStatus "closed") (group ++ [loan]));
                        js_totalAmount := sumFinalLoanAmount (group ++ [loan]);
                        js_count := length (group ++ [loan]) |})
    by (destruct group; reflexivity).
  rewrite H, !filter_snoc_length, sum_app, length_app.
  destruct group as [|first rest]; [reflexivity|].
  cbn [jewelEntry default js_active js_overdue js_closed js_totalAmount js_count].
  f_equal. f_equal; try reflexivity. simpl. lia.
Qed.

(** The reducer keeps, under every key, the entry of the loans counted
    under it so far. *)
Lemma jewelTypeSummaryOf_lookup key loans :
  jewelTypeSummaryOf loans !! key = jewelEntry (jewelGroup key loans).
Proof.
  induction loans as [|loan loans IH] using rev_ind; [apply lookup_empty|].
  rewrite jewelTypeSummaryOf_snoc, jewelGroup_snoc. unfold jewelTypeStep.
  fold (jewelKey loan).
  destruct (String.eqb_spec (jewelKey loan) key) as [->|Hne].
  - rewrite lookup_insert_eq, IH. symmetry. apply jewelEntry_snoc.
  - rewrite lookup_insert_ne by done. by rewrite app_nil_r.
Qed.

Lemma jewelEntry_counts group entry :
  jewelEntry group = Some entry ->
  (0 < js_count entry /\ js_active entry + js_overdue entry + js_closed entry <= js_count entry)%nat.
Proof.
  destruct group as [|first rest]; [done|]. intros [= <-].
  cbn [js_active js_overdue js_closed js_count].
  pose proof (count_partition (first :: rest)). simpl in *. lia.
Qed.

(** X9: the summary by jewel type of a query has, under every name that is
    the object's own, the entry of the filtered loans of that type (the
    type [gold] for a loan without one), and no entry when there is none:
    their number, the numbers of active, overdue and closed ones, and the
    sum of their amounts; with a jewel-type filter, the summary has an entry
    for that type at most. *)
Theorem query_jewelTypeSummary (now : Z) (q : Query) (st : Store) (key : string) :
  st_findOk st = true ->
  ownName key = true ->
  exists result,
    snd (getStockSummary now q st) = json (Queried result)
    /\ jewelTypeSummary result !! key
       = jewelEntry
           (jewelGroup key (applyFilters q (currentLoans (fst (getStockSummary now q st)))))
    /\ (forall entry, jewelTypeSummary result !! key = Some entry ->
          (0 < js_count entry
           /\ js_active entry + js_overdue entry + js_closed entry <= js_count entry)%nat)
    /\ (forall wanted, jewelTypeFilter q = Some wanted ->
          wanted <> "" -> wanted <> "all" -> key <> wanted ->
          jewelTypeSummary result !! key = None).
Proof.
  intros Hf _. destruct (query_reports now q st Hf) as (result & Hrun & _ & Hjewel & _).
  exists result. rewrite Hjewel, jewelTypeSummaryOf_lookup.
  set (filtered := applyFilters q (currentLoans (fst (getStockSummary now q st)))).
  split; [done|]. split; [done|]. split; [apply jewelEntry_counts|].
  intros wanted Hq Hne Hall Hkey.
  assert (Hnone : jewelGroup key filtered = []); [|by rewrite Hnone].
  unfold jewelGroup.
  destruct (List.filter _ filtered) as [|loan rest] eqn:E; [done|]. exfalso.
  assert (Hin : In loan (List.filter (fun loan => String.eqb (jewelKey loan) key) filtered))
    by (rewrite E; by left).
  apply filter_In in Hin as [Hin Heq]. apply String.eqb_eq in Heq.
  apply applyFilters_spec in Hin as [_ (_ & _ & _ & Hjt)].
  specialize (Hjt wanted Hq Hne Hall). unfold jewelKey in Heq. rewrite Hjt in Heq.
  simpl in Heq. apply String.eqb_neq in Hne. rewrite Hne in Heq. congruence.
Qed.

Lemma query_jewelTypeSummary_witness :
  st_findOk Sample.synced = true
  /\ ownName "gold" = true
  /\ exists result,
       snd (getStockSummary Sample.clock Sample.noFilter Sample.synced)
       = json (Queried result)
       /\ exists entry, jewelTypeSummary result !! "gold" = Some entry.
Proof.
  split; [reflexivity|]. split; [reflexivity|].
  destruct (query_jewelTypeSummary Sample.clock Sample.noFilter Sample.synced "gold"
              eq_refl eq_refl) as (result & Hrun & Hentry & _).
  exists result. split; [exact Hrun|].
  rewrite Hentry. vm_compute. eexists. reflexivity.
Defined.

(** ** The pages of a query *)

Lemma query_page now q st position stockSummary p :
  st_findOk st = true ->
  StockSummaryModel.latest (st_summaries st) = Some (position, stockSummary) ->
  0 < limitOf q -> 1 <= p ->
  dataOf (snd (getStockSummary now (withPage q p) st))
  = map formatLoan
      (take (Z.to_nat (limitOf q))
         (drop (Z.to_nat ((p - 1) * limitOf q)) (applyFilters q (ss_loans stockSummary)))).
Proof.
  intros Hf Hlatest Hl Hp. rewrite (getStockSummary_run _ _ _ Hf), Hlatest.
  unfold dataOf. cbn [snd json body answer data]. f_equal.
  change (applyFilters (withPage q p) (ss_loans stockSummary))
    with (applyFilters q (ss_loans stockSummary)).
  unfold paginate. change (pageOf (withPage q p)) with p.
  change (limitOf (withPage q p)) with (limitOf q).
  apply slice_window; nia.
Qed.

Lemma chunks_concat {A} (l : list A) (size k : nat) :
  concat (map (fun p => take size (drop ((p - 1) * size) l)) (seq 1 k)) = take (k * size) l.
Proof.
  induction k as [|k IH]; [done|].
  rewrite seq_S, map_app, concat_app, IH. cbn [map concat Nat.add]. rewrite app_nil_r.
  replace ((S k - 1) * size)%nat with (k * size)%nat by lia.
  rewrite take_take_drop. f_equal. lia.
Qed.

Lemma concat_map_map {A B C} (f : B -> C) (g : A -> list B) (l : list A) :
  concat (map (fun x => map f (g x)) l) = map f (concat (map g l)).
Proof. induction l as [|x l IH]; simpl; [done|]. by rewrite IH, map_app. Qed.

(** X10: with a positive page size and a snapshot in place, the pages
    1 to ceil(total / size) of a query, one after the other, are the
    filtered loans, each once and in order; every page before the last is
    full, and every page after the last is empty. *)
Theorem pages_tile_filtered_loans (now : Z) (q : Query) (st : Store) :
  st_findOk st = true ->
  st_summaries st <> [] ->
  0 < limitOf q ->
  let filtered := applyFilters q (currentLoans st) in
  let pages := Z.to_nat (JS.ceil_div (Z.of_nat (length filtered)) (limitOf q)) in
  let pageData p := dataOf (snd (getStockSummary now (withPage q p) st)) in
  concat (map (fun p => pageData (Z.of_nat p)) (seq 1 pages)) = map formatLoan filtered
  /\ (forall p, 1 <= p < Z.of_nat pages -> Z.of_nat (length (pageData p)) = limitOf q)
  /\ (forall p, Z.of_nat pages < p -> pageData p = []).
Proof.
  intros Hf Hsome Hl filtered pages pageData.
  destruct (StockSummaryModel.latest (st_summaries st)) as [[position stockSummary]|] eqn:Hlatest;
    [|by apply latest_none in Hlatest].
  assert (Hloans : currentLoans st = ss_loans stockSummary)
    by (unfold currentLoans; by rewrite Hlatest).
  pose proof (ceil_div_bounds (Z.of_nat (length filtered)) (limitOf q) Hl) as [Hlow Hhigh].
  set (size := Z.to_nat (limitOf q)).
  assert (Hsize : Z.of_nat size = limitOf q) by (subst size; lia).
  assert (Hpages : 0 <= JS.ceil_div (Z.of_nat (length filtered)) (limitOf q)) by nia.
  assert (Hcount : Z.of_nat pages = JS.ceil_div (Z.of_nat (length filtered)) (limitOf q))
    by (subst pages; lia).
  rewrite <- Hcount in Hlow, Hhigh. clear Hpages Hcount.
  assert (Hdata : forall p, 1 <= p ->
            pageData p
            = map formatLoan (take size (drop (Z.to_nat ((p - 1) * limitOf q)) filtered))).
  { intros p Hp. subst filtered. rewrite Hloans.
    apply (query_page now q st position stockSummary p Hf Hlatest Hl Hp). }
  split; [|split].
  - rewrite (map_ext_in _ (fun p => map formatLoan
                                      (take size (drop ((p - 1) * size) filtered)))).
    + rewrite concat_map_map, chunks_concat. f_equal. apply take_ge. nia.
    + intros p Hin. apply in_seq in Hin. rewrite Hdata by lia. do 3 f_equal. nia.
  - intros p Hp. rewrite Hdata by lia.
    rewrite length_map, length_take, length_drop. nia.
  - intros p Hp. rewrite Hdata by lia.
    rewrite drop_ge; [by rewrite take_nil|]. nia.
Qed.

Lemma pages_tile_filtered_loans_witness :
  st_findOk Sample.synced = true
  /\ st_summaries Sample.synced <> []
  /\ 0 < limitOf twoPerPage
  /\ (dataOf (snd (getStockSummary Sample.clock (withPage twoPerPage 1) Sample.synced))
      ++ dataOf (snd (getStockSummary Sample.clock (withPage twoPerPage 2) Sample.synced)))%list
     = map formatLoan (currentLoans Sample.synced).
Proof.
  assert (Hsome : st_summaries Sample.synced <> []) by (vm_compute; discriminate).
  split; [reflexivity|]. split; [exact Hsome|]. split; [reflexivity|].
  destruct (pages_tile_filtered_loans Sample.clock twoPerPage Sample.synced
              eq_refl Hsome eq_refl) as (Htile & _).
  rewrite <- (app_nil_r (dataOf (snd (getStockSummary Sample.clock (withPage twoPerPage 2)
                                        Sample.synced)))).
  exact Htile.
Defined.

(** ** From the list to the single loan *)

Lemma slice_In {A} (l : list A) s e x : In x (JS.slice l s e) -> In x l.
Proof.
  unfold JS.slice. rewrite <- !list_elem_of_In. intros H.
  apply elem_of_take in H as (i & H & _). rewrite lookup_drop in H.
  by apply list_elem_of_lookup_2 in H.
Qed.

(** X11: a loan listed by a query can be fetched by the id it is listed
    under: the lookup, on the store the query leaves, answers with a loan (the
    first of the snapshot) whose own id or voucher reference is that id. *)
Theorem listed_loan_can_be_fetched
    (now : Z) (q : Query) (st : Store) (item : FormattedLoan) (id : string) :
  st_findOk st = true ->
  In item (dataOf (snd (getStockSummary now q st))) ->
  f_id item = Some id ->
  exists loan,
    snd (getVoucherById id (fst (getStockSummary now q st))) = json (Found loan)
    /\ matchesId id loan.
Proof.
  intros Hf Hin Hid.
  destruct (query_answers now q st Hf) as (result & Hrun & _ & Hdata).
  pose proof (route_frame now (GetStockSummary q) st) as (_ & _ & _ & _ & Hf' & _).
  change (route now (GetStockSummary q) st) with (getStockSummary now q st) in Hf'.
  rewrite Hf in Hf'.
  set (st' := fst (getStockSummary now q st)) in *.
  rewrite Hrun in Hin. unfold dataOf in Hin. cbn [json body] in Hin. rewrite Hdata in Hin.
  apply in_map_iff in Hin as (loan0 & <- & Hin).
  apply slice_In, applyFilters_spec in Hin as [Hin _].
  assert (Hhas : hasId id loan0 = true).
  { unfold hasId. simpl in Hid. unfold or_opt_str in Hid.
    apply orb_true_iff. destruct (JS.truthy_str (dl_id loan0)).
    - left. by apply str_eq_spec.
    - right. by apply str_eq_spec. }
  unfold getVoucherById, handler, bind, StockSummaryModel.findOne. rewrite Hf'.
  unfold currentLoans in Hin.
  destruct (StockSummaryModel.latest (st_summaries st')) as [[position stockSummary]|];
    [|done].
  destruct (find_in (hasId id) _ loan0 Hin Hhas) as (loan & -> & Hloan & _).
  exists loan. split; [done|]. by apply hasId_spec.
Qed.

Lemma listed_loan_can_be_fetched_witness :
  st_findOk Sample.synced = true
  /\ exists item id,
       In item (dataOf (snd (getStockSummary Sample.clock Sample.noFilter Sample.synced)))
       /\ f_id item = Some id
       /\ exists loan,
            snd (getVoucherById id
                   (fst (getStockSummary Sample.clock Sample.noFilter Sample.synced)))
            = json (Found loan).
Proof.
  split; [reflexivity|].
  destruct (dataOf (snd (getStockSummary Sample.clock Sample.noFilter Sample.synced)))
    as [|item rest] eqn:Hdata; [discriminate|].
  destruct (f_id item) as [id|] eqn:Hid;
    [|injection Hdata as <- _; discriminate].
  exists item, id. split; [by left|]. split; [done|].
  destruct (listed_loan_can_be_fetched Sample.clock Sample.noFilter Sample.synced item id
              eq_refl) as (loan & Hloan & _).
  - rewrite Hdata. by left.
  - exact Hid.
  - by exists loan.
Defined.

(** ** What holds of every stored loan *)

Section LoanInvariant.

Variable P : DerivedLoan -> Prop.
Hypothesis P_voucher : forall now voucher, P (voucherLoan now voucher).
Hypothesis P_voucherOnRead : forall now voucher, P (voucherLoanOnRead now voucher).
Hypothesis P_disbursed : forall now dayBook transaction,
P (disbursedLoan now dayBook transaction).
Hypothesis P_closed : forall dayBook transaction, P (closedLoan dayBook transaction).
Hypothesis P_mark : forall now loan,
P loan -> isDue now loan = true -> P (markOverdue now loan).
Hypothesis P_status : forall now s loan,
P loan -> validStatus (Some s) = true -> P (applyStatus now s loan).

Lemma syncLoans_every mk now st loan :
(forall voucher, P (mk voucher)) -> In loan (syncLoans mk now st) -> P loan.
Proof.
intros Hmk Hin. unfold syncLoans in Hin.
destruct (voucherLoansOf mk st) as [|l ls] eqn:E.
- unfold ledgerLoans in Hin. destruct (st_dayBooks st) as [dayBooks|]; [|done].
  destruct (ledgerLoans_origin _ _ _ Hin) as (db & t & _ & _ & [[_ ->] | [_ ->]]);
    [apply P_disbursed | apply P_closed].
- unfold voucherLoansOf in E.
  destruct (st_countOk st && st_vouchersOk st); [|discriminate].
  rewrite <- E in Hin. apply in_map_iff in Hin as (x & <- & _). apply Hmk.
Qed.

Lemma every_empty st : st_summaries st = [] -> everyLoan P st.
Proof. intros He snapshot loan Hin. by rewrite He in Hin. Qed.

Lemma every_single st snapshot :
(forall loan, In loan (ss_loans snapshot) -> P loan) ->
everyLoan P (with_summaries st [snapshot]).
Proof. intros H s loan [<- | []]. apply H. Qed.

Lemma every_insert st position stockSummary now loans :
everyLoan P st ->
(forall loan, In loan loans -> P loan) ->
everyLoan P
  (with_summaries st (<[position := touch now stockSummary loans]> (st_summaries st))).
Proof.
intros Hst Hloans s loan Hin. simpl in Hin. apply in_insert in Hin as [-> | Hin].
- apply Hloans.
- by apply Hst.
Qed.

Lemma every_current st position stockSummary loan :
everyLoan P st ->
StockSummaryModel.latest (st_summaries st) = Some (position, stockSummary) ->
In loan (ss_loans stockSummary) -> P loan.
Proof.
intros Hst Hl. apply Hst.
apply latest_lookup in Hl. apply list_elem_of_In. by apply list_elem_of_lookup_2 in Hl.
Qed.

Lemma route_every now request st :
everyLoan P st -> everyLoan P (fst (route now request st)).
Proof.
intros Hst. destruct request as [q| | | | |id|id newStatus]; simpl.
- destruct (st_findOk st) eqn:Hf.
  + rewrite (getStockSummary_run now q st Hf).
    destruct (StockSummaryModel.latest (st_summaries st)) as [[pos s]|] eqn:E; [done|].
    apply latest_none in E. rewrite E. destruct (st_saveOk st); [|done].
    apply every_single. simpl. intros loan. by apply syncLoans_every.
  + unfold getStockSummary, handler, bind, StockSummaryModel.findOne. by rewrite Hf.
- rewrite sync_run_any. destruct (st_deleteOk st); [|done].
  destruct (st_saveOk st); simpl.
  + apply every_single. simpl. intros loan. by apply syncLoans_every.
  + by apply every_empty.
- by rewrite dashboard_reads.
- unfold updateOverdueStatus, handler, bind, StockSummaryModel.findOne.
  destruct (st_findOk st); [|done].
  destruct (StockSummaryModel.latest (st_summaries st)) as [[pos s]|] eqn:E; [|done].
  rewrite sweepLoans_spec. simpl.
  destruct (0 <? length (List.filter (isDue now) (ss_loans s)))%nat; [|done].
  unfold StockSummaryModel.save. destruct (st_saveOk st); [|done]. simpl.
  apply every_insert; [done|]. intros loan Hin.
  apply in_map_iff in Hin as (old & <- & Hin). unfold sweptLoan.
  pose proof (every_current st pos s old Hst E Hin).
  destruct (isDue now old) eqn:Hdue; [by apply P_mark|done].
- unfold deleteStockSummary. run. destruct (st_deleteOk st); [|done].
  by apply every_empty.
- by rewrite getVoucherById_reads.
- unfold updateVoucherStatus, handler.
  destruct (validStatus newStatus) eqn:Hvalid; [|done]. simpl.
  unfold bind, StockSummaryModel.findOne.
  destruct (st_findOk st); [|done].
  destruct (StockSummaryModel.latest (st_summaries st)) as [[pos s]|] eqn:E; [|done].
  destruct (JS.findIndex (hasId id) (ss_loans s)) as [index|]; [|done].
  destruct (ss_loans s !! index) as [loan|] eqn:Hloan; [|done].
  unfold StockSummaryModel.save. destruct (st_saveOk st); [|done]. simpl.
  apply every_insert; [done|]. intros l Hin.
  apply in_insert in Hin as [-> | Hin]; [|by apply (every_current st pos s)].
  destruct newStatus as [s'|]; [|done]. apply P_status; [|done].
  apply (every_current st pos s loan Hst E).
  apply list_elem_of_In. by apply list_elem_of_lookup_2 in Hloan.
Qed.

Lemma reachable_every st : reachable st -> everyLoan P st.
Proof.
induction 1 as [st He | now request st _ IH | st st' _ IH Hsame].
- by apply every_empty.
- by apply route_every.
- intros snapshot loan Hin. rewrite Hsame in Hin. by apply IH.
Qed.

End LoanInvariant.

Lemma daysSince_positive now due :
  JSDate.lt due (Some now) = true -> 0 < daysSince now due.
Proof.
  unfold JSDate.lt, daysSince, JSDate.daysBetween. destruct due as [d|]; [|done].
  intros H. apply Z.ltb_lt in H.
  pose proof (ceil_div_bounds (now - d) JSDate.msPerDay eq_refl) as [_ Hhigh].
  unfold JSDate.msPerDay in *. lia.
Qed.

Lemma voucherLoan_classified now voucher : wellClassified (voucherLoan now voucher).
Proof.
  unfold wellClassified. cbn [voucherLoan loanStatus sourceType daysOverdue status].
  unfold isActiveOrPartial.
  destruct (JSDate.lt (v_dueDate voucher) (Some now)) eqn:Hlt;
    destruct (v_status voucher) as [s|]; cbn [JS.str_eq negb andb orb];
    try destruct (String.eqb_spec s "Closed") as [->|Hc]; cbn [negb andb orb];
    try destruct (String.eqb s "Active"); try destruct (String.eqb s "Partial");
    cbn [orb];
    (split; [tauto|]); (split; [tauto|]);
    (split; [eexists; split; [reflexivity|];
             try (apply daysSince_positive in Hlt); lia|]);
    split; intros H; congruence.
Qed.

Lemma voucherLoanOnRead_classified now voucher :
  wellClassified (voucherLoanOnRead now voucher).
Proof.
  unfold wellClassified. cbn [voucherLoanOnRead loanStatus sourceType daysOverdue status].
  unfold isActiveOrPartial.
  destruct (JSDate.lt (v_dueDate voucher) (Some now)) eqn:Hlt;
    destruct (v_status voucher) as [s|]; cbn [JS.str_eq negb andb orb];
    try destruct (String.eqb_spec s "Closed") as [->|Hc]; cbn [negb andb orb];
    try destruct (String.eqb s "Active"); try destruct (String.eqb s "Partial");
    cbn [orb];
    (split; [tauto|]); (split; [tauto|]);
    (split; [eexists; split; [reflexivity|];
             try (apply daysSince_positive in Hlt); lia|]);
    split; intros H; congruence.
Qed.

Lemma disbursedLoan_classified now dayBook transaction :
  wellClassified (disbursedLoan now dayBook transaction).
Proof.
  unfold wellClassified. cbn [disbursedLoan loanStatus sourceType daysOverdue status].
  destruct (JSDate.lt (dueAfterYear (disbursedAt dayBook transaction)) (Some now)) eqn:Hlt;
    (split; [tauto|]); (split; [tauto|]);
    (split; [eexists; split; [reflexivity|];
             try (apply daysSince_positive in Hlt); lia|]);
    split; intros H; congruence.
Qed.

Lemma closedLoan_classified dayBook transaction :
  wellClassified (closedLoan dayBook transaction).
Proof.
  unfold wellClassified. cbn [closedLoan loanStatus sourceType daysOverdue status].
  split; [tauto|]. split; [tauto|]. split; [by exists 0|]. done.
Qed.

Lemma markOverdue_classified now loan :
  wellClassified loan -> isDue now loan = true -> wellClassified (markOverdue now loan).
Proof.
  intros (_ & Hsource & _ & _) Hdue. unfold isDue in Hdue.
  apply andb_true_iff in Hdue as [_ Hlt]. apply daysSince_positive in Hlt.
  unfold wellClassified. cbn. split; [tauto|]. split; [done|].
  split; [eexists; split; [reflexivity|lia]|]. split; intros H; congruence.
Qed.

Lemma applyStatus_classified now s loan :
  wellClassified loan -> validStatus (Some s) = true ->
  wellClassified (applyStatus now s loan).
Proof.
  intros (_ & Hsource & Hdays & _) Hvalid. apply validStatus_spec in Hvalid.
  unfold wellClassified, applyStatus.
  destruct Hvalid as [H | [H | [H | H]]]; injection H as ->; cbn;
    (split; [tauto|]); (split; [done|]); (split; [done|]); split; intros H; congruence.
Qed.

(** X12: in every store the service can be in, every stored loan is
    classified active, overdue, closed or inactive, comes from a voucher or a
    day-book, has a number of days overdue that is not negative, and is
    classified closed exactly when its status is Closed. *)
Theorem stored_loans_well_classified (st : Store) :
  reachable st -> everyLoan wellClassified st.
Proof.
  apply reachable_every.
  - apply voucherLoan_classified.
  - apply voucherLoanOnRead_classified.
  - apply disbursedLoan_classified.
  - apply closedLoan_classified.
  - apply markOverdue_classified.
  - apply applyStatus_classified.
Qed.

Lemma stored_loans_well_classified_witness :
  reachable Sample.synced
  /\ forall loan, In loan (currentLoans Sample.synced) -> wellClassified loan.
Proof.
  split; [exact sample_synced_reachable|]. intros loan Hin.
  apply (stored_loans_well_classified Sample.synced sample_synced_reachable
           (newStockSummary (Sample.clock - 10 * JSDate.msPerDay) (currentLoans Sample.synced))).
  - left. reflexivity.
  - exact Hin.
Defined.

(** ** A query after a sync *)



(** ** The dashboard *)

(** Two moments of the same month of the same year are less than 31 days
    apart. *)
Lemma sameMonth_window now t :
  sameMonth now (Some t) = true ->
  - (31 * JSDate.msPerDay) < t - now < 31 * JSDate.msPerDay.
Proof.
  unfold sameMonth.
  pose proof (civil_month_day_range (JSDate.Day t)) as Hr.
  pose proof (days_from_civil_of_days (JSDate.Day t)) as Hd.
  pose proof (civil_month_day_range (JSDate.Day now)) as Hr'.
  pose proof (days_from_civil_of_days (JSDate.Day now)) as Hd'.
  destruct (JSDate.civil_from_days (JSDate.Day t)) as [[y m] d].
  destruct (JSDate.civil_from_days (JSDate.Day now)) as [[y' m'] d'].
  intros H. apply andb_true_iff in H as [Hm Hy].
  apply Z.eqb_eq in Hm as ->. apply Z.eqb_eq in Hy as ->.
  rewrite (days_from_civil_day y' m' d) in Hd.
  rewrite (days_from_civil_day y' m' d') in Hd'.
  unfold JSDate.Day, JSDate.msPerDay in *. div_lia.
Qed.

Lemma sameMonth_now now : sameMonth now (Some now) = true.
Proof.
  unfold sameMonth. destruct (JSDate.civil_from_days (JSDate.Day now)) as [[y m] d].
  by rewrite !Z.eqb_refl.
Qed.

(** X14: the dashboard never writes and never creates the snapshot: without
    one it answers not found; with one it counts, among the loans of the
    current snapshot, those disbursed and those due in the month of the
    clock.  A loan disbursed at the time of the request is counted, and every
    loan counted was disbursed less than 31 days from the clock. *)
Theorem dashboard_contract (now : Z) (st : Store) :
  st_findOk st = true ->
  fst (getDashboardStats now st) = st
  /\ (st_summaries st = [] ->
      snd (getDashboardStats now st)
      = failure 404 "Stock summary not found. Please sync data first.")
  /\ (st_summaries st <> [] ->
      exists stats,
        snd (getDashboardStats now st) = json (Statistics stats)
        /\ thisMonthLoans stats
           = length (List.filter (disbursedThisMonth now) (currentLoans st))
        /\ dueThisMonth stats = length (List.filter (dueInMonth now) (currentLoans st))
        /\ (thisMonthLoans stats <= length (currentLoans st))%nat
        /\ (dueThisMonth stats <= length (currentLoans st))%nat
        /\ (forall loan, disbursementDate loan = Some now -> disbursedThisMonth now loan = true)
        /\ (forall loan, disbursedThisMonth now loan = true ->
              exists t, disbursementDate loan = Some t
                /\ - (31 * JSDate.msPerDay) < t - now < 31 * JSDate.msPerDay)).
Proof.
  intros Hf. split; [apply dashboard_reads|].
  unfold getDashboardStats, handler, bind, StockSummaryModel.findOne, currentLoans.
  rewrite Hf. split.
  - intros ->. reflexivity.
  - intros Hsome.
    destruct (StockSummaryModel.latest (st_summaries st)) as [[position stockSummary]|] eqn:E;
      [|by apply latest_none in E].
    eexists. split; [reflexivity|]. cbn [thisMonthLoans dueThisMonth].
    split; [reflexivity|]. split; [reflexivity|].
    split; [apply filter_length_le|]. split; [apply filter_length_le|]. split.
    + intros loan Hd. unfold disbursedThisMonth. rewrite Hd. apply sameMonth_now.
    + intros loan Hc. unfold disbursedThisMonth in Hc.
      destruct (disbursementDate loan) as [t|]; [|done].
      exists t. split; [done|]. by apply sameMonth_window.
Qed.

Lemma dashboard_contract_witness :
  st_findOk Sample.synced = true
  /\ fst (getDashboardStats Sample.clock Sample.synced) = Sample.synced
  /\ exists stats,
       snd (getDashboardStats Sample.clock Sample.synced) = json (Statistics stats)
       /\ (thisMonthLoans stats <= 3)%nat.
Proof.
  split; [reflexivity|].
  destruct (dashboard_contract Sample.clock Sample.synced eq_refl) as (Hread & _ & Hsome).
  split; [exact Hread|].
  destruct Hsome as (stats & Hrun & _ & _ & Hle & _); [vm_compute; discriminate|].
  exists stats. split; [exact Hrun|]. exact Hle.
Defined.




(** ** One snapshot *)

(** X16: the service never holds more than one snapshot: whatever requests
    were served, in whatever order and at whatever clock, the store holds
    none or exactly one, which is then the current one, and every request
    leaves it so. *)
Theorem service_keeps_one_snapshot (st : Store) :
  reachable st ->
  (st_summaries st = []
   \/ exists stockSummary,
        st_summaries st = [stockSummary]
        /\ StockSummaryModel.latest (st_summaries st) = Some (0%nat, stockSummary)
        /\ currentLoans st = ss_loans stockSummary)
  /\ (forall now request, (length (st_summaries (fst (route now request st))) <= 1)%nat).
Proof.
  intros Hreach. split.
  - pose proof (reachable_invariant st Hreach) as [Hlen _]. unfold currentLoans.
    destruct (st_summaries st) as [|s [|s' rest]]; [by left| |simpl in Hlen; lia].
    right. exists s. by rewrite latest_single.
  - intros now request.
    apply (reachable_invariant (fst (route now request st))).
    by apply reachable_request.
Qed.

Lemma service_keeps_one_snapshot_witness :
  reachable Sample.synced
  /\ (length (st_summaries
                (fst (route Sample.clock PostUpdateOverdue Sample.synced))) <= 1)%nat.
Proof.
  split; [exact sample_synced_reachable|].
  exact (proj2 (service_keeps_one_snapshot Sample.synced sample_synced_reachable)
           Sample.clock PostUpdateOverdue).
Defined.

(** ** Faults of the snapshot collection *)

(** X17: a sync deletes before it saves: when the deletion succeeds and the
    save fails, it answers 500 and the snapshots that were stored are gone;
    the source collections are as before, and a lookup, a status update, a
    sweep or the dashboard then answer not found. *)
Theorem failed_sync_loses_snapshots (now : Z) (st : Store) :
  st_deleteOk st = true -> st_saveOk st = false ->
  snd (createOrUpdateStockSummary now st)
  = failure 500 "Error creating/updating stock summary"
  /\ st_summaries (fst (createOrUpdateStockSummary now st)) = []
  /\ sameSources st (fst (createOrUpdateStockSummary now st))
  /\ (st_findOk st = true ->
      forall t id newStatus,
        acceptedStatus newStatus ->
        snd (getVoucherById id (fst (createOrUpdateStockSummary now st)))
        = failure 404 "Stock summary not found"
        /\ snd (updateVoucherStatus t id newStatus (fst (createOrUpdateStockSummary now st)))
           = failure 404 "Stock summary not found"
        /\ snd (updateOverdueStatus t (fst (createOrUpdateStockSummary now st)))
           = failure 404 "Stock summary not found"
        /\ snd (getDashboardStats t (fst (createOrUpdateStockSummary now st)))
           = failure 404 "Stock summary not found. Please sync data first.").
Proof.
  intros Hd Hs. rewrite sync_run_any, Hd, Hs. cbn [fst snd].
  split; [done|]. split; [done|]. split; [apply sameSources_with_summaries|].
  intros Hf t id newStatus Hvalid. apply validStatus_spec in Hvalid.
  unfold getVoucherById, updateVoucherStatus, updateOverdueStatus, getDashboardStats,
    handler, bind, StockSummaryModel.findOne.
  rewrite Hvalid. cbn. rewrite Hf. done.
Qed.

Lemma failed_sync_loses_snapshots_witness :
  st_deleteOk readOnlySample = true /\ st_saveOk readOnlySample = false
  /\ st_summaries readOnlySample <> []
  /\ st_summaries (fst (createOrUpdateStockSummary Sample.clock readOnlySample)) = [].
Proof.
  split; [reflexivity|]. split; [reflexivity|]. split; [vm_compute; discriminate|].
  exact (proj1 (proj2 (failed_sync_loses_snapshots Sample.clock readOnlySample
                         eq_refl eq_refl))).
Defined.

(** X18: when the snapshot collection cannot be read, every request that
    reads it first (all but a sync, a reset and a status update with a
    refused status) is answered 500 with the message of its route, and
    nothing is stored. *)
Theorem unreadable_snapshots_give_500 (now : Z) (request : Request) (st : Store) :
  st_findOk st = false ->
  readsSnapshotFirst request ->
  route now request st = (st, failure 500 (errorMessage request)).
Proof.
  intros Hf Hreads.
  destruct request as [q| | | | |id|id newStatus]; simpl in *; try done;
    try (unfold getStockSummary, getDashboardStats, updateOverdueStatus, getVoucherById,
           handler, bind, StockSummaryModel.findOne; by rewrite Hf).
  apply validStatus_spec in Hreads.
  unfold updateVoucherStatus, handler, bind, StockSummaryModel.findOne.
  rewrite Hreads. cbn. by rewrite Hf.
Qed.

Lemma unreadable_snapshots_give_500_witness :
  st_findOk unreadableSample = false
  /\ readsSnapshotFirst (GetById "64f0c0ffee0000000000a002")
  /\ route Sample.clock (GetById "64f0c0ffee0000000000a002") unreadableSample
     = (unreadableSample, failure 500 "Error fetching loan details").
Proof.
  split; [reflexivity|]. split; [exact I|].
  exact (unreadable_snapshots_give_500 Sample.clock (GetById "64f0c0ffee0000000000a002")
           unreadableSample eq_refl I).
Defined.

(** ** The snapshot a query creates and the snapshot a sync creates *)

Lemma sameListing_fields a b :
  sameListing a b ->
  billNo a = billNo b /\ customerName a = customerName b /\ customerId a = customerId b
  /\ customerPhone a = customerPhone b /\ jewelType a = jewelType b
  /\ finalLoanAmount a = finalLoanAmount b /\ disbursementDate a = disbursementDate b
  /\ loanStatus a = loanStatus b.
Proof.
  intros H.
  pose proof (f_equal f_billNo H). pose proof (f_equal (fun f => fc_fullName (f_customer f)) H).
  pose proof (f_equal (fun f => fc_id (f_customer f)) H).
  pose proof (f_equal (fun f => fc_phoneNumber (f_customer f)) H).
  pose proof (f_equal f_jewelType H). pose proof (f_equal f_finalLoanAmount H).
  pose proof (f_equal f_disbursementDate H). pose proof (f_equal f_loanStatus H).
  by repeat split.
Qed.

Lemma Forall2_filter_respects {A} (R : A -> A -> Prop) (p : A -> bool) l l' :
  (forall a b, R a b -> p a = p b) ->
  Forall2 R l l' -> Forall2 R (List.filter p l) (List.filter p l').
Proof.
  intros Hp. induction 1 as [|a b l l' Hab _ IH]; simpl; [constructor|].
  rewrite (Hp a b Hab). destruct (p b); [by constructor|done].
Qed.

Lemma hasLoanStatus_listing s a b :
  sameListing a b -> hasLoanStatus s a = hasLoanStatus s b.
Proof.
  intros H. apply sameListing_fields in H as (_ & _ & _ & _ & _ & _ & _ & H).
  unfold hasLoanStatus. by rewrite H.
Qed.

Lemma applyFilters_listing q l l' :
  Forall2 sameListing l l' ->
  Forall2 sameListing (applyFilters q l) (applyFilters q l').
Proof.
  intros H. unfold applyFilters, jewelTypeStage, statusStage, dateStage, searchStage.
  repeat match goal with
         | |- Forall2 _ (if ?c then _ else _) (if ?c then _ else _) => destruct c
         | |- Forall2 _ (match ?x with Some _ => _ | None => _ end)
                (match ?x with Some _ => _ | None => _ end) => destruct x
         | |- Forall2 _ (List.filter _ _) (List.filter _ _) =>
             apply Forall2_filter_respects;
             [intros a b Hab;
              first [ by apply hasLoanStatus_listing
                    | apply sameListing_fields in Hab
                        as (Hb & Hn & Hi & Hp & Hj & Hf & Hd & Hs);
                      unfold matchesSearch, onDay; by rewrite ?Hb, ?Hn, ?Hi, ?Hp, ?Hj, ?Hd ]|]
         end; done.
Qed.

Lemma slice_listing (l l' : list DerivedLoan) s e :
  Forall2 sameListing l l' -> Forall2 sameListing (JS.slice l s e) (JS.slice l' s e).
Proof.
  intros H. unfold JS.slice. rewrite <- (Forall2_length _ _ _ H).
  by apply Forall2_take, Forall2_drop.
Qed.

Lemma format_listing l l' :
  Forall2 sameListing l l' -> map formatLoan l = map formatLoan l'.
Proof. induction 1 as [|a b l l' Hab _ IH]; simpl; [done|]. by rewrite Hab, IH. Qed.

Lemma sum_listing l l' :
  Forall2 sameListing l l' -> sumFinalLoanAmount l = sumFinalLoanAmount l'.
Proof.
  induction 1 as [|a b l l' Hab _ IH]; [done|]. rewrite !sum_cons, IH.
  apply sameListing_fields in Hab as (_ & _ & _ & _ & _ & -> & _). done.
Qed.

Lemma status_listing s l l' :
  Forall2 sameListing l l' ->
  Forall2 sameListing (List.filter (hasLoanStatus s) l) (List.filter (hasLoanStatus s) l').
Proof.
  intros H. apply Forall2_filter_respects; [|done].
  intros a b. apply hasLoanStatus_listing.
Qed.

Lemma rate_listing l l' :
  Forall2 sameListing l l' -> overdueRateOf l = overdueRateOf l'.
Proof.
  intros H. unfold overdueRateOf.
  by rewrite (Forall2_length _ _ _ H),
    (Forall2_length _ _ _ (status_listing "overdue" l l' H)).
Qed.

Lemma stats_listing l l' :
  Forall2 sameListing l l' -> filteredStats l = filteredStats l'.
Proof.
  intros H. unfold filteredStats.
  rewrite (Forall2_length _ _ _ H), (rate_listing l l' H), (sum_listing l l' H),
    (Forall2_length _ _ _ (status_listing "active" l l' H)),
    (Forall2_length _ _ _ (status_listing "overdue" l l' H)),
    (Forall2_length _ _ _ (status_listing "closed" l l' H)),
    (sum_listing _ _ (status_listing "active" l l' H)),
    (sum_listing _ _ (status_listing "overdue" l l' H)).
  done.
Qed.

Lemma jewel_listing l l' :
  Forall2 sameListing l l' -> jewelTypeSummaryOf l = jewelTypeSummaryOf l'.
Proof.
  unfold jewelTypeSummaryOf. generalize (∅ : gmap string JewelStats).
  intros acc H. revert acc.
  induction H as [|a b l l' Hab _ IH]; intros acc; simpl; [done|].
  rewrite IH. f_equal. unfold jewelTypeStep.
  rewrite !(hasLoanStatus_listing _ a b Hab).
  apply sameListing_fields in Hab as (_ & _ & _ & _ & -> & -> & _). done.
Qed.

Lemma aggregates_listing s s' :
  ss_lastUpdated s = ss_lastUpdated s' ->
  Forall2 sameListing (ss_loans s) (ss_loans s') ->
  snapshotAggregates s = snapshotAggregates s'.
Proof.
  intros Ht H. unfold snapshotAggregates.
  rewrite Ht, (Forall2_length _ _ _ H), (rate_listing _ _ H), (sum_listing _ _ H),
    (Forall2_length _ _ _ (status_listing "active" _ _ H)),
    (Forall2_length _ _ _ (status_listing "overdue" _ _ H)),
    (Forall2_length _ _ _ (status_listing "closed" _ _ H)).
  done.
Qed.

Lemma answer_listing q s s' :
  ss_lastUpdated s = ss_lastUpdated s' ->
  Forall2 sameListing (ss_loans s) (ss_loans s') ->
  answer q s = answer q s'.
Proof.
  intros Ht H. unfold answer.
  pose proof (applyFilters_listing q _ _ H) as Hf.
  rewrite (aggregates_listing s s' Ht H), (stats_listing _ _ Hf), (jewel_listing _ _ Hf),
    (Forall2_length _ _ _ Hf).
  f_equal. apply format_listing. unfold paginate. by apply slice_listing.
Qed.

Lemma syncLoans_listing now st :
  Forall2 sameListing (syncLoans (voucherLoanOnRead now) now st)
    (syncLoans (voucherLoan now) now st).
Proof.
  unfold syncLoans, voucherLoansOf.
  destruct (st_countOk st && st_vouchersOk st).
  - destruct (st_vouchers st) as [|v vs]; simpl.
    + apply Forall2_same_length_lookup_2; [done|]. by intros i x y -> [= ->].
    + constructor; [reflexivity|]. induction vs as [|w ws IH]; simpl; by constructor.
  - apply Forall2_same_length_lookup_2; [done|]. by intros i x y -> [= ->].
Qed.

(** X19: whether the snapshot was created by a sync or by the first query,
    the query answers the same: on a store without snapshot, the answer of a
    query is the answer it gives after a sync at the same clock, although the
    loans the query stores lack the payment and closing dates the sync
    stores. *)
Theorem lazy_snapshot_lists_as_synced (now t : Z) (q : Query) (st : Store) :
  st_findOk st = true -> st_deleteOk st = true -> st_saveOk st = true ->
  st_summaries st = [] ->
  snd (getStockSummary now q st)
  = snd (getStockSummary t q (fst (createOrUpdateStockSummary now st)))
  /\ Forall2 sameListing (currentLoans (fst (getStockSummary now q st)))
       (currentLoans (fst (createOrUpdateStockSummary now st)))
  /\ (forall loan, In loan (currentLoans (fst (getStockSummary now q st))) ->
        sourceType loan = Some "voucher" ->
        lastPaymentDate loan = None /\ monthsPaid loan = None
        /\ totalInterestPaid loan = None /\ closedDate loan = None).
Proof.
  intros Hf Hd Hs He.
  rewrite (sync_run now st Hd Hs). cbn [fst].
  rewrite (getStockSummary_run now q st Hf), He. cbn [StockSummaryModel.latest].
  rewrite Hs. cbn [fst snd app].
  rewrite (getStockSummary_run t q
             (with_summaries st [newStockSummary now (syncLoans (voucherLoan now) now st)]) Hf).
  cbn [st_summaries with_summaries]. rewrite latest_single. cbn [snd].
  unfold currentLoans. cbn [st_summaries with_summaries]. rewrite !latest_single.
  cbn [ss_loans newStockSummary].
  split; [|split].
  - do 2 f_equal. apply answer_listing; [done|]. apply syncLoans_listing.
  - apply syncLoans_listing.
  - intros loan Hin Hsource. unfold syncLoans in Hin.
    destruct (voucherLoansOf (voucherLoanOnRead now) st) as [|l ls] eqn:E.
    + pose proof (ledgerLoans_daybook now st) as Hall.
      apply (proj1 (List.Forall_forall _ _) Hall) in Hin. congruence.
    + unfold voucherLoansOf in E.
      destruct (st_countOk st && st_vouchersOk st); [|discriminate].
      rewrite <- E in Hin. by apply in_map_iff in Hin as (v & <- & _).
Qed.

Lemma lazy_snapshot_lists_as_synced_witness :
  st_findOk Sample.store = true /\ st_deleteOk Sample.store = true
  /\ st_saveOk Sample.store = true /\ st_summaries Sample.store = []
  /\ snd (getStockSummary Sample.clock Sample.activeGold Sample.store)
     = snd (getStockSummary 0 Sample.activeGold
              (fst (createOrUpdateStockSummary Sample.clock Sample.store))).
Proof.
  split; [reflexivity|]. split; [reflexivity|]. split; [reflexivity|]. split; [reflexivity|].
  exact (proj1 (lazy_snapshot_lists_as_synced Sample.clock 0 Sample.activeGold Sample.store
                  eq_refl eq_refl eq_refl eq_refl)).
Defined.

(** ** The entries of the summary by jewel type add up *)






(** ** A status update seen through the statistics *)

Lemma filter_insert_length {A} (p : A -> bool) (l : list A) : forall i x y,
  l !! i = Some x ->
  (length (List.filter p (<[i := y]> l)) + Nat.b2n (p x)
   = length (List.filter p l) + Nat.b2n (p y))%nat.
Proof.
  induction l as [|a l IH]; intros i x y Hi; [done|].
  destruct i as [|i]; simpl in *.
  - injection Hi as ->. destruct (p x), (p y); simpl; lia.
  - specialize (IH i x y Hi). destruct (p a); simpl; lia.
Qed.

Lemma sum_insert (l : list DerivedLoan) : forall i x y,
  l !! i = Some x ->
  sumFinalLoanAmount (<[i := y]> l) + JS.or_num (finalLoanAmount x) 0
  = sumFinalLoanAmount l + JS.or_num (finalLoanAmount y) 0.
Proof.
  induction l as [|a l IH]; intros i x y Hi; [done|].
  destruct i as [|i]; simpl in *.
  - injection Hi as ->. rewrite !sum_cons. lia.
  - specialize (IH i x y Hi). rewrite !sum_cons. lia.
Qed.

Lemma applyStatus_amount now s loan :
  finalLoanAmount (applyStatus now s loan) = finalLoanAmount loan.
Proof. unfold applyStatus. by destruct (String.eqb s "Closed"). Qed.

(** X21: a status update moves one loan between the classes of the
    statistics and changes nothing else in them: a query without filters
    counts as many loans and the same total amount after the update as
    before, and each of the three counts has lost the loan as it was and
    gained the loan as it is now. *)
Theorem status_update_moves_one_loan
    (now t : Z) (id : string) (newStatus : option string) (q : Query) (st : Store)
    (updated : DerivedLoan) :
  reachable st ->
  unfiltered q ->
  snd (updateVoucherStatus now id newStatus st) = json (Updated updated) ->
  exists old before after,
    In old (currentLoans st) /\ matchesId id old
    /\ snd (getStockSummary t q st) = json (Queried before)
    /\ snd (getStockSummary t q (fst (updateVoucherStatus now id newStatus st)))
       = json (Queried after)
    /\ totalLoans (summary after) = totalLoans (summary before)
    /\ totalLoanAmount (summary after) = totalLoanAmount (summary before)
    /\ (activeLoans (summary after) + Nat.b2n (hasLoanStatus "active" old)
        = activeLoans (summary before) + Nat.b2n (hasLoanStatus "active" updated))%nat
    /\ (overdueLoans (summary after) + Nat.b2n (hasLoanStatus "overdue" old)
        = overdueLoans (summary before) + Nat.b2n (hasLoanStatus "overdue" updated))%nat
    /\ (closedLoans (summary after) + Nat.b2n (hasLoanStatus "closed" old)
        = closedLoans (summary before) + Nat.b2n (hasLoanStatus "closed" updated))%nat.
Proof.
  intros Hreach (Hsearch & Hdate & Hstatus & Hjewel) Hrun.
  destruct (updateVoucherStatus_success _ _ _ _ _ Hrun)
    as (s & position & stockSummary & index & loan & -> & _ & Hf & Hs & Hl & Hloan
        & Hid & _ & -> & Hst).
  exists loan. eexists _, _.
  split.
  { unfold currentLoans. rewrite Hl. apply list_elem_of_In.
    by apply list_elem_of_lookup_2 in Hloan. }
  split; [by apply hasId_spec|].
  rewrite Hst, (getStockSummary_run t q st Hf), Hl.
  rewrite (getStockSummary_run t q
             (with_summaries st
                (<[position := touch now stockSummary
                                 (<[index := applyStatus now s loan]> (ss_loans stockSummary))]>
                   (st_summaries st))) Hf).
  cbn [st_summaries with_summaries].
  rewrite (current_after_save st position stockSummary) by (done || by right).
  cbn [snd]. split; [reflexivity|]. split; [reflexivity|].
  unfold answer. cbn [summary ss_loans touch].
  rewrite !(applyFilters_disabled q _ Hsearch Hdate Hstatus Hjewel).
  cbn [filteredStats totalLoans totalLoanAmount activeLoans overdueLoans closedLoans].
  split; [apply length_insert|].
  split.
  { pose proof (sum_insert _ index loan (applyStatus now s loan) Hloan) as Hsum.
    rewrite applyStatus_amount in Hsum. lia. }
  split; [by apply filter_insert_length|].
  split; by apply filter_insert_length.
Qed.

Lemma status_update_moves_one_loan_witness :
  reachable Sample.synced /\ unfiltered Sample.noFilter
  /\ exists updated before after,
       snd (updateVoucherStatus Sample.clock "64f0c0ffee0000000000a002" (Some "Closed")
              Sample.synced)
       = json (Updated updated)
       /\ snd (getStockSummary Sample.clock Sample.noFilter Sample.synced)
          = json (Queried before)
       /\ snd (getStockSummary Sample.clock Sample.noFilter
                 (fst (updateVoucherStatus Sample.clock "64f0c0ffee0000000000a002"
                         (Some "Closed") Sample.synced)))
          = json (Queried after)
       /\ totalLoans (summary after) = totalLoans (summary before).
Proof.
  assert (Hq : unfiltered Sample.noFilter).
  { split; [by left|]. split; [reflexivity|]. split; [by right; right|by left]. }
  split; [exact sample_synced_reachable|]. split; [exact Hq|].
  destruct (status_update_moves_one_loan Sample.clock Sample.clock
              "64f0c0ffee0000000000a002" (Some "Closed") Sample.noFilter Sample.synced _
              sample_synced_reachable Hq eq_refl)
    as (old & before & after & _ & _ & Hbefore & Hafter & Htotal & _).
  eexists _, before, after. split; [reflexivity|]. split; [exact Hbefore|].
  split; [exact Hafter|]. exact Htotal.
Defined.

(** ** A sweep seen through the statistics *)

(** What a sweep that answers has done. *)
Lemma updateOverdueStatus_success now st n :
  snd (updateOverdueStatus now st) = json (Swept n) ->
  exists position stockSummary,
    st_findOk st = true
    /\ StockSummaryModel.latest (st_summaries st) = Some (position, stockSummary)
    /\ n = length (List.filter (isDue now) (ss_loans stockSummary))
    /\ fst (updateOverdueStatus now st)
       = if (0 <? n)%nat
         then with_summaries st
                (<[position := touch now stockSummary
                                 (map (sweptLoan now) (ss_loans stockSummary))]>
                   (st_summaries st))
         else st.
Proof.
  unfold updateOverdueStatus, handler, bind, StockSummaryModel.findOne.
  destruct (st_findOk st) eqn:Hf; [|discriminate].
  destruct (StockSummaryModel.latest (st_summaries st)) as [[position stockSummary]|] eqn:Hl;
    [|discriminate].
  rewrite sweepLoans_spec. cbn [Nat.add].
  destruct (0 <? length (List.filter (isDue now) (ss_loans stockSummary)))%nat eqn:Hn.
  - unfold StockSummaryModel.save. destruct (st_saveOk st); [|discriminate].
    simpl. intros [= <-]. exists position, stockSummary. by rewrite Hn.
  - simpl. intros [= <-]. exists position, stockSummary. by rewrite Hn.
Qed.

Lemma swept_classes now loans :
  (length (List.filter (hasLoanStatus "active") (map (sweptLoan now) loans))
   + length (List.filter (isDue now) loans)
   = length (List.filter (hasLoanStatus "active") loans))%nat
  /\ (length (List.filter (hasLoanStatus "overdue") (map (sweptLoan now) loans))
      = length (List.filter (hasLoanStatus "overdue") loans)
        + length (List.filter (isDue now) loans))%nat
  /\ length (List.filter (hasLoanStatus "closed") (map (sweptLoan now) loans))
     = length (List.filter (hasLoanStatus "closed") loans)
  /\ sumFinalLoanAmount (map (sweptLoan now) loans) = sumFinalLoanAmount loans.
Proof.
  induction loans as [|loan rest (Ha & Ho & Hc & Hs)]; [done|].
  cbn [map List.filter]. rewrite !sum_cons, Hs.
  destruct (isDue now loan) eqn:Hdue.
  - assert (E : sweptLoan now loan = markOverdue now loan)
      by (unfold sweptLoan; by rewrite Hdue).
    rewrite E. clear E.
    assert (Hactive : hasLoanStatus "active" loan = true).
    { unfold isDue in Hdue. by apply andb_true_iff in Hdue as [Hactive _]. }
    destruct (classes_exclusive loan) as [Hex _].
    destruct (Hex Hactive) as [Hoverdue Hclosed].
    rewrite Hactive, Hoverdue, Hclosed.
    change (hasLoanStatus "active" (markOverdue now loan)) with false.
    change (hasLoanStatus "overdue" (markOverdue now loan)) with true.
    change (hasLoanStatus "closed" (markOverdue now loan)) with false.
    change (finalLoanAmount (markOverdue now loan)) with (finalLoanAmount loan).
    cbn [length]. lia.
  - assert (E : sweptLoan now loan = loan) by (unfold sweptLoan; by rewrite Hdue).
    rewrite E. clear E.
    destruct (hasLoanStatus "active" loan), (hasLoanStatus "overdue" loan),
      (hasLoanStatus "closed" loan); cbn [length]; lia.
Qed.

(** X22: a sweep moves the loans it marks from the active to the overdue
    loans of the statistics and changes nothing else in them: a query
    without filters counts, after a sweep that marked [n] loans, as many
    loans, the same total amount and as many closed loans as before, [n] more
    overdue loans and [n] fewer active ones. *)
Theorem sweep_moves_due_loans (now t : Z) (q : Query) (st : Store) (n : nat) :
  reachable st ->
  unfiltered q ->
  snd (updateOverdueStatus now st) = json (Swept n) ->
  exists before after,
    snd (getStockSummary t q st) = json (Queried before)
    /\ snd (getStockSummary t q (fst (updateOverdueStatus now st))) = json (Queried after)
    /\ totalLoans (summary after) = totalLoans (summary before)
    /\ totalLoanAmount (summary after) = totalLoanAmount (summary before)
    /\ closedLoans (summary after) = closedLoans (summary before)
    /\ overdueLoans (summary after) = (overdueLoans (summary before) + n)%nat
    /\ (activeLoans (summary after) + n)%nat = activeLoans (summary before).
Proof.
  intros Hreach (Hsearch & Hdate & Hstatus & Hjewel) Hrun.
  destruct (updateOverdueStatus_success now st n Hrun)
    as (position & stockSummary & Hf & Hl & Hn & Hst).
  rewrite Hst, (getStockSummary_run t q st Hf), Hl. cbn [snd].
  destruct (0 <? n)%nat eqn:Hpos.
  - rewrite (getStockSummary_run t q
               (with_summaries st
                  (<[position := touch now stockSummary
                                   (map (sweptLoan now) (ss_loans stockSummary))]>
                     (st_summaries st))) Hf).
    cbn [st_summaries with_summaries].
    rewrite (current_after_save st position stockSummary) by (done || by right).
    cbn [snd]. eexists _, _. split; [reflexivity|]. split; [reflexivity|].
    unfold answer. cbn [summary ss_loans touch].
    rewrite !(applyFilters_disabled q _ Hsearch Hdate Hstatus Hjewel).
    cbn [filteredStats totalLoans totalLoanAmount activeLoans overdueLoans closedLoans].
    destruct (swept_classes now (ss_loans stockSummary)) as (Ha & Ho & Hc & Hs).
    rewrite Hn. split; [apply length_map|]. by repeat split.
  - apply Nat.ltb_ge in Hpos. assert (n = 0%nat) as -> by lia.
    rewrite (getStockSummary_run t q st Hf), Hl. cbn [snd].
    eexists _, _. split; [reflexivity|]. split; [reflexivity|].
    repeat split; lia.
Qed.

Lemma sweep_moves_due_loans_witness :
  reachable Sample.synced /\ unfiltered Sample.noFilter
  /\ exists n before after,
       snd (updateOverdueStatus (Sample.clock + 400 * JSDate.msPerDay) Sample.synced)
       = json (Swept n)
       /\ snd (getStockSummary Sample.clock Sample.noFilter Sample.synced)
          = json (Queried before)
       /\ snd (getStockSummary Sample.clock Sample.noFilter
                 (fst (updateOverdueStatus (Sample.clock + 400 * JSDate.msPerDay)
                         Sample.synced)))
          = json (Queried after)
       /\ overdueLoans (summary after) = (overdueLoans (summary before) + n)%nat.
Proof.
  assert (Hq : unfiltered Sample.noFilter).
  { split; [by left|]. split; [reflexivity|]. split; [by right; right|by left]. }
  split; [exact sample_synced_reachable|]. split; [exact Hq|].
  destruct (sweep_moves_due_loans (Sample.clock + 400 * JSDate.msPerDay) Sample.clock
              Sample.noFilter Sample.synced _ sample_synced_reachable Hq eq_refl)
    as (before & after & Hbefore & Hafter & _ & _ & _ & Hoverdue & _).
  eexists _, before, after. split; [reflexivity|]. split; [exact Hbefore|].
  split; [exact Hafter|]. exact Hoverdue.
Defined.

(** * The date-time settings *)

Section DateTimeSettingsProofs.

Import DateTimeSettings.

Context {Customers : Type}.
Variable updateMany : Date -> Customers -> option (Customers * nat).
Variable parseDate : string -> Date.
Variable isoMinute : Z -> string.

Lemma required_spec customDateTime c :
required customDateTime = Some c <-> customDateTime = Some c /\ c <> "".
Proof.
unfold required. destruct customDateTime as [s|]; [|split; [done|by intros [? _]]].
destruct (String.eqb_spec s "") as [->|Hne].
- split; [done|]. by intros [[= <-] ?].
- split; [by intros [= <-]|]. by intros [[= <-] _].
Qed.

Lemma store_spec now c u l :
(length l <= 1)%nat ->
snd (store now c u l) = [fst (store now c u l)]
/\ customDateTime (fst (store now c u l)) = c
/\ default false (useCustomDate (fst (store now c u l))) = default false u.
Proof.
intros Hlen. destruct l as [|first [|second rest]]; [done|done|simpl in Hlen; lia].
Qed.

Lemma updateDateTime_stores now body (w : World Customers) c :
w_findOk w = true -> w_saveOk w = true ->
required (b_customDateTime body) = Some c ->
w_settings (fst (updateDateTime updateMany parseDate now body w))
= snd (store now c (b_useCustomDate body) (w_settings w))
/\ w_findOk (fst (updateDateTime updateMany parseDate now body w)) = true.
Proof.
intros Hf Hs Hc. unfold updateDateTime. rewrite Hf, Hc, Hs.
destruct (store now c (b_useCustomDate body) (w_settings w)) as [settings l].
cbn [snd with_settings w_customers].
by destruct (updateMany _ (w_customers w)) as [[customers n]|].
Qed.

End DateTimeSettingsProofs.

(** X23: with at most one settings document stored, the settings a request
    carries are the settings the next read shows, whether or not the update
    of the customers that follows the save succeeds: when it throws, the
    answer is 500, no customer is touched, and the settings are stored all
    the same. *)
Theorem settings_update_then_get {Customers : Type}
    (updateMany : Date -> Customers -> option (Customers * nat))
    (parseDate : string -> Date) (isoMinute : Z -> string)
    (now later : Z) (body : DateTimeSettings.SettingsBody)
    (w : DateTimeSettings.World Customers) (c : string) :
  DateTimeSettings.w_findOk w = true -> DateTimeSettings.w_saveOk w = true ->
  (length (DateTimeSettings.w_settings w) <= 1)%nat ->
  DateTimeSettings.b_customDateTime body = Some c -> c <> "" ->
  let run := DateTimeSettings.updateDateTime updateMany parseDate now body w in
  let systemDate := systemDateOf parseDate now c (DateTimeSettings.b_useCustomDate body) in
  (exists settings,
     snd (DateTimeSettings.getDateTime isoMinute later (fst run))
     = DateTimeSettings.Current settings
     /\ DateTimeSettings.customDateTime settings = c
     /\ DateTimeSettings.useCustomDate settings
        = Some (default false (DateTimeSettings.b_useCustomDate body)))
  /\ length (DateTimeSettings.w_settings (fst run)) = 1%nat
  /\ (updateMany systemDate (DateTimeSettings.w_customers w) = None ->
      snd run = DateTimeSettings.Failed "Error updating date settings"
      /\ DateTimeSettings.w_customers (fst run) = DateTimeSettings.w_customers w)
  /\ (forall customers modifiedCount,
        updateMany systemDate (DateTimeSettings.w_customers w)
        = Some (customers, modifiedCount) ->
        DateTimeSettings.w_customers (fst run) = customers
        /\ exists settings,
             snd run = DateTimeSettings.Saved modifiedCount settings
             /\ DateTimeSettings.customDateTime settings = c).
Proof.
  intros Hf Hs Hlen Hbody Hne run systemDate.
  assert (Hc : DateTimeSettings.required (DateTimeSettings.b_customDateTime body) = Some c)
    by (by apply required_spec).
  destruct (updateDateTime_stores updateMany parseDate now body w c Hf Hs Hc)
    as [Hstored Hf'].
  destruct (store_spec now c (DateTimeSettings.b_useCustomDate body) _ Hlen)
    as (Hsingle & Hcustom & Huse).
  fold run in Hstored, Hf'. rewrite Hsingle in Hstored.
  split; [|split; [by rewrite Hstored|]].
  - unfold DateTimeSettings.getDateTime. rewrite Hf', Hstored.
    cbn [DateTimeSettings.newest DateTimeSettings.newestFrom].
    eexists. split; [reflexivity|]. cbn. by rewrite Hcustom, Huse.
  - subst run. unfold DateTimeSettings.updateDateTime. rewrite Hf, Hc, Hs.
    destruct (DateTimeSettings.store now c (DateTimeSettings.b_useCustomDate body)
                (DateTimeSettings.w_settings w)) as [settings l] eqn:Hstore.
    cbn [DateTimeSettings.with_settings DateTimeSettings.w_customers].
    fold (systemDateOf parseDate now c (DateTimeSettings.b_useCustomDate body)).
    fold systemDate. cbn [fst] in Hcustom. split.
    + intros ->. done.
    + intros customers modifiedCount ->. split; [done|]. by exists settings.
Qed.

Lemma settings_update_then_get_witness :
  DateTimeSettings.w_findOk sampleWorld = true
  /\ DateTimeSettings.w_saveOk sampleWorld = true
  /\ (length (DateTimeSettings.w_settings sampleWorld) <= 1)%nat
  /\ DateTimeSettings.b_customDateTime brokenBody = Some "next week"
  /\ "next week" <> ""
  /\ snd (DateTimeSettings.updateDateTime sampleUpdateMany sampleParseDate 1731708800000
            brokenBody sampleWorld)
     = DateTimeSettings.Failed "Error updating date settings"
  /\ exists settings,
       snd (DateTimeSettings.getDateTime sampleIsoMinute 1731708800001
              (fst (DateTimeSettings.updateDateTime sampleUpdateMany sampleParseDate
                      1731708800000 brokenBody sampleWorld)))
       = DateTimeSettings.Current settings
       /\ DateTimeSettings.customDateTime settings = "next week".
Proof.
  assert (Hlen : (length (DateTimeSettings.w_settings sampleWorld) <= 1)%nat)
    by (simpl; lia).
  assert (Hne : "next week" <> "") by discriminate.
  split; [reflexivity|]. split; [reflexivity|]. split; [exact Hlen|].
  split; [reflexivity|]. split; [exact Hne|].
  destruct (settings_update_then_get sampleUpdateMany sampleParseDate sampleIsoMinute
              1731708800000 1731708800001 brokenBody sampleWorld "next week"
              eq_refl eq_refl Hlen eq_refl Hne)
    as ((settings & Hget & Hcustom & _) & _ & Hthrows & _).
  split; [exact (proj1 (Hthrows eq_refl))|].
  exists settings. split; [exact Hget|exact Hcustom].
Defined.

(** X24: the controller never deletes a settings document and creates one
    only when there is none: a read changes nothing, an update leaves as
    many documents as it found, or one where it found none; an update
    without [customDateTime], or with an empty one, is answered 500 and
    writes nothing, the customers included. *)
Theorem settings_stay_single {Customers : Type}
    (updateMany : Date -> Customers -> option (Customers * nat))
    (parseDate : string -> Date) (isoMinute : Z -> string)
    (now : Z) (body : DateTimeSettings.SettingsBody)
    (w : DateTimeSettings.World Customers) :
  fst (DateTimeSettings.getDateTime isoMinute now w) = w
  /\ (length (DateTimeSettings.w_settings
                (fst (DateTimeSettings.updateDateTime updateMany parseDate now body w)))
      = length (DateTimeSettings.w_settings w)
      \/ (DateTimeSettings.w_settings w = []
          /\ length (DateTimeSettings.w_settings
                       (fst (DateTimeSettings.updateDateTime updateMany parseDate now
                               body w)))
             = 1%nat))
  /\ (DateTimeSettings.b_customDateTime body = None
      \/ DateTimeSettings.b_customDateTime body = Some "" ->
      DateTimeSettings.updateDateTime updateMany parseDate now body w
      = (w, DateTimeSettings.Failed "Error updating date settings")).
Proof.
  split; [|split].
  - unfold DateTimeSettings.getDateTime. destruct (DateTimeSettings.w_findOk w); [|done].
    by destruct (DateTimeSettings.newest (DateTimeSettings.w_settings w)).
  - unfold DateTimeSettings.updateDateTime.
    destruct (DateTimeSettings.w_findOk w); [|by left].
    destruct (DateTimeSettings.required (DateTimeSettings.b_customDateTime body)) as [c|];
      [|by left].
    destruct (DateTimeSettings.w_saveOk w); [|by left].
    destruct (DateTimeSettings.w_settings w) as [|first rest] eqn:Hl; simpl;
      destruct (updateMany _ (DateTimeSettings.w_customers w)) as [[customers n]|];
      simpl; (by left) || (by right).
  - intros Hbody. unfold DateTimeSettings.updateDateTime.
    destruct (DateTimeSettings.w_findOk w); [|done].
    by destruct Hbody as [-> | ->].
Qed.
